(** * The Bor consensus engine ([consensus/bor/bor.go])

    A shallow embedding of the engine's header verification, block
    preparation, sealing and sprint-boundary commit code, and the
    properties of it stated by the specification.

    Conventions.
    - A Go [uint64] is a [Z] in [0, 2^64); every arithmetic operation of
      the source is followed by its wrap-around ([to_uint64]).  A Go [int]
      and [int64] is a [Z] in [-2^63, 2^63).
    - A [*big.Int] is an [option Z] ([None] is the nil pointer).
    - A Go function that returns [error] returns [option error] here
      ([None] is nil); one that returns [(T, error)] returns [result T].
    - A run-time panic is the outcome [Panics]; code that touches the
      caches, the database, the EVM state, the clock or the log runs in
      the monad [Go W] over an abstract world [W]. *)

From Stdlib Require Import ZArith Lia Bool Ascii.
From Stdlib.Strings Require Import Byte.
From stdpp Require Import base option list strings gmap pretty.

Local Open Scope Z_scope.

(** ** Machine integers *)

Definition uint64_modulus : Z := 2 ^ 64.

(** Conversion to [uint64] (and the wrap-around of [uint64] arithmetic). *)
Definition to_uint64 (x : Z) : Z := x mod uint64_modulus.

(** Conversion to [int64]. *)
Definition to_int64 (x : Z) : Z := (x + 2 ^ 63) mod uint64_modulus - 2 ^ 63.

Definition is_uint64 (x : Z) : Prop := 0 <= x < uint64_modulus.
Definition is_int (x : Z) : Prop := - 2 ^ 63 <= x < 2 ^ 63.

(** [big.Int.Uint64]: the low 64 bits of the absolute value. *)
Definition big_Uint64 (x : Z) : Z := to_uint64 (Z.abs x).

(** [big.Int.Int64]: [int64(low64(|x|))], negated when [x] is negative. *)
Definition big_Int64 (x : Z) : Z :=
  let v := to_int64 (to_uint64 (Z.abs x)) in
  if x <? 0 then to_int64 (- v) else v.

(** ** Basic data *)

Definition Address : Type := Z.
Definition Hash : Type := Z.
Definition bytes : Type := list byte.

(** [len(b)] as a Go [int]. *)
Definition len {A : Type} (l : list A) : Z := Z.of_nat (length l).

(** [bytes.Equal]. *)
Fixpoint bytes_Equal (a b : bytes) : bool :=
  match a, b with
  | [], [] => true
  | x :: a, y :: b => Byte.eqb x y && bytes_Equal a b
  | _, _ => false
  end.

(** A [time.Time] is an instant in nanoseconds since the Unix epoch. *)
Definition Instant : Type := Z.
Definition nanosPerSecond : Z := 1000000000.
Definition time_Unix (sec : Z) : Instant := sec * nanosPerSecond.
Definition Instant_Unix (t : Instant) : Z := t / nanosPerSecond.
Definition Instant_Before (t u : Instant) : bool := t <? u.

(** [types.Header], with the fields the engine reads or writes. *)
Record Header : Type := {
  ParentHash : Hash;
  UncleHash : Hash;
  Coinbase : Address;
  Root : Hash;
  Difficulty : option Z;
  Number : option Z;
  Time : Z;
  Extra : bytes;
  MixDigest : Hash;
  Nonce : Z
}.

(** [types.Block]: a header and its transactions (opaque here). *)
Record Block : Type := {
  blockHeader : Header;
  Transactions : list Z
}.

(** [EventRecordWithTime] of the clerk. *)
Record EventRecordWithTime : Type := {
  eventID : Z;
  eventContract : Address;
  eventData : bytes;
  eventTxHash : Hash;
  eventChainID : string;
  eventTime : Instant
}.

(** [types.StateSyncData]. *)
Record StateSyncData : Type := {
  syncID : Z;
  syncContract : Address;
  syncData : string;
  syncTxHash : Hash
}.

Record Validator : Type := {
  ValAddress : Address;
  VotingPower : Z;
  ProposerPriority : Z
}.

Record ValidatorSet : Type := {
  Validators : list Validator;
  Proposer : option Validator
}.

Record Snapshot : Type := {
  snapNumber : Z;
  snapHash : Hash;
  snapValidatorSet : ValidatorSet
}.

(** ** Errors *)

Inductive error : Type :=
| errUnknownBlock
| errMissingVanity
| errMissingSignature
| errExtraValidators
| errInvalidSpanValidators
| errInvalidMixDigest
| errInvalidUncleHash
| errInvalidDifficulty
| ErrInvalidTimestamp
| errOutOfRangeChain
| errShutdownDetected
| ErrFutureBlock
| ErrUnknownAncestor
| MismatchingValidatorsError (number : Z) (fromSnapshot fromHeader : bytes)
| UnauthorizedSignerError (number : Z) (signer : Address)
| BlockTooSoonError (number succession : Z)
| WrongDifficultyError (number expected actual : Z) (signer : Address)
| InvalidStateReceivedError (number lastStateID : Z) (to : Instant)
    (event : EventRecordWithTime)
| errorsNew (text : string)
| ForeignError (text : string).

(** The value of a Go [(T, error)] pair. *)
Inductive result (T : Type) : Type :=
| Ok (t : T)
| Err (e : error).
Arguments Ok {T} t.
Arguments Err {T} e.

(** ** Outcomes of a call *)

Inductive panic_value : Type :=
| PanicError (e : error)
| RuntimeError (text : string).

Inductive outcome (A : Type) : Type :=
| Returns (a : A)
| Panics (p : panic_value)
| OutOfFuel.
Arguments Returns {A} a.
Arguments Panics {A} p.
Arguments OutOfFuel {A}.

Definition divideByZero : panic_value := RuntimeError "integer divide by zero".
Definition nilDereference : panic_value :=
  RuntimeError "invalid memory address or nil pointer dereference".
Definition sliceOutOfRange : panic_value :=
  RuntimeError "slice bounds out of range".
Definition indexOutOfRange : panic_value :=
  RuntimeError "index out of range".
Definition failedTypeAssertion : panic_value :=
  RuntimeError "interface conversion".

(** The state-and-panic monad of the engine over a world [W]. *)
Definition Go (W A : Type) : Type := W -> outcome A * W.

Definition ret {W A : Type} (a : A) : Go W A := fun w => (Returns a, w).

Definition bind {W A B : Type} (m : Go W A) (k : A -> Go W B) : Go W B :=
  fun w =>
    match m w with
    | (Returns a, w') => k a w'
    | (Panics p, w') => (Panics p, w')
    | (OutOfFuel, w') => (OutOfFuel, w')
    end.

Definition panic {W A : Type} (p : panic_value) : Go W A :=
  fun w => (Panics p, w).

Definition diverge {W A : Type} : Go W A := fun w => (OutOfFuel, w).

Definition lift {W A : Type} (o : outcome A) : Go W A := fun w => (o, w).

(** A collaborator that reads the world, changes it, or both. *)
Definition reads {W A : Type} (f : W -> A) : Go W A :=
  fun w => (Returns (f w), w).
Definition writes {W : Type} (f : W -> W) : Go W unit :=
  fun w => (Returns tt, f w).
Definition calls {W A : Type} (f : W -> A * W) : Go W A :=
  fun w => let '(a, w') := f w in (Returns a, w').

Notation "'let*' x ':=' m 'in' k" := (bind m (fun x => k))
  (at level 10, x name, m at level 100, k at level 200).
Notation "m ';;' k" := (bind m (fun _ => k))
  (at level 100, k at level 200, right associativity).

(** [common.Address{}] and [common.Hash{}]. *)
Definition zeroAddress : Address := 0.
Definition zeroHash : Hash := 0.

(** [params.BorConfig].  [BlockAlloc] maps a decimal block number to the
    JSON text of a genesis allocation. *)
Record BorConfig : Type := {
  Period : Z;
  ProducerDelay : Z;
  Sprint : Z;
  BackupMultiplier : Z;
  ValidatorContract : string;
  StateReceiverContract : string;
  OverrideStateSyncRecords : option (gmap string Z);
  BlockAlloc : gmap string string
}.

Record Span : Type := {
  ID : Z;
  StartBlock : Z;
  EndBlock : Z
}.

(** ** Constants of the package *)

Definition checkpointInterval : Z := 1024.
Definition allowFutureBlockTimeSeconds : Z := 3.
Definition defaultSprintLength : Z := 64.
Definition extraVanity : Z := 32.
Definition extraSeal : Z := 65.
Definition AddressLength : Z := 20.
Definition validatorHeaderBytesLength : Z := AddressLength + 20.

(** ** [CalcProducerDelay] *)

(** [number%c.Sprint] panics when [c.Sprint] is zero. *)
Definition CalcProducerDelay (number : Z) (succession : Z) (c : BorConfig)
  : outcome Z :=
  let delay := Period c in
  if Sprint c =? 0 then Panics divideByZero else
  let delay := if number mod Sprint c =? 0 then ProducerDelay c else delay in
  let delay :=
    if succession >? 0
    then to_uint64 (delay + to_uint64 (to_uint64 succession * BackupMultiplier c))
    else delay in
  Returns delay.

(** ** [needToCommitSpan] *)

Definition needToCommitSpan (config : BorConfig) (span : option Span)
    (headerNumber : Z) : bool :=
  match span with
  | None => false
  | Some span =>
    if EndBlock span =? 0 then true
    else if (EndBlock span >? Sprint config)
            && (to_uint64 (to_uint64 (EndBlock span - Sprint config) + 1)
                =? headerNumber)
    then true
    else false
  end.

Definition isSprintStart (number sprint : Z) : outcome bool :=
  if sprint =? 0 then Panics divideByZero
  else Returns (number mod sprint =? 0).

(** ** The engine and its collaborators *)

Inductive LogLevel : Type := LvlTrace | LvlDebug | LvlInfo | LvlWarn | LvlError.

(** A log line: level, message and the value of its ["error"] key. *)
Record LogRecord : Type := {
  logLevel : LogLevel;
  logMessage : string;
  logError : option error
}.

(** [ethapi.TransactionArgs] as the engine fills it. *)
Record TransactionArgs : Type := {
  argGas : Z;
  argTo : Address;
  argData : bytes
}.

Inductive BlockNumberOrHash : Type :=
| BlockNumberOrHashWithHash (h : Hash)
| LatestBlockNumber.

(** [callmsg] wrapping [ethereum.CallMsg]. *)
Record callmsg : Type := {
  msgFrom : Address;
  msgTo : Address;
  msgGas : Z;
  msgGasPrice : Z;
  msgValue : Z;
  msgData : bytes
}.

Record HeimdallSpan : Type := {
  hsSpan : Span;
  hsValidatorSet : ValidatorSet;
  SelectedProducers : list Validator;
  hsChainID : string
}.

(** The goroutine started at the end of [Seal]: it waits for [sealDelay]
    or the stop channel and then offers [sealedBlock] to the results
    channel. *)
Record SealTask : Type := {
  sealNumber : Z;
  sealDelay : Z;
  sealWiggle : Z;
  sealedBlock : Block
}.

(** The fields of [Bor] that the code below reads.  [chainID] is
    [c.chainConfig.ChainID.String()]; [signFn] is nil until [Authorize]. *)
Record Bor : Type := {
  chainID : string;
  config : BorConfig;
  signer : Address;
  signFn : option (Address -> bytes -> result bytes);
  WithoutHeimdall : bool;
  fakeDiff : bool
}.

(** What the engine calls and that lies outside [bor.go].  Each is a
    function of the world [W], which holds the caches, the database, the
    EVM state, the clock, the log and the started goroutines.  A
    collaborator that only reads the world returns a value; one that
    changes it returns the new world too. *)
Record Collaborators (W : Type) : Type := {
  (** [time.Now()], [log.Trace] ... [log.Error], and the [go] statement
      of [Seal]. *)
  time_Now : W -> Instant;
  log_emit : LogRecord -> W -> W;
  go_spawn : SealTask -> W -> W;

  (** [header.Hash()]; [types.CalcUncleHash(nil)]; the address recovered
      by [crypto.Ecrecover] from [SealHash(header)] and the seal; the RLP
      encoding written by [encodeSigHeader]; [common.HexToAddress]; the
      JSON round trip of [decodeGenesisAlloc], kept as a map from address
      to code. *)
  Header_Hash : Header -> Hash;
  uncleHash : Hash;
  crypto_recover : Header -> result Address;
  rlp_sigHeader : Header -> bytes;
  HexToAddress : string -> Address;
  json_GenesisAlloc : string -> result (gmap Z bytes);

  (** The caches [c.signatures] and [c.recents]. *)
  signatures_Get : Hash -> W -> option Address * W;
  signatures_Add : Hash -> Address -> W -> W;
  recents_Get : Hash -> W -> option Snapshot * W;
  recents_Add : Hash -> Snapshot -> W -> W;

  (** [snapshot.go], [validator_set.go] and [validator.go]:
      [loadSnapshot], [newSnapshot], [snap.store], [snap.apply],
      [snap.GetSignerSuccessionNumber], [snap.Difficulty],
      [ValidatorSet.HasAddress], [Validator.HeaderBytes],
      [ParseValidators], and [rlp.EncodeToBytes] of the [MinimalVal]
      forms of a list of validators. *)
  loadSnapshot : Hash -> W -> result Snapshot * W;
  newSnapshot : Z -> Hash -> list Validator -> Snapshot;
  Snapshot_store : Snapshot -> W -> option error * W;
  Snapshot_apply : Snapshot -> list Header -> W -> result Snapshot * W;
  GetSignerSuccessionNumber : Snapshot -> Address -> result Z;
  Snapshot_Difficulty : Snapshot -> Address -> Z;
  HasAddress : ValidatorSet -> Address -> bool;
  HeaderBytes : Validator -> bytes;
  ParseValidators : bytes -> result (list Validator);
  rlp_MinimalVals : list Validator -> result bytes;

  (** The chain: [chain.GetHeader], [chain.GetHeaderByNumber],
      [chain.Config().IsEIP158], whether [chain] is a [*core.BlockChain],
      [bc.SetStateSync], and the text of the error of
      [misc.VerifyForkHashes], if any. *)
  chain_GetHeader : Hash -> Z -> W -> option Header;
  chain_GetHeaderByNumber : Z -> W -> option Header;
  chain_IsEIP158 : option Z -> bool;
  chain_isBlockChain : bool;
  BlockChain_SetStateSync : list StateSyncData -> W -> W;
  misc_VerifyForkHashes : Header -> option string;

  (** [validatorSetABI.Pack] and [UnpackIntoInterface] for the three
      methods the engine calls, and [c.ethAPI.Call]. *)
  Pack_getCurrentSpan : result bytes;
  Pack_getBorValidators : Z -> result bytes;
  Pack_commitSpan : Z -> Z -> Z -> bytes -> bytes -> result bytes;
  Unpack_getCurrentSpan : bytes -> result (Z * Z * Z);
  Unpack_getBorValidators : bytes -> result (list Address * list Z);
  ethAPI_Call : TransactionArgs -> BlockNumberOrHash -> W -> result bytes;

  (** Heimdall: [FetchWithRetry] of a span followed by [json.Unmarshal],
      and [FetchStateSyncEvents]; the genesis contracts client:
      [LastStateId] and [CommitState]. *)
  Heimdall_FetchSpan : Z -> W -> result HeimdallSpan * W;
  Heimdall_FetchStateSyncEvents :
    Z -> Z -> W -> result (list EventRecordWithTime) * W;
  LastStateId : Z -> W -> result Z;
  CommitState : EventRecordWithTime -> Header -> W -> option error * W;

  (** The EVM and its state: the error of [vmenv.Call] in the block
      context of a header, [state.Finalise], [state.IntermediateRoot] and
      [state.SetCode]. *)
  vmenv_Call : callmsg -> Header -> W -> option error * W;
  state_Finalise : bool -> W -> W;
  state_IntermediateRoot : bool -> W -> Hash * W;
  state_SetCode : Address -> bytes -> W -> W
}.
Arguments time_Now {W} _.
Arguments log_emit {W} _.
Arguments go_spawn {W} _.
Arguments Header_Hash {W} _.
Arguments uncleHash {W} _.
Arguments crypto_recover {W} _.
Arguments rlp_sigHeader {W} _.
Arguments HexToAddress {W} _.
Arguments json_GenesisAlloc {W} _.
Arguments signatures_Get {W} _.
Arguments signatures_Add {W} _.
Arguments recents_Get {W} _.
Arguments recents_Add {W} _.
Arguments loadSnapshot {W} _.
Arguments newSnapshot {W} _.
Arguments Snapshot_store {W} _.
Arguments Snapshot_apply {W} _.
Arguments GetSignerSuccessionNumber {W} _.
Arguments Snapshot_Difficulty {W} _.
Arguments HasAddress {W} _.
Arguments HeaderBytes {W} _.
Arguments ParseValidators {W} _.
Arguments rlp_MinimalVals {W} _.
Arguments chain_GetHeader {W} _.
Arguments chain_GetHeaderByNumber {W} _.
Arguments chain_IsEIP158 {W} _.
Arguments chain_isBlockChain {W} _.
Arguments BlockChain_SetStateSync {W} _.
Arguments misc_VerifyForkHashes {W} _.
Arguments Pack_getCurrentSpan {W} _.
Arguments Pack_getBorValidators {W} _.
Arguments Pack_commitSpan {W} _.
Arguments Unpack_getCurrentSpan {W} _.
Arguments Unpack_getBorValidators {W} _.
Arguments ethAPI_Call {W} _.
Arguments Heimdall_FetchSpan {W} _.
Arguments Heimdall_FetchStateSyncEvents {W} _.
Arguments LastStateId {W} _.
Arguments CommitState {W} _.
Arguments vmenv_Call {W} _.
Arguments state_Finalise {W} _.
Arguments state_IntermediateRoot {W} _.
Arguments state_SetCode {W} _.

(** [hex.EncodeToString]. *)
Definition hexDigit (n : N) : ascii :=
  match n with
  | 0 => "0" | 1 => "1" | 2 => "2" | 3 => "3" | 4 => "4" | 5 => "5"
  | 6 => "6" | 7 => "7" | 8 => "8" | 9 => "9" | 10 => "a" | 11 => "b"
  | 12 => "c" | 13 => "d" | 14 => "e" | _ => "f"
  end%N%char.

Definition hex_EncodeToString (b : bytes) : string :=
  foldr (fun x s =>
           String (hexDigit (Byte.to_N x / 16))
                  (String (hexDigit (Byte.to_N x mod 16)) s))
        EmptyString b.

(** [strconv.FormatUint(n, 10)]. *)
Definition FormatUint (n : Z) : string := pretty (Z.to_N n).

(** [b[lo:hi]]: a run-time panic unless [0 <= lo <= hi <= len(b)]. *)
Definition slice {A : Type} (b : list A) (lo hi : Z) : outcome (list A) :=
  if (0 <=? lo) && (lo <=? hi) && (hi <=? len b)
  then Returns (take (Z.to_nat (hi - lo)) (drop (Z.to_nat lo) b))
  else Panics sliceOutOfRange.

(** [copy(dst[off:], src)] for [off <= len(dst)]: as many bytes as fit. *)
Definition copyAt (dst : bytes) (off : nat) (src : bytes) : bytes :=
  take off dst
  ++ take (length dst - off) src
  ++ drop (off + length src) dst.

(** Modelled from the spec: [sort.Sort(ValidatorsByAddress(vals))], whose
    ordering ([validator_set.go]) is absent; the spec has validators
    sorted by address, ascending in byte order. *)
Fixpoint insertByAddress (v : Validator) (l : list Validator) : list Validator :=
  match l with
  | [] => [v]
  | x :: l' =>
    if ValAddress v <? ValAddress x then v :: l else x :: insertByAddress v l'
  end.

Definition sortByAddress (l : list Validator) : list Validator :=
  foldr insertByAddress [] l.

(** Setters for the header fields the engine assigns. *)
Definition withCoinbase (h : Header) (x : Address) : Header :=
  {| ParentHash := ParentHash h; UncleHash := UncleHash h; Coinbase := x;
     Root := Root h; Difficulty := Difficulty h; Number := Number h;
     Time := Time h; Extra := Extra h; MixDigest := MixDigest h;
     Nonce := Nonce h |}.
Definition withNonce (h : Header) (x : Z) : Header :=
  {| ParentHash := ParentHash h; UncleHash := UncleHash h;
     Coinbase := Coinbase h; Root := Root h; Difficulty := Difficulty h;
     Number := Number h; Time := Time h; Extra := Extra h;
     MixDigest := MixDigest h; Nonce := x |}.
Definition withDifficulty (h : Header) (x : option Z) : Header :=
  {| ParentHash := ParentHash h; UncleHash := UncleHash h;
     Coinbase := Coinbase h; Root := Root h; Difficulty := x;
     Number := Number h; Time := Time h; Extra := Extra h;
     MixDigest := MixDigest h; Nonce := Nonce h |}.
Definition withExtra (h : Header) (x : bytes) : Header :=
  {| ParentHash := ParentHash h; UncleHash := UncleHash h;
     Coinbase := Coinbase h; Root := Root h; Difficulty := Difficulty h;
     Number := Number h; Time := Time h; Extra := x;
     MixDigest := MixDigest h; Nonce := Nonce h |}.
Definition withMixDigest (h : Header) (x : Hash) : Header :=
  {| ParentHash := ParentHash h; UncleHash := UncleHash h;
     Coinbase := Coinbase h; Root := Root h; Difficulty := Difficulty h;
     Number := Number h; Time := Time h; Extra := Extra h;
     MixDigest := x; Nonce := Nonce h |}.
Definition withTime (h : Header) (x : Z) : Header :=
  {| ParentHash := ParentHash h; UncleHash := UncleHash h;
     Coinbase := Coinbase h; Root := Root h; Difficulty := Difficulty h;
     Number := Number h; Time := x; Extra := Extra h;
     MixDigest := MixDigest h; Nonce := Nonce h |}.
Definition withRoot (h : Header) (x : Hash) : Header :=
  {| ParentHash := ParentHash h; UncleHash := UncleHash h;
     Coinbase := Coinbase h; Root := x; Difficulty := Difficulty h;
     Number := Number h; Time := Time h; Extra := Extra h;
     MixDigest := MixDigest h; Nonce := Nonce h |}.
Definition withUncleHash (h : Header) (x : Hash) : Header :=
  {| ParentHash := ParentHash h; UncleHash := x; Coinbase := Coinbase h;
     Root := Root h; Difficulty := Difficulty h; Number := Number h;
     Time := Time h; Extra := Extra h; MixDigest := MixDigest h;
     Nonce := Nonce h |}.

(** [validateHeaderExtraField]. *)
Definition validateHeaderExtraField (extraBytes : bytes) : option error :=
  if len extraBytes <? extraVanity then Some errMissingVanity
  else if len extraBytes <? extraVanity + extraSeal then Some errMissingSignature
  else None.

(** [validateEventRecord]. *)
Definition validateEventRecord (eventRecord : EventRecordWithTime)
    (number : Z) (to : Instant) (lastStateID : Z) (chainID : string)
  : option error :=
  if negb (to_uint64 (lastStateID + 1) =? eventID eventRecord)
     || negb (String.eqb (eventChainID eventRecord) chainID)
     || negb (Instant_Before (eventTime eventRecord) to)
  then Some (InvalidStateReceivedError number lastStateID to eventRecord)
  else None.

(** [systemAddress] and [getSystemMessage]. *)
Definition systemAddress : Address := 0xffffFFFfFFffffffffffffffFfFFFfffFFFfFFfE.
Definition maxGas : Z := (uint64_modulus - 1) / 2.

Definition getSystemMessage (toAddress : Address) (data : bytes) : callmsg :=
  {| msgFrom := systemAddress; msgTo := toAddress; msgGas := maxGas;
     msgGasPrice := 0; msgValue := 0; msgData := data |}.

(** The validators built from the two arrays the contract returns:
    indexing the second array panics when the second array is the shorter one. *)
Fixpoint makeValidators (ret0 : list Address) (ret1 : list Z) (i : nat)
  : outcome (list Validator) :=
  match ret0 with
  | [] => Returns []
  | a :: rest =>
    match ret1 !! i with
    | None => Panics indexOutOfRange
    | Some power =>
      match makeValidators rest ret1 (S i) with
      | Returns valz =>
        Returns ({| ValAddress := a; VotingPower := big_Int64 power;
                    ProposerPriority := 0 |} :: valz)
      | other => other
      end
    end
  end.

(** What the goroutine of [Seal] does once it wakes: on the stop channel
    it sends nothing; after the delay it sends the sealed block if the
    receiver is ready and drops it otherwise. *)
Inductive SealWake : Type := StopClosed | DelayElapsed.

Definition sealTaskSends (task : SealTask) (wake : SealWake)
    (receiverReady : bool) : option Block :=
  match wake with
  | StopClosed => None
  | DelayElapsed => if receiverReady then Some (sealedBlock task) else None
  end.

(** [time.Time.Sub] saturates at the bounds of [time.Duration]. *)
Definition Instant_Sub (t u : Instant) : Z :=
  Z.max (- 2 ^ 63) (Z.min (2 ^ 63 - 1) (t - u)).

(** [p == nil]. *)
Definition isNil {A : Type} (p : option A) : bool :=
  match p with
  | None => true
  | Some _ => false
  end.

Fixpoint forEach {W A : Type} (l : list A) (f : A -> Go W unit) : Go W unit :=
  match l with
  | [] => ret tt
  | x :: l => f x ;; forEach l f
  end.

Section Engine.
Context {W : Type} (E : Collaborators W) (c : Bor).

Definition log (lvl : LogLevel) (msg : string) (err : option error)
  : Go W unit :=
  writes (log_emit E
            {| logLevel := lvl; logMessage := msg; logError := err |}).

(** [x.Uint64()] on a [*big.Int]. *)
Definition Uint64 (x : option Z) : Go W Z :=
  match x with
  | Some n => ret (big_Uint64 n)
  | None => panic nilDereference
  end.

(** [ecrecover]. *)
Definition ecrecover (header : Header) : Go W (result Address) :=
  let hash := Header_Hash E header in
  let* cached := calls (signatures_Get E hash) in
  match cached with
  | Some address => ret (Ok address)
  | None =>
    if len (Extra header) <? extraSeal then ret (Err errMissingSignature)
    else
      match crypto_recover E header with
      | Err err => ret (Err err)
      | Ok signer =>
        writes (signatures_Add E hash signer) ;; ret (Ok signer)
      end
  end.

(** [BorRLP]: [encodeSigHeader] panics on an extra-data shorter than
    the seal. *)
Definition BorRLP (header : Header) : outcome bytes :=
  if len (Extra header) <? 65 then Panics sliceOutOfRange
  else Returns (rlp_sigHeader E header).

(** [GetCurrentSpan]. *)
Definition GetCurrentSpan (headerHash : Hash) : Go W (result Span) :=
  let blockNr := BlockNumberOrHashWithHash headerHash in
  match Pack_getCurrentSpan E with
  | Err err =>
    log LvlError "Unable to pack tx for getCurrentSpan" (Some err) ;;
    ret (Err err)
  | Ok data =>
    let toAddress := HexToAddress E (ValidatorContract (config c)) in
    let* res := reads (ethAPI_Call E
                  {| argGas := maxGas; argTo := toAddress; argData := data |}
                  blockNr) in
    match res with
    | Err err => ret (Err err)
    | Ok res =>
      match Unpack_getCurrentSpan E res with
      | Err err => ret (Err err)
      | Ok (n, s, e) =>
        ret (Ok {| ID := big_Uint64 n; StartBlock := big_Uint64 s;
                   EndBlock := big_Uint64 e |})
      end
    end
  end.

(** [GetCurrentValidators]: a failed call to the contract panics. *)
Definition GetCurrentValidators (headerHash : Hash) (blockNumber : Z)
  : Go W (result (list Validator)) :=
  let blockNr := BlockNumberOrHashWithHash headerHash in
  match Pack_getBorValidators E blockNumber with
  | Err err =>
    log LvlError "Unable to pack tx for getValidator" (Some err) ;;
    ret (Err err)
  | Ok data =>
    let toAddress := HexToAddress E (ValidatorContract (config c)) in
    let* res := reads (ethAPI_Call E
                  {| argGas := maxGas; argTo := toAddress; argData := data |}
                  blockNr) in
    match res with
    | Err err => panic (PanicError err)
    | Ok res =>
      match Unpack_getBorValidators E res with
      | Err err => ret (Err err)
      | Ok (ret0, ret1) =>
        let* valz := lift (makeValidators ret0 ret1 0) in
        ret (Ok valz)
      end
    end
  end.

(** [GetCurrentValidatorsByBlockNrOrHash]: a failed call is returned. *)
Definition GetCurrentValidatorsByBlockNrOrHash
    (blockNrOrHash : BlockNumberOrHash) (blockNumber : Z)
  : Go W (result (list Validator)) :=
  match Pack_getBorValidators E blockNumber with
  | Err err =>
    log LvlError "Unable to pack tx for getValidator" (Some err) ;;
    ret (Err err)
  | Ok data =>
    let toAddress := HexToAddress E (ValidatorContract (config c)) in
    let* res := reads (ethAPI_Call E
                  {| argGas := maxGas; argTo := toAddress; argData := data |}
                  blockNrOrHash) in
    match res with
    | Err err => ret (Err err)
    | Ok res =>
      match Unpack_getBorValidators E res with
      | Err err => ret (Err err)
      | Ok (ret0, ret1) =>
        let* valz := lift (makeValidators ret0 ret1 0) in
        ret (Ok valz)
      end
    end
  end.

(** The loop of [snapshot]: walk back from [(number, hash)] to a cached,
    stored or genesis snapshot, gathering the headers on the way.  One
    unit of fuel per iteration. *)
Fixpoint snapshotLoop (fuel : nat) (number : Z) (hash : Hash)
    (parents headers : list Header)
  : Go W (result (Snapshot * list Header)) :=
  match fuel with
  | O => diverge
  | S fuel =>
    let* s := calls (recents_Get E hash) in
    match s with
    | Some snap => ret (Ok (snap, headers))
    | None =>
      let* disk :=
        if number mod checkpointInterval =? 0 then
          let* r := calls (loadSnapshot E hash) in
          match r with
          | Ok s => log LvlTrace "Loaded snapshot from disk" None ;; ret (Some s)
          | Err _ => ret None
          end
        else ret None in
      match disk with
      | Some snap => ret (Ok (snap, headers))
      | None =>
        let* genesis :=
          if number =? 0 then
            let* checkpoint := reads (chain_GetHeaderByNumber E number) in
            match checkpoint with
            | Some checkpoint =>
              let hash := Header_Hash E checkpoint in
              let* r := GetCurrentValidators hash (to_uint64 (number + 1)) in
              match r with
              | Err err => ret (Some (Err err))
              | Ok validators =>
                let snap := newSnapshot E number hash validators in
                let* e := calls (Snapshot_store E snap) in
                match e with
                | Some err => ret (Some (Err err))
                | None =>
                  log LvlInfo "Stored checkpoint snapshot to disk" None ;;
                  ret (Some (Ok snap))
                end
              end
            | None => ret None
            end
          else ret None in
        match genesis with
        | Some (Err err) => ret (Err err)
        | Some (Ok snap) => ret (Ok (snap, headers))
        | None =>
          let* next :=
            if len parents >? 0 then
              match last parents with
              | Some header =>
                if negb (Header_Hash E header =? hash)
                then ret (Err ErrUnknownAncestor)
                else
                  let* n := Uint64 (Number header) in
                  if negb (n =? number) then ret (Err ErrUnknownAncestor)
                  else ret (Ok (header, removelast parents))
              | None => panic indexOutOfRange
              end
            else
              let* header := reads (chain_GetHeader E hash number) in
              match header with
              | Some header => ret (Ok (header, parents))
              | None => ret (Err ErrUnknownAncestor)
              end in
          match next with
          | Err err => ret (Err err)
          | Ok (header, parents) =>
            snapshotLoop fuel (to_uint64 (number - 1)) (ParentHash header)
                         parents (headers ++ [header])
          end
        end
      end
    end
  end.

(** [snapshot]. *)
Definition snapshot (fuel : nat) (number : Z) (hash : Hash)
    (parents : list Header) : Go W (result Snapshot) :=
  let* r := snapshotLoop fuel number hash parents [] in
  match r with
  | Err err => ret (Err err)
  | Ok (snap, headers) =>
    let headers := reverse headers in
    let* r := calls (Snapshot_apply E snap headers) in
    match r with
    | Err err => ret (Err err)
    | Ok snap =>
      writes (recents_Add E (snapHash snap) snap) ;;
      if (snapNumber snap mod checkpointInterval =? 0)
         && (len headers >? 0)
      then
        let* e := calls (Snapshot_store E snap) in
        match e with
        | Some err => ret (Err err)
        | None => log LvlTrace "Stored snapshot to disk" None ;; ret (Ok snap)
        end
      else ret (Ok snap)
    end
  end.

(** [verifySeal]. *)
Definition verifySeal (fuel : nat) (header : Header) (parents : list Header)
  : Go W (option error) :=
  let* number := Uint64 (Number header) in
  if number =? 0 then ret (Some errUnknownBlock) else
  let* r := snapshot fuel (to_uint64 (number - 1)) (ParentHash header)
                     parents in
  match r with
  | Err err => ret (Some err)
  | Ok snap =>
    let* r := ecrecover header in
    match r with
    | Err err => ret (Some err)
    | Ok signer =>
      if negb (HasAddress E (snapValidatorSet snap) signer) then
        ret (Some (UnauthorizedSignerError (to_uint64 (number - 1)) signer))
      else
        match GetSignerSuccessionNumber E snap signer with
        | Err err => ret (Some err)
        | Ok succession =>
          let* parent :=
            if len parents >? 0 then ret (last parents)
            else if number >? 0 then
              reads (chain_GetHeader E (ParentHash header)
                                     (to_uint64 (number - 1)))
            else ret None in
          let* tooSoon :=
            match parent with
            | Some parent =>
              let* delay :=
                lift (CalcProducerDelay number succession (config c)) in
              ret (Time header <? to_uint64 (Time parent + delay))
            | None => ret false
            end in
          if tooSoon then ret (Some (BlockTooSoonError number succession))
          else if negb (fakeDiff c) then
            let difficulty := Snapshot_Difficulty E snap signer in
            let* d := Uint64 (Difficulty header) in
            if negb (d =? difficulty) then
              ret (Some (WrongDifficultyError number difficulty d signer))
            else ret None
          else ret None
        end
    end
  end.

(** The comparison loop of [verifyCascadingFields], run on two lists of
    the same length. *)
Fixpoint sameHeaderBytes (newValidators headerVals : list Validator)
  : bool :=
  match newValidators, headerVals with
  | val :: newValidators, headerVal :: headerVals =>
    bytes_Equal (HeaderBytes E val) (HeaderBytes E headerVal)
    && sameHeaderBytes newValidators headerVals
  | _, _ => true
  end.

(** [copy(validatorsBytes[i*validatorHeaderBytesLength:], ...)] for each
    validator in turn. *)
Fixpoint fillValidatorsBytes (validatorsBytes : bytes) (i : nat)
    (vals : list Validator) : bytes :=
  match vals with
  | [] => validatorsBytes
  | validator :: vals =>
    fillValidatorsBytes
      (copyAt validatorsBytes (i * Z.to_nat validatorHeaderBytesLength)
              (HeaderBytes E validator))
      (S i) vals
  end.

(** [verifyCascadingFields]. *)
Definition verifyCascadingFields (fuel : nat) (header : Header)
    (parents : list Header) : Go W (option error) :=
  let* number := Uint64 (Number header) in
  if number =? 0 then ret None else
  let* parent :=
    if len parents >? 0 then ret (last parents)
    else reads (chain_GetHeader E (ParentHash header)
                                (to_uint64 (number - 1))) in
  match parent with
  | None => ret (Some ErrUnknownAncestor)
  | Some parent =>
    let* parentNumber := Uint64 (Number parent) in
    if negb (parentNumber =? to_uint64 (number - 1))
       || negb (Header_Hash E parent =? ParentHash header)
    then ret (Some ErrUnknownAncestor)
    else if to_uint64 (Time parent + Period (config c)) >? Time header
    then ret (Some ErrInvalidTimestamp)
    else
      let* r := snapshot fuel (to_uint64 (number - 1)) (ParentHash header)
                         parents in
      match r with
      | Err err => ret (Some err)
      | Ok snap =>
        let* sprintEnd :=
          lift (isSprintStart (to_uint64 (number + 1)) (Sprint (config c))) in
        let* err :=
          if sprintEnd : bool then
            let* r := GetCurrentValidatorsByBlockNrOrHash
                        LatestBlockNumber (to_uint64 (number + 1)) in
            match r with
            | Err err => ret (Some err)
            | Ok newValidators =>
              let newValidators := sortByAddress newValidators in
              let* region :=
                lift (slice (Extra header) extraVanity
                            (len (Extra header) - extraSeal)) in
              match ParseValidators E region with
              | Err err => ret (Some err)
              | Ok headerVals =>
                if negb (len newValidators =? len headerVals)
                then ret (Some errInvalidSpanValidators)
                else if negb (sameHeaderBytes newValidators headerVals)
                then ret (Some errInvalidSpanValidators)
                else ret None
              end
            end
          else ret None in
        match err with
        | Some err => ret (Some err)
        | None =>
          let* sprintStart :=
            lift (isSprintStart number (Sprint (config c))) in
          let* err :=
            if sprintStart : bool then
              let* parentValidatorBytes :=
                lift (slice (Extra parent) extraVanity
                            (len (Extra parent) - extraSeal)) in
              let vals := Validators (snapValidatorSet snap) in
              let validatorsBytes :=
                fillValidatorsBytes
                  (replicate (length vals
                              * Z.to_nat validatorHeaderBytesLength) x00)
                  0 (sortByAddress vals) in
              if negb (bytes_Equal parentValidatorBytes validatorsBytes)
              then ret (Some (MismatchingValidatorsError
                                (to_uint64 (number - 1))
                                validatorsBytes parentValidatorBytes))
              else ret None
            else ret None in
          match err with
          | Some err => ret (Some err)
          | None => verifySeal fuel header parents
          end
        end
      end
  end.

(** [verifyHeader]. *)
Definition verifyHeader (fuel : nat) (header : Header)
    (parents : list Header) : Go W (option error) :=
  match Number header with
  | None => ret (Some errUnknownBlock)
  | Some n =>
    let number := big_Uint64 n in
    let* now := reads (time_Now E) in
    if Time header
       >? to_uint64 (to_int64 (Instant_Unix now + allowFutureBlockTimeSeconds))
    then ret (Some ErrFutureBlock)
    else
      match validateHeaderExtraField (Extra header) with
      | Some err => ret (Some err)
      | None =>
        if Sprint (config c) =? 0 then panic divideByZero else
        let isSprintEnd :=
          to_uint64 (number + 1) mod Sprint (config c) =? 0 in
        let signersBytes := len (Extra header) - extraVanity - extraSeal in
        if negb isSprintEnd && negb (signersBytes =? 0)
        then ret (Some errExtraValidators)
        else if isSprintEnd
                && negb (Z.rem signersBytes validatorHeaderBytesLength =? 0)
        then ret (Some errInvalidSpanValidators)
        else if negb (MixDigest header =? zeroHash)
        then ret (Some errInvalidMixDigest)
        else if negb (UncleHash header =? uncleHash E)
        then ret (Some errInvalidUncleHash)
        else if (number >? 0) && isNil (Difficulty header)
        then ret (Some errInvalidDifficulty)
        else
          match misc_VerifyForkHashes E header with
          | Some text => ret (Some (ForeignError text))
          | None => verifyCascadingFields fuel header parents
          end
      end
  end.

(** [VerifyHeader]. *)
Definition VerifyHeader (fuel : nat) (header : Header) : Go W (option error) :=
  verifyHeader fuel header [].

(** [Prepare].  The header is returned as the call leaves it, with the
    error if any. *)
Definition Prepare (fuel : nat) (header : Header)
  : Go W (Header * option error) :=
  let header := withCoinbase header zeroAddress in
  let header := withNonce header 0 in
  let* number := Uint64 (Number header) in
  let* r := snapshot fuel (to_uint64 (number - 1)) (ParentHash header) [] in
  match r with
  | Err err => ret (header, Some err)
  | Ok snap =>
    let header :=
      withDifficulty header (Some (Snapshot_Difficulty E snap (signer c))) in
    let header :=
      if len (Extra header) <? extraVanity
      then withExtra header
             (Extra header
              ++ replicate (Z.to_nat (extraVanity - len (Extra header))) x00)
      else header in
    let header :=
      withExtra header (take (Z.to_nat extraVanity) (Extra header)) in
    if Sprint (config c) =? 0 then panic divideByZero else
    let* r :=
      if to_uint64 (number + 1) mod Sprint (config c) =? 0 then
        let* r := GetCurrentValidators (ParentHash header)
                                       (to_uint64 (number + 1)) in
        match r with
        | Err _ => ret (Err (errorsNew "unknown validators"))
        | Ok newValidators =>
          let newValidators := sortByAddress newValidators in
          ret (Ok (withExtra header
                     (Extra header
                      ++ concat (map (HeaderBytes E) newValidators))))
        end
      else ret (Ok header) in
    match r with
    | Err err => ret (header, Some err)
    | Ok header =>
      let header :=
        withExtra header
          (Extra header ++ replicate (Z.to_nat extraSeal) x00) in
      let header := withMixDigest header zeroHash in
      let* parent := reads (chain_GetHeader E (ParentHash header)
                                            (to_uint64 (number - 1))) in
      match parent with
      | None => ret (header, Some ErrUnknownAncestor)
      | Some parent =>
        let r :=
          if negb (signer c =? zeroAddress)
          then GetSignerSuccessionNumber E snap (signer c)
          else Ok 0 in
        match r with
        | Err err => ret (header, Some err)
        | Ok succession =>
          let* delay :=
            lift (CalcProducerDelay number succession (config c)) in
          let header := withTime header (to_uint64 (Time parent + delay)) in
          let* now := reads (time_Now E) in
          if Time header <? to_uint64 (Instant_Unix now) then
            let* now := reads (time_Now E) in
            ret (withTime header (to_uint64 (Instant_Unix now)), None)
          else ret (header, None)
        end
      end
    end
  end.

(** [applyMessage]. *)
Definition applyMessage (msg : callmsg) (header : Header)
  : Go W (option error) :=
  let* err := calls (vmenv_Call E msg header) in
  (if isNil err then ret tt else writes (state_Finalise E true)) ;;
  ret None.

(** [getNextHeimdallSpanForTest]. *)
Definition getNextHeimdallSpanForTest (fuel : nat) (newSpanID : Z)
    (header : Header) : Go W (result HeimdallSpan) :=
  let* headerNumber := Uint64 (Number header) in
  let* r := GetCurrentSpan (ParentHash header) in
  match r with
  | Err err => ret (Err err)
  | Ok span =>
    let* r := snapshot fuel (to_uint64 (headerNumber - 1))
                       (ParentHash header) [] in
    match r with
    | Err err => ret (Err err)
    | Ok snap =>
      let startBlock :=
        if EndBlock span =? 0 then 256
        else to_uint64 (EndBlock span + 1) in
      let endBlock :=
        to_uint64 (to_uint64
                     (startBlock + to_uint64 (100 * Sprint (config c)))
                   - 1) in
      let span :=
        {| ID := newSpanID; StartBlock := startBlock;
           EndBlock := endBlock |} in
      ret (Ok {| hsSpan := span;
                 hsValidatorSet := snapValidatorSet snap;
                 SelectedProducers := Validators (snapValidatorSet snap);
                 hsChainID := chainID c |})
    end
  end.

(** [fetchAndCommitSpan]. *)
Definition fetchAndCommitSpan (fuel : nat) (newSpanID : Z) (header : Header)
  : Go W (option error) :=
  let* r :=
    if WithoutHeimdall c then getNextHeimdallSpanForTest fuel newSpanID header
    else calls (Heimdall_FetchSpan E newSpanID) in
  match r with
  | Err err => ret (Some err)
  | Ok heimdallSpan =>
    if negb (String.eqb (hsChainID heimdallSpan) (chainID c)) then
      ret (Some (errorsNew
        "Chain id proposed span and bor chain id doesn't match"))
    else
      match rlp_MinimalVals E (Validators (hsValidatorSet heimdallSpan)) with
      | Err err => ret (Some err)
      | Ok validatorBytes =>
        match rlp_MinimalVals E (SelectedProducers heimdallSpan) with
        | Err err => ret (Some err)
        | Ok producerBytes =>
          log LvlInfo "Committing new span" None ;;
          match Pack_commitSpan E (ID (hsSpan heimdallSpan))
                  (StartBlock (hsSpan heimdallSpan))
                  (EndBlock (hsSpan heimdallSpan))
                  validatorBytes producerBytes with
          | Err err =>
            log LvlError "Unable to pack tx for commitSpan" (Some err) ;;
            ret (Some err)
          | Ok data =>
            let msg :=
              getSystemMessage
                (HexToAddress E (ValidatorContract (config c))) data in
            applyMessage msg header
          end
        end
      end
  end.

(** [checkAndCommitSpan]. *)
Definition checkAndCommitSpan (fuel : nat) (header : Header)
  : Go W (option error) :=
  let* headerNumber := Uint64 (Number header) in
  let* r := GetCurrentSpan (ParentHash header) in
  match r with
  | Err err => ret (Some err)
  | Ok span =>
    if needToCommitSpan (config c) (Some span) headerNumber then
      fetchAndCommitSpan fuel (to_uint64 (ID span + 1)) header
    else ret None
  end.

(** The loop of [CommitStates] over the fetched records. *)
Fixpoint commitEventRecords (eventRecords : list EventRecordWithTime)
    (number : Z) (to : Instant) (header : Header) (lastStateID : Z)
    (stateSyncs : list StateSyncData)
  : Go W (result (list StateSyncData)) :=
  match eventRecords with
  | [] => ret (Ok stateSyncs)
  | eventRecord :: eventRecords =>
    if eventID eventRecord <=? lastStateID then
      commitEventRecords eventRecords number to header lastStateID
                         stateSyncs
    else
      match validateEventRecord eventRecord number to lastStateID
              (chainID c) with
      | Some err =>
        log LvlError "invalid event record" (Some err) ;;
        ret (Ok stateSyncs)
      | None =>
        let stateData :=
          {| syncID := eventID eventRecord;
             syncContract := eventContract eventRecord;
             syncData := hex_EncodeToString (eventData eventRecord);
             syncTxHash := eventTxHash eventRecord |} in
        let stateSyncs := stateSyncs ++ [stateData] in
        let* e := calls (CommitState E eventRecord header) in
        match e with
        | Some err => ret (Err err)
        | None =>
          commitEventRecords eventRecords number to header
                             (to_uint64 (lastStateID + 1)) stateSyncs
        end
      end
  end.

(** [CommitStates]. *)
Definition CommitStates (header : Header)
  : Go W (result (list StateSyncData)) :=
  let* number := Uint64 (Number header) in
  let* r := reads (LastStateId E (to_uint64 (number - 1))) in
  match r with
  | Err err => ret (Err err)
  | Ok _lastStateID =>
    let* from :=
      reads (chain_GetHeaderByNumber E
               (to_uint64 (number - Sprint (config c)))) in
    match from with
    | None => panic nilDereference
    | Some from =>
      let to := time_Unix (to_int64 (Time from)) in
      let lastStateID := big_Uint64 _lastStateID in
      log LvlInfo "Fetching state updates from Heimdall" None ;;
      let* r := calls (Heimdall_FetchStateSyncEvents E
                         (to_uint64 (lastStateID + 1)) (Instant_Unix to)) in
      match r with
      | Err err => ret (Err err)
      | Ok eventRecords =>
        let* eventRecords :=
          match OverrideStateSyncRecords (config c) with
          | Some overrides =>
            match overrides !! FormatUint number with
            | Some val =>
              if val <? len eventRecords
              then lift (slice eventRecords 0 val)
              else ret eventRecords
            | None => ret eventRecords
            end
          | None => ret eventRecords
          end in
        commitEventRecords eventRecords number to header lastStateID []
      end
    end
  end.

(** [changeContractCodeIfNeeded]: the keys of the map are distinct, so
    at most one of them is the decimal form of [headerNumber]. *)
Definition changeContractCodeIfNeeded (headerNumber : Z)
  : Go W (option error) :=
  match BlockAlloc (config c) !! FormatUint headerNumber with
  | None => ret None
  | Some genesisAlloc =>
    match json_GenesisAlloc E genesisAlloc with
    | Err err =>
      ret (Some (errorsNew "failed to decode genesis alloc"))
    | Ok allocs =>
      forEach (map_to_list allocs)
        (fun account =>
           log LvlInfo "change contract code" None ;;
           writes (state_SetCode E (fst account) (snd account))) ;;
      ret None
    end
  end.

(** [Finalize]: nothing is returned; the header is the one the call
    leaves behind.  [None] in the middle stands for the early return. *)
Definition Finalize (fuel : nat) (header : Header) : Go W Header :=
  let stateSyncData : list StateSyncData := [] in
  let* headerNumber := Uint64 (Number header) in
  if Sprint (config c) =? 0 then panic divideByZero else
  let* r :=
    if headerNumber mod Sprint (config c) =? 0 then
      let* err := checkAndCommitSpan fuel header in
      match err with
      | Some err =>
        log LvlError "Error while committing span" (Some err) ;; ret None
      | None =>
        if negb (WithoutHeimdall c) then
          let* r := CommitStates header in
          match r with
          | Err err =>
            log LvlError "Error while committing states" (Some err) ;;
            ret None
          | Ok stateSyncData => ret (Some stateSyncData)
          end
        else ret (Some stateSyncData)
      end
    else ret (Some stateSyncData) in
  match r with
  | None => ret header
  | Some stateSyncData =>
    let* err := changeContractCodeIfNeeded headerNumber in
    match err with
    | Some err =>
      log LvlError "Error changing contract code" (Some err) ;; ret header
    | None =>
      let* root := calls (state_IntermediateRoot E
                            (chain_IsEIP158 E (Number header))) in
      let header := withRoot header root in
      let header := withUncleHash header (uncleHash E) in
      if chain_isBlockChain E then
        writes (BlockChain_SetStateSync E stateSyncData) ;; ret header
      else panic failedTypeAssertion
    end
  end.

(** [FinalizeAndAssemble]: the header as the call leaves it, and the
    returned [(block, error)] pair. *)
Definition FinalizeAndAssemble (fuel : nat) (header : Header)
    (txs : list Z) : Go W (Header * result Block) :=
  let stateSyncData : list StateSyncData := [] in
  let* headerNumber := Uint64 (Number header) in
  if Sprint (config c) =? 0 then panic divideByZero else
  let* r :=
    if headerNumber mod Sprint (config c) =? 0 then
      let* err := checkAndCommitSpan fuel header in
      match err with
      | Some err =>
        log LvlError "Error while committing span" (Some err) ;;
        ret (Err err)
      | None =>
        if negb (WithoutHeimdall c) then
          let* r := CommitStates header in
          match r with
          | Err err =>
            log LvlError "Error while committing states" (Some err) ;;
            ret (Err err)
          | Ok stateSyncData => ret (Ok stateSyncData)
          end
        else ret (Ok stateSyncData)
      end
    else ret (Ok stateSyncData) in
  match r with
  | Err err => ret (header, Err err)
  | Ok stateSyncData =>
    let* err := changeContractCodeIfNeeded headerNumber in
    match err with
    | Some err =>
      log LvlError "Error changing contract code" (Some err) ;;
      ret (header, Err err)
    | None =>
      let* root := calls (state_IntermediateRoot E
                            (chain_IsEIP158 E (Number header))) in
      let header := withRoot header root in
      let header := withUncleHash header (uncleHash E) in
      let block := {| blockHeader := header; Transactions := txs |} in
      if chain_isBlockChain E then
        writes (BlockChain_SetStateSync E stateSyncData) ;;
        ret (header, Ok block)
      else panic failedTypeAssertion
    end
  end.

(** [Seal].  The goroutine it starts on success is handed to the
    scheduler ([go_spawn]); nothing is sent on the results channel by
    [Seal] itself. *)
Definition Seal (fuel : nat) (block : Block) : Go W (option error) :=
  let header := blockHeader block in
  let* number := Uint64 (Number header) in
  if number =? 0 then ret (Some errUnknownBlock) else
  if (Period (config c) =? 0) && (len (Transactions block) =? 0) then
    log LvlInfo "Sealing paused, waiting for transactions" None ;;
    ret None
  else
    let* r := snapshot fuel (to_uint64 (number - 1)) (ParentHash header) [] in
    match r with
    | Err err => ret (Some err)
    | Ok snap =>
      if negb (HasAddress E (snapValidatorSet snap) (signer c)) then
        ret (Some (UnauthorizedSignerError (to_uint64 (number - 1))
                                           (signer c)))
      else
        match GetSignerSuccessionNumber E snap (signer c) with
        | Err err => ret (Some err)
        | Ok successionNumber =>
          let* now := reads (time_Now E) in
          let delay := Instant_Sub (time_Unix (to_int64 (Time header))) now in
          let wiggle :=
            to_int64 (to_int64 (successionNumber
                                * to_int64 (BackupMultiplier (config c)))
                      * nanosPerSecond) in
          let* rlp := lift (BorRLP header) in
          match signFn c with
          | None => panic nilDereference
          | Some sign =>
            match sign (signer c) rlp with
            | Err err => ret (Some err)
            | Ok sighash =>
              let header :=
                withExtra header
                  (copyAt (Extra header)
                          (length (Extra header) - Z.to_nat extraSeal)
                          sighash) in
              log LvlTrace "Waiting for slot to sign and propagate" None ;;
              writes (go_spawn E
                        {| sealNumber := number; sealDelay := delay;
                           sealWiggle := wiggle;
                           sealedBlock :=
                             {| blockHeader := header;
                                Transactions := Transactions block |} |}) ;;
              ret None
            end
          end
        end
    end.
End Engine.

(** ** The rest of the package *)

(** [Authorize]: the signer and the signing function of the engine are
    replaced (the function may be nil). *)
Definition Authorize (c : Bor) (signerAddress : Address)
    (sign : option (Address -> bytes -> result bytes)) : Bor :=
  {| chainID := chainID c; config := config c; signer := signerAddress;
     signFn := sign; WithoutHeimdall := WithoutHeimdall c;
     fakeDiff := fakeDiff c |}.

(** [borConfig.Sprint = x]. *)
Definition withSprint (b : BorConfig) (x : Z) : BorConfig :=
  {| Period := Period b; ProducerDelay := ProducerDelay b; Sprint := x;
     BackupMultiplier := BackupMultiplier b;
     ValidatorContract := ValidatorContract b;
     StateReceiverContract := StateReceiverContract b;
     OverrideStateSyncRecords := OverrideStateSyncRecords b;
     BlockAlloc := BlockAlloc b |}.

(** What a call of [New] ends in: the engine, the nil dereference of a
    chain configuration without a Bor section, or the panic on a block
    allocation that cannot be decoded, which names the key of the
    allocation and the error. *)
Inductive NewOutcome : Type :=
| Engine (c : Bor)
| NilBorConfig
| BadBlockAlloc (key : string) (err : error).

(** [validatorContains]: the first validator of [a] at the address of
    [x], if any. *)
Fixpoint validatorContains (a : list Validator) (x : Validator)
  : option Validator :=
  match a with
  | [] => None
  | n :: a =>
    if ValAddress n =? ValAddress x then Some n else validatorContains a x
  end.

(** [ov.VotingPower = x]. *)
Definition withVotingPower (v : Validator) (x : Z) : Validator :=
  {| ValAddress := ValAddress v; VotingPower := x;
     ProposerPriority := ProposerPriority v |}.

(** The two loops of [getUpdatedValidatorSet], for new validators that
    are objects of their own: the first gives every old validator, in
    place, the voting power the new list has for its address, or 0, and
    gathers it; the second adds the new validators whose address is not
    gathered yet.  [validatorChanges] is the change set the function
    hands to [UpdateWithChangeSet] ([validator_set.go]). *)
Definition updateOldVals (oldVals newVals : list Validator)
  : list Validator :=
  map (fun ov =>
         match validatorContains newVals ov with
         | Some f => withVotingPower ov (VotingPower f)
         | None => withVotingPower ov 0
         end) oldVals.

Fixpoint addNewVals (changes newVals : list Validator) : list Validator :=
  match newVals with
  | [] => changes
  | nv :: newVals =>
    match validatorContains changes nv with
    | Some _ => addNewVals changes newVals
    | None => addNewVals (changes ++ [nv]) newVals
    end
  end.

Definition validatorChanges (oldVals newVals : list Validator)
  : list Validator :=
  addNewVals (updateOldVals oldVals newVals) newVals.

(** [cpu.InfoStat] (the field read here) and [getCoresCount] of
    [cmd/geth/fingerprintcmd.go]: [Cores] is an [int32], the sum an
    [int]. *)
Record InfoStat : Type := {
  Cores : Z
}.

Definition getCoresCount (cp : list InfoStat) : Z :=
  foldl (fun cores info => to_int64 (cores + Cores info)) 0 cp.

Section Interface.
Context {W : Type} (E : Collaborators W) (c : Bor).

(** [Author]. *)
Definition Author (header : Header) : Go W (result Address) :=
  ecrecover E header.

(** [VerifySeal]. *)
Definition VerifySeal (fuel : nat) (header : Header) : Go W (option error) :=
  verifySeal E c fuel header [].

(** [CalcDifficulty]: nil when the snapshot at the parent cannot be
    had. *)
Definition CalcDifficulty (fuel : nat) (parent : Header) : Go W (option Z) :=
  let* number := Uint64 (Number parent) in
  let* r := snapshot E c fuel number (Header_Hash E parent) [] in
  match r with
  | Err _ => ret None
  | Ok snap => ret (Some (Snapshot_Difficulty E snap (signer c)))
  end.

(** The goroutine of [VerifyHeaders].  The results channel has room for
    every header, so the send of each [select] is always ready;
    [abort i] tells whether the [select] of iteration [i] takes the abort
    case instead, which it can once the abort channel is closed.  The
    value is the list of the results sent, in order. *)
Fixpoint verifyHeadersLoop (fuel : nat) (abort : nat -> bool)
    (headers : list Header) (i : nat) (rest : list Header)
  : Go W (list (option error)) :=
  match rest with
  | [] => ret []
  | header :: rest =>
    let* err := verifyHeader E c fuel header (take i headers) in
    if abort i then ret []
    else
      let* sent := verifyHeadersLoop fuel abort headers (S i) rest in
      ret (err :: sent)
  end.

Definition VerifyHeaders (fuel : nat) (abort : nat -> bool)
    (headers : list Header) : Go W (list (option error)) :=
  verifyHeadersLoop fuel abort headers 0 headers.

(** [decodeGenesisAlloc]. *)
Definition decodeGenesisAlloc (i : string) : result (gmap Z bytes) :=
  json_GenesisAlloc E i.

(** The first block allocation, in the order of the keys, that cannot be
    decoded (Go ranges over the map in an order of its own choice). *)
Fixpoint firstBadAlloc (allocs : list (string * string))
  : option (string * error) :=
  match allocs with
  | [] => None
  | (key, genesisAlloc) :: allocs =>
    match decodeGenesisAlloc genesisAlloc with
    | Err err => Some (key, err)
    | Ok _ => firstBadAlloc allocs
    end
  end.

(** [New], for the chain id, the Bor section of the chain configuration
    (nil when there is none) and the Heimdall switch. *)
Definition New (chain : string) (borConfig : option BorConfig)
    (withoutHeimdall : bool) : NewOutcome :=
  match borConfig with
  | None => NilBorConfig
  | Some borConfig =>
    let borConfig :=
      if Sprint borConfig =? 0 then withSprint borConfig defaultSprintLength
      else borConfig in
    let c :=
      {| chainID := chain; config := borConfig; signer := zeroAddress;
         signFn := None; WithoutHeimdall := withoutHeimdall;
         fakeDiff := false |} in
    match firstBadAlloc (map_to_list (BlockAlloc (config c))) with
    | Some (key, err) => BadBlockAlloc key err
    | None => Engine c
    end
  end.
End Interface.

(** ** A small concrete world

    A world in which every collaborator is a simple total function, used
    to run the engine on explicit inputs. *)
Module Toy.

(** What the outside answers in a run. *)
Record Scenario : Type := {
  knownHeaders : list Header;
  contractAnswers : bool;
  contractValidators : list Validator;
  contractSpan : Span;
  fetchedEvents : list EventRecordWithTime;
  evmFails : bool
}.

Record World : Type := {
  clock : Instant;
  logged : list LogRecord;
  goroutines : list SealTask;
  recents : gmap Z Snapshot;
  lastStateID : Z;
  committed : list EventRecordWithTime;
  evmCalls : list callmsg;
  finalised : nat;
  stateSync : list StateSyncData
}.

Definition addLog (r : LogRecord) (w : World) : World :=
  {| clock := clock w; logged := logged w ++ [r];
     goroutines := goroutines w; recents := recents w;
     lastStateID := lastStateID w; committed := committed w;
     evmCalls := evmCalls w; finalised := finalised w;
     stateSync := stateSync w |}.
Definition addGoroutine (t : SealTask) (w : World) : World :=
  {| clock := clock w; logged := logged w;
     goroutines := goroutines w ++ [t]; recents := recents w;
     lastStateID := lastStateID w; committed := committed w;
     evmCalls := evmCalls w; finalised := finalised w;
     stateSync := stateSync w |}.
Definition addRecent (h : Hash) (s : Snapshot) (w : World) : World :=
  {| clock := clock w; logged := logged w;
     goroutines := goroutines w; recents := <[h := s]> (recents w);
     lastStateID := lastStateID w; committed := committed w;
     evmCalls := evmCalls w; finalised := finalised w;
     stateSync := stateSync w |}.
Definition addCommit (e : EventRecordWithTime) (w : World) : World :=
  {| clock := clock w; logged := logged w;
     goroutines := goroutines w; recents := recents w;
     lastStateID := eventID e; committed := committed w ++ [e];
     evmCalls := evmCalls w; finalised := finalised w;
     stateSync := stateSync w |}.
Definition addEvmCall (m : callmsg) (w : World) : World :=
  {| clock := clock w; logged := logged w;
     goroutines := goroutines w; recents := recents w;
     lastStateID := lastStateID w; committed := committed w;
     evmCalls := evmCalls w ++ [m]; finalised := finalised w;
     stateSync := stateSync w |}.
Definition addFinalise (w : World) : World :=
  {| clock := clock w; logged := logged w;
     goroutines := goroutines w; recents := recents w;
     lastStateID := lastStateID w; committed := committed w;
     evmCalls := evmCalls w; finalised := S (finalised w);
     stateSync := stateSync w |}.
Definition atClock (seconds : Z) (w : World) : World :=
  {| clock := time_Unix seconds; logged := logged w;
     goroutines := goroutines w; recents := recents w;
     lastStateID := lastStateID w; committed := committed w;
     evmCalls := evmCalls w; finalised := finalised w;
     stateSync := stateSync w |}.
Definition setStateSync (d : list StateSyncData) (w : World) : World :=
  {| clock := clock w; logged := logged w;
     goroutines := goroutines w; recents := recents w;
     lastStateID := lastStateID w; committed := committed w;
     evmCalls := evmCalls w; finalised := finalised w;
     stateSync := d |}.

Definition hashOf (h : Header) : Hash :=
  match Number h with
  | Some n => 1000 + n
  | None => 0
  end.

Definition numberIs (n : Z) (h : Header) : bool :=
  match Number h with
  | Some m => m =? n
  | None => false
  end.

Definition findHeader (s : Scenario) (hash : Hash) (number : Z)
  : option Header :=
  List.find (fun h => (hashOf h =? hash) && numberIs number h)
            (knownHeaders s).

Definition findHeaderByNumber (s : Scenario) (number : Z) : option Header :=
  List.find (numberIs number) (knownHeaders s).

Fixpoint indexOf (a : Address) (vals : list Validator) : option nat :=
  match vals with
  | [] => None
  | v :: vals =>
    if ValAddress v =? a then Some O
    else match indexOf a vals with
         | Some i => Some (S i)
         | None => None
         end
  end.

(** Modelled from the spec: [GetSignerSuccessionNumber] ([snapshot.go],
    absent) returns the zero-based offset of the signer from the current
    proposer in the rotation and fails with [UnauthorizedSigner] when the
    signer is not in the set. *)
Definition succession (snap : Snapshot) (signer : Address) : result Z :=
  let vals := Validators (snapValidatorSet snap) in
  let proposerIndex :=
    match Proposer (snapValidatorSet snap) with
    | Some p => default O (indexOf (ValAddress p) vals)
    | None => O
    end in
  match indexOf signer vals with
  | None => Err (UnauthorizedSignerError (snapNumber snap) signer)
  | Some i =>
    Ok ((Z.of_nat i - Z.of_nat proposerIndex) mod len vals)
  end.

(** Modelled from the spec: [Difficulty(signer)] ([snapshot.go], absent)
    is the number of validators minus the succession of the signer. *)
Definition difficulty (snap : Snapshot) (signer : Address) : Z :=
  match succession snap signer with
  | Ok s => len (Validators (snapValidatorSet snap)) - s
  | Err _ => 0
  end.

Definition applyHeaders (snap : Snapshot) (headers : list Header)
  : Snapshot :=
  match last headers with
  | Some h =>
    {| snapNumber := default 0 (Number h); snapHash := hashOf h;
       snapValidatorSet := snapValidatorSet snap |}
  | None => snap
  end.

Definition reverted : error := ForeignError "execution reverted".

(** Modelled from the spec: the header form of a validator
    ([validator.go], absent) is its 20-byte address followed by its
    voting power as a big-endian number padded to 20 bytes, and
    [ParseValidators] reads such 40-byte groups back. *)
Definition byteOf (x : Z) : byte := default x00 (Byte.of_N (Z.to_N x)).

Fixpoint bigEndian (width : nat) (x : Z) : bytes :=
  match width with
  | O => []
  | S width => bigEndian width (x / 256) ++ [byteOf (x mod 256)]
  end.

Definition fromBigEndian (b : bytes) : Z :=
  foldl (fun acc x => acc * 256 + Z.of_N (Byte.to_N x)) 0 b.

Definition headerBytes (v : Validator) : bytes :=
  bigEndian 20 (ValAddress v) ++ bigEndian 20 (VotingPower v).

Fixpoint parseGroups (groups : nat) (b : bytes) : list Validator :=
  match groups with
  | O => []
  | S groups =>
    {| ValAddress := fromBigEndian (take 20 b);
       VotingPower := fromBigEndian (take 20 (drop 20 b));
       ProposerPriority := 0 |}
    :: parseGroups groups (drop 40 b)
  end.

(** In this world a seal is the address of its signer, as a big-endian
    number of 65 bytes. *)
Definition sealOf (signer : Address) : bytes := bigEndian 65 signer.
Definition sealSigner (extra : bytes) : Address :=
  fromBigEndian (drop (length extra - 65) extra).

Definition parseValidators (b : bytes) : result (list Validator) :=
  if len b mod 40 =? 0
  then Ok (parseGroups (Z.to_nat (len b / 40)) b)
  else Err (errorsNew "Invalid validators bytes").

Definition collaborators (s : Scenario) : Collaborators World :=
  {| time_Now := clock;
     log_emit := addLog;
     go_spawn := addGoroutine;
     Header_Hash := hashOf;
     uncleHash :=
       0x1dcc4de8dec75d7aab85b567b6ccd41ad312451b948a7413f0a142fd40d49347;
     crypto_recover := fun h => Ok (sealSigner (Extra h));
     rlp_sigHeader := fun _ => [];
     HexToAddress := fun _ => 4096;
     json_GenesisAlloc := fun _ => Ok ∅;
     signatures_Get := fun _ w => (None, w);
     signatures_Add := fun _ _ w => w;
     recents_Get := fun h w => (recents w !! h, w);
     recents_Add := addRecent;
     loadSnapshot := fun _ w => (Err (ForeignError "not found"), w);
     newSnapshot := fun n h vals =>
       {| snapNumber := n; snapHash := h;
          snapValidatorSet :=
            {| Validators := vals; Proposer := head vals |} |};
     Snapshot_store := fun _ w => (None, w);
     Snapshot_apply := fun snap hs w => (Ok (applyHeaders snap hs), w);
     GetSignerSuccessionNumber := succession;
     Snapshot_Difficulty := difficulty;
     HasAddress := fun vs a => bool_decide (is_Some (indexOf a (Validators vs)));
     HeaderBytes := headerBytes;
     ParseValidators := parseValidators;
     rlp_MinimalVals := fun _ => Ok [];
     chain_GetHeader := fun h n _ => findHeader s h n;
     chain_GetHeaderByNumber := fun n _ => findHeaderByNumber s n;
     chain_IsEIP158 := fun _ => true;
     chain_isBlockChain := true;
     BlockChain_SetStateSync := setStateSync;
     misc_VerifyForkHashes := fun _ => None;
     Pack_getCurrentSpan := Ok [];
     Pack_getBorValidators := fun _ => Ok [];
     Pack_commitSpan := fun _ _ _ _ _ => Ok [];
     Unpack_getCurrentSpan := fun _ =>
       Ok (ID (contractSpan s), StartBlock (contractSpan s),
           EndBlock (contractSpan s));
     Unpack_getBorValidators := fun _ =>
       Ok (map ValAddress (contractValidators s),
           map VotingPower (contractValidators s));
     ethAPI_Call := fun _ _ _ =>
       if contractAnswers s then Ok [] else Err reverted;
     Heimdall_FetchSpan := fun _ w => (Err (ForeignError "unavailable"), w);
     Heimdall_FetchStateSyncEvents := fun _ _ w => (Ok (fetchedEvents s), w);
     LastStateId := fun _ w => Ok (lastStateID w);
     CommitState := fun e _ w => (None, addCommit e w);
     vmenv_Call := fun m _ w =>
       (if evmFails s then Some reverted else None, addEvmCall m w);
     state_Finalise := fun _ w => addFinalise w;
     state_IntermediateRoot := fun _ w => (7, w);
     state_SetCode := fun _ _ w => w |}.

End Toy.

(** ** Explicit runs

    The chain of the end-to-end scenarios of the specification: period 2,
    sprint 4, backup multiplier 2, two validators of power 1 at the
    addresses 10 and 11, a genesis block of time 100 whose snapshot is
    cached, and a clock that shows 50 seconds. *)
Module Runs.
Import Toy.

Definition cfg : BorConfig :=
  {| Period := 2; ProducerDelay := 6; Sprint := 4; BackupMultiplier := 2;
     ValidatorContract := "0x1000"; StateReceiverContract := "0x1001";
     OverrideStateSyncRecords := None; BlockAlloc := ∅ |}.

(** The same chain with a sprint of one block, and with a period of
    zero. *)
Definition cfgSprint1 : BorConfig :=
  {| Period := 2; ProducerDelay := 6; Sprint := 1; BackupMultiplier := 2;
     ValidatorContract := "0x1000"; StateReceiverContract := "0x1001";
     OverrideStateSyncRecords := None; BlockAlloc := ∅ |}.
Definition cfgPeriod0 : BorConfig :=
  {| Period := 0; ProducerDelay := 6; Sprint := 4; BackupMultiplier := 2;
     ValidatorContract := "0x1000"; StateReceiverContract := "0x1001";
     OverrideStateSyncRecords := None; BlockAlloc := ∅ |}.

Definition engineOf (cfg : BorConfig) (signerAddress : Address) : Bor :=
  {| chainID := "137"; config := cfg; signer := signerAddress;
     signFn := None; WithoutHeimdall := false; fakeDiff := false |}.

Definition engine (signerAddress : Address) : Bor :=
  engineOf cfg signerAddress.

Definition validator (a : Address) : Validator :=
  {| ValAddress := a; VotingPower := 1; ProposerPriority := 0 |}.

Definition header (n parent t : Z) (extra : bytes) : Header :=
  {| ParentHash := parent;
     UncleHash :=
       0x1dcc4de8dec75d7aab85b567b6ccd41ad312451b948a7413f0a142fd40d49347;
     Coinbase := 0; Root := 0; Difficulty := Some 1; Number := Some n;
     Time := t; Extra := extra; MixDigest := 0; Nonce := 0 |}.

Definition genesis : Header := header 0 0 100 (replicate 97 x00).

Definition snapshotOf (vals : list Validator) : Snapshot :=
  {| snapNumber := 0; snapHash := hashOf genesis;
     snapValidatorSet := {| Validators := vals; Proposer := head vals |} |}.

(** [answers]: whether calls to the contract succeed; [events]: what
    Heimdall returns. *)
Definition scenario (answers : bool) (events : list EventRecordWithTime)
  : Scenario :=
  {| knownHeaders := [genesis]; contractAnswers := answers;
     contractValidators := [validator 10; validator 11];
     contractSpan := {| ID := 5; StartBlock := 100; EndBlock := 163 |};
     fetchedEvents := events; evmFails := false |}.

Definition world (vals : list Validator) : World :=
  {| clock := time_Unix 50; logged := []; goroutines := [];
     recents := {[ hashOf genesis := snapshotOf vals ]};
     lastStateID := 10; committed := []; evmCalls := []; finalised := 0;
     stateSync := [] |}.

Definition event (id : Z) : EventRecordWithTime :=
  {| eventID := id; eventContract := 4097; eventData := [];
     eventTxHash := 0; eventChainID := "137"; eventTime := time_Unix 90 |}.

(** The usual collaborators and world. *)
Definition E0 : Collaborators World := collaborators (scenario true []).
Definition w0 : World := world [validator 10; validator 11].


(** The chain once block 2 (time 104) is known, with the snapshot at
    that block cached. *)
Definition block2 : Header := header 2 1001 104 (replicate 97 x00).
Definition EAt2 : Collaborators World :=
  collaborators
    {| knownHeaders := [genesis; block2]; contractAnswers := true;
       contractValidators := [validator 10; validator 11];
       contractSpan := {| ID := 5; StartBlock := 100; EndBlock := 163 |};
       fetchedEvents := []; evmFails := false |}.

(** Collaborators whose contract calls fail. *)
Definition EFailing : Collaborators World :=
  collaborators (scenario false []).

(** Block 1 before [Prepare], and as [Prepare] leaves it for the
    in-turn signer: time 102, difficulty 2. *)
Definition block1 : Header := header 1 (hashOf genesis) 0 [].
Definition prepared1 : Header :=
  withDifficulty (header 1 (hashOf genesis) 102 (replicate 97 x00)) (Some 2).

(** Block 4, the first block of the second sprint. *)
Definition block4 : Header := header 4 1003 50 [].

(** Collaborators whose Heimdall returns the events 11, 12 and 14
    (scenario S6), and the events 10 and 11. *)
Definition ES6 : Collaborators World :=
  collaborators (scenario true [event 11; event 12; event 14]).
Definition EStale : Collaborators World :=
  collaborators (scenario true [event 10; event 11]).

(** A world in which the snapshot of block 2 is cached. *)
Definition w2Cached : World :=
  addRecent 1002
    {| snapNumber := 2; snapHash := 1002;
       snapValidatorSet :=
         {| Validators := [validator 10; validator 11];
            Proposer := Some (validator 10) |} |} w0.

(** The same world when the clock shows 110 seconds. *)
Definition w2At110 : World := atClock 110 w2Cached.

(** The engine of the signer 10 once [Authorize] gave it a signing
    function. *)
Definition signingEngine : Bor :=
  {| chainID := "137"; config := cfg; signer := 10;
     signFn := Some (fun account _ => Ok (sealOf account));
     WithoutHeimdall := false; fakeDiff := false |}.

(** The usual world when the clock shows 100 and 101 seconds. *)
Definition w0At100 : World := atClock 100 w0.
Definition w0At101 : World := atClock 101 w0.

(** Block 1 sealed by [signer] at time [t] with difficulty [d], and
    block 3 sealed by the validator 10 with the validator bytes
    [region]. *)
Definition sealed1 (signer t d : Z) : Header :=
  withDifficulty
    (header 1 (hashOf genesis) t (replicate 32 x00 ++ sealOf signer))
    (Some d).
Definition sealed3 (region : bytes) : Header :=
  withDifficulty
    (header 3 1002 106 (replicate 32 x00 ++ region ++ sealOf 10))
    (Some 2).


(** The span after the current one of the contract, as Heimdall has it,
    and the usual collaborators with a Heimdall that returns it. *)
Definition nextSpan : HeimdallSpan :=
  {| hsSpan := {| ID := 6; StartBlock := 164; EndBlock := 227 |};
     hsValidatorSet :=
       {| Validators := [validator 10; validator 11];
          Proposer := Some (validator 10) |};
     SelectedProducers := [validator 11];
     hsChainID := "137" |}.
Definition EHeimdall : Collaborators World :=
  {| time_Now := time_Now E0;
     log_emit := log_emit E0;
     go_spawn := go_spawn E0;
     Header_Hash := Header_Hash E0;
     uncleHash := uncleHash E0;
     crypto_recover := crypto_recover E0;
     rlp_sigHeader := rlp_sigHeader E0;
     HexToAddress := HexToAddress E0;
     json_GenesisAlloc := json_GenesisAlloc E0;
     signatures_Get := signatures_Get E0;
     signatures_Add := signatures_Add E0;
     recents_Get := recents_Get E0;
     recents_Add := recents_Add E0;
     loadSnapshot := loadSnapshot E0;
     newSnapshot := newSnapshot E0;
     Snapshot_store := Snapshot_store E0;
     Snapshot_apply := Snapshot_apply E0;
     GetSignerSuccessionNumber := GetSignerSuccessionNumber E0;
     Snapshot_Difficulty := Snapshot_Difficulty E0;
     HasAddress := HasAddress E0;
     HeaderBytes := HeaderBytes E0;
     ParseValidators := ParseValidators E0;
     rlp_MinimalVals := rlp_MinimalVals E0;
     chain_GetHeader := chain_GetHeader E0;
     chain_GetHeaderByNumber := chain_GetHeaderByNumber E0;
     chain_IsEIP158 := chain_IsEIP158 E0;
     chain_isBlockChain := chain_isBlockChain E0;
     BlockChain_SetStateSync := BlockChain_SetStateSync E0;
     misc_VerifyForkHashes := misc_VerifyForkHashes E0;
     Pack_getCurrentSpan := Pack_getCurrentSpan E0;
     Pack_getBorValidators := Pack_getBorValidators E0;
     Pack_commitSpan := Pack_commitSpan E0;
     Unpack_getCurrentSpan := Unpack_getCurrentSpan E0;
     Unpack_getBorValidators := Unpack_getBorValidators E0;
     ethAPI_Call := ethAPI_Call E0;
     Heimdall_FetchSpan := fun _ w => (Ok nextSpan, w);
     Heimdall_FetchStateSyncEvents := Heimdall_FetchStateSyncEvents E0;
     LastStateId := LastStateId E0;
     CommitState := CommitState E0;
     vmenv_Call := vmenv_Call E0;
     state_Finalise := state_Finalise E0;
     state_IntermediateRoot := state_IntermediateRoot E0;
     state_SetCode := state_SetCode E0 |}.

(** The engine of the signer 10 that runs without Heimdall. *)
Definition testEngine : Bor :=
  {| chainID := "137"; config := cfg; signer := 10; signFn := None;
     WithoutHeimdall := true; fakeDiff := false |}.

(** Block 160, the first block of the last sprint of the current span. *)
Definition block160 : Header := header 160 1159 50 [].

(** The usual collaborators with a node that fails the contract calls
    addressed to a block by its hash, and answers those addressed to the
    latest block. *)
Definition EHashFails : Collaborators World :=
  {| time_Now := time_Now E0;
     log_emit := log_emit E0;
     go_spawn := go_spawn E0;
     Header_Hash := Header_Hash E0;
     uncleHash := uncleHash E0;
     crypto_recover := crypto_recover E0;
     rlp_sigHeader := rlp_sigHeader E0;
     HexToAddress := HexToAddress E0;
     json_GenesisAlloc := json_GenesisAlloc E0;
     signatures_Get := signatures_Get E0;
     signatures_Add := signatures_Add E0;
     recents_Get := recents_Get E0;
     recents_Add := recents_Add E0;
     loadSnapshot := loadSnapshot E0;
     newSnapshot := newSnapshot E0;
     Snapshot_store := Snapshot_store E0;
     Snapshot_apply := Snapshot_apply E0;
     GetSignerSuccessionNumber := GetSignerSuccessionNumber E0;
     Snapshot_Difficulty := Snapshot_Difficulty E0;
     HasAddress := HasAddress E0;
     HeaderBytes := HeaderBytes E0;
     ParseValidators := ParseValidators E0;
     rlp_MinimalVals := rlp_MinimalVals E0;
     chain_GetHeader := chain_GetHeader E0;
     chain_GetHeaderByNumber := chain_GetHeaderByNumber E0;
     chain_IsEIP158 := chain_IsEIP158 E0;
     chain_isBlockChain := chain_isBlockChain E0;
     BlockChain_SetStateSync := BlockChain_SetStateSync E0;
     misc_VerifyForkHashes := misc_VerifyForkHashes E0;
     Pack_getCurrentSpan := Pack_getCurrentSpan E0;
     Pack_getBorValidators := Pack_getBorValidators E0;
     Pack_commitSpan := Pack_commitSpan E0;
     Unpack_getCurrentSpan := Unpack_getCurrentSpan E0;
     Unpack_getBorValidators := Unpack_getBorValidators E0;
     ethAPI_Call := fun _ blockNr _ =>
       match blockNr with
       | BlockNumberOrHashWithHash _ => Err reverted
       | LatestBlockNumber => Ok []
       end;
     Heimdall_FetchSpan := Heimdall_FetchSpan E0;
     Heimdall_FetchStateSyncEvents := Heimdall_FetchStateSyncEvents E0;
     LastStateId := LastStateId E0;
     CommitState := CommitState E0;
     vmenv_Call := vmenv_Call E0;
     state_Finalise := state_Finalise E0;
     state_IntermediateRoot := state_IntermediateRoot E0;
     state_SetCode := state_SetCode E0 |}.
End Runs.

(** ** Specification-side definitions *)

(** The fields of a [BorConfig] are [uint64] values. *)
Definition uint64_config (c : BorConfig) : Prop :=
  is_uint64 (Period c) /\ is_uint64 (ProducerDelay c)
  /\ is_uint64 (Sprint c) /\ is_uint64 (BackupMultiplier c).

(** The base delay of a block: [ProducerDelay] on the first block of a
    sprint, [Period] otherwise. *)
Definition baseDelay (number : Z) (c : BorConfig) : Z :=
  if number mod Sprint c =? 0 then ProducerDelay c else Period c.

(** The state-sync datum [CommitStates] builds from an event record. *)
Definition stateDataOf (e : EventRecordWithTime) : StateSyncData :=
  {| syncID := eventID e; syncContract := eventContract e;
     syncData := hex_EncodeToString (eventData e);
     syncTxHash := eventTxHash e |}.

(** The three conditions of the specification on an event record, against
    the last state id. *)
Definition eventInOrder (chain : string) (to : Instant) (lastStateID : Z)
    (e : EventRecordWithTime) : bool :=
  (eventID e =? lastStateID + 1)
  && String.eqb (eventChainID e) chain
  && (eventTime e <? to).

(** The committed events as the specification states them: the longest
    prefix of the fetched list in which every event is in order. *)
Fixpoint committedAsStated (chain : string) (to : Instant) (lastStateID : Z)
    (events : list EventRecordWithTime) : list EventRecordWithTime :=
  match events with
  | [] => []
  | e :: events =>
    if eventInOrder chain to lastStateID e
    then e :: committedAsStated chain to (lastStateID + 1) events
    else []
  end.

(** The committed events with the one amendment the code needs: an event
    whose id is not above the last state id is passed over, and the loop
    goes on. *)
Fixpoint committedEvents (chain : string) (to : Instant) (lastStateID : Z)
    (events : list EventRecordWithTime) : list EventRecordWithTime :=
  match events with
  | [] => []
  | e :: events =>
    if eventID e <=? lastStateID
    then committedEvents chain to lastStateID events
    else if eventInOrder chain to lastStateID e
    then e :: committedEvents chain to (lastStateID + 1) events
    else []
  end.

(** The worlds left by [CommitState] on a list of events, in order. *)
Definition afterCommits {W : Type} (E : Collaborators W) (header : Header)
    (w : W) (events : list EventRecordWithTime) : W :=
  foldl (fun w e => snd (CommitState E e header w)) w events.

(** The claim on the validator region of a sprint-end header as the
    specification states it, for the headers that reach the check. *)
Definition sprint_end_validators_as_stated : Prop :=
  forall (W : Type) (E : Collaborators W) (c : Bor) (fuel : nat)
         (header : Header) (parents : list Header) (w : W) (n : Z),
    Number header = Some n ->
    Sprint (config c) <> 0 ->
    to_uint64 (big_Uint64 n + 1) mod Sprint (config c) = 0 ->
    Time header
    <= to_uint64 (to_int64 (Instant_Unix (time_Now E w)
                            + allowFutureBlockTimeSeconds)) ->
    extraVanity + extraSeal <= len (Extra header) ->
    (fst (verifyHeader E c fuel header parents w)
     = Returns (Some errInvalidSpanValidators)
     <-> ~ (0 < len (Extra header) - extraVanity - extraSeal
            /\ (len (Extra header) - extraVanity - extraSeal)
                 mod validatorHeaderBytesLength = 0)).

(** The end of the state-sync window: the time of the block one sprint
    back. *)
Definition windowEnd (from : Header) : Instant :=
  time_Unix (to_int64 (Time from)).

(** The log line of [CommitStates] before it calls Heimdall. *)
Definition fetchingLog : LogRecord :=
  {| logLevel := LvlInfo;
     logMessage := "Fetching state updates from Heimdall";
     logError := None |}.

(** The override count configured for a block, and the fetched list cut
    to it. *)
Definition overrideOf (c : Bor) (number : Z) : option Z :=
  match OverrideStateSyncRecords (config c) with
  | Some overrides => overrides !! FormatUint number
  | None => None
  end.

Definition cutToOverride (c : Bor) (number : Z)
    (events : list EventRecordWithTime) : list EventRecordWithTime :=
  match overrideOf c number with
  | Some val =>
    if val <? len events then take (Z.to_nat val) events else events
  | None => events
  end.

(** The claim on [CommitStates] as the specification states it (for a
    block with no override of the record count). *)
Definition commits_as_stated : Prop :=
  forall (W : Type) (E : Collaborators W) (c : Bor) (header : Header)
         (n l : Z) (from : Header) (events : list EventRecordWithTime)
         (w w1 : W),
    Number header = Some n ->
    LastStateId E (to_uint64 (big_Uint64 n - 1)) w = Ok l ->
    chain_GetHeaderByNumber E (to_uint64 (big_Uint64 n - Sprint (config c))) w
    = Some from ->
    Heimdall_FetchStateSyncEvents E (to_uint64 (big_Uint64 l + 1))
      (Instant_Unix (windowEnd from)) (log_emit E fetchingLog w)
    = (Ok events, w1) ->
    OverrideStateSyncRecords (config c) = None ->
    (forall e w, fst (CommitState E e header w) = None) ->
    Forall (fun e => is_uint64 (eventID e)) events ->
    exists w',
      CommitStates E c header w
      = (Returns (Ok (map stateDataOf
                        (committedAsStated (chainID c) (windowEnd from)
                           (big_Uint64 l) events))),
         w').


(** ** Postconditions in the monad *)

(** [post m P]: whenever [m] returns, the returned value satisfies [P]. *)
Definition post {W A : Type} (m : Go W A) (P : A -> Prop) : Prop :=
  forall w a w', m w = (Returns a, w') -> P a.

(** The error of a [(T, error)] pair. *)
Definition errorOf {T : Type} (r : result T) : option error :=
  match r with
  | Ok _ => None
  | Err e => Some e
  end.

Definition not_future (o : option error) : Prop := o <> Some ErrFutureBlock.
Definition not_future_result {T : Type} (r : result T) : Prop :=
  not_future (errorOf r).

(** No collaborator on the path of the cascading checks hands out
    [consensus.ErrFutureBlock]. *)
Definition never_future {W : Type} (E : Collaborators W) : Prop :=
  (forall n, not_future_result (Pack_getBorValidators E n))
  /\ (forall b, not_future_result (Unpack_getBorValidators E b))
  /\ (forall a nr w, not_future_result (ethAPI_Call E a nr w))
  /\ (forall s w, not_future (fst (Snapshot_store E s w)))
  /\ (forall s hs w, not_future_result (fst (Snapshot_apply E s hs w)))
  /\ (forall b, not_future_result (ParseValidators E b))
  /\ (forall h, not_future_result (crypto_recover E h))
  /\ (forall s a, not_future_result (GetSignerSuccessionNumber E s a)).

(** ** Termination, and the chain behind a snapshot *)

(** [halts m]: the run of [m] never ends for want of fuel. *)
Definition halts {W A : Type} (m : Go W A) : Prop :=
  forall w, fst (m w) <> OutOfFuel.

(** The chain has a header for block 0. *)
Definition has_genesis {W : Type} (E : Collaborators W) : Prop :=
  forall w, chain_GetHeaderByNumber E 0 w <> None.

(** [chain.GetHeader(hash, number)] answers with a header of that hash
    and number, or with nil. *)
Definition lawful_chain {W : Type} (E : Collaborators W) : Prop :=
  forall hash number w header,
    chain_GetHeader E hash number w = Some header ->
    Header_Hash E header = hash
    /\ exists n, Number header = Some n /\ big_Uint64 n = number.

(** [descending E number hash hs]: [hs] holds the headers of the blocks
    [number], [number - 1], ... in this order, the first of hash [hash]
    and each next one the parent of the one before. *)
Fixpoint descending {W : Type} (E : Collaborators W) (number : Z)
    (hash : Hash) (hs : list Header) : Prop :=
  match hs with
  | [] => True
  | h :: hs =>
    Header_Hash E h = hash
    /\ (exists n, Number h = Some n /\ big_Uint64 n = number)
    /\ descending E (to_uint64 (number - 1)) (ParentHash h) hs
  end.

(** ** Names for what the further properties speak of *)

(** The header form of a validator takes 40 bytes. *)
Definition header_bytes_40 {W : Type} (E : Collaborators W) : Prop :=
  forall v, len (HeaderBytes E v) = validatorHeaderBytesLength.

(** The parent [verifyCascadingFields] and [verifySeal] use for a header
    of number [number]: the last of the batch, or else the header of the
    chain. *)
Definition parentOf {W : Type} (E : Collaborators W) (header : Header)
    (number : Z) (parents : list Header) (w : W) : option Header :=
  if len parents >? 0 then last parents
  else chain_GetHeader E (ParentHash header) (to_uint64 (number - 1)) w.

(** The validator check of [verifyCascadingFields] on a sprint-end header
    passed: the validator bytes of the header parse into validators with
    the header forms of the validators of the contract, sorted. *)
Definition sprintEndChecked {W : Type} (E : Collaborators W) (c : Bor)
    (header : Header) (number : Z) (w : W) : Prop :=
  exists newValidators region headerVals,
    GetCurrentValidatorsByBlockNrOrHash E c LatestBlockNumber
      (to_uint64 (number + 1)) w
    = (Returns (Ok newValidators), w)
    /\ slice (Extra header) extraVanity (len (Extra header) - extraSeal)
       = Returns region
    /\ ParseValidators E region = Ok headerVals
    /\ map (HeaderBytes E) (sortByAddress newValidators)
       = map (HeaderBytes E) headerVals.

(** The log lines of [Seal] and of [fetchAndCommitSpan]. *)
Definition pausedLog : LogRecord :=
  {| logLevel := LvlInfo;
     logMessage := "Sealing paused, waiting for transactions";
     logError := None |}.
Definition waitingLog : LogRecord :=
  {| logLevel := LvlTrace;
     logMessage := "Waiting for slot to sign and propagate";
     logError := None |}.
Definition committingLog : LogRecord :=
  {| logLevel := LvlInfo; logMessage := "Committing new span";
     logError := None |}.

(** An outcome under a function of its value. *)
Definition mapOutcome {A B : Type} (f : A -> B) (o : outcome A) : outcome B :=
  match o with
  | Returns a => Returns (f a)
  | Panics p => Panics p
  | OutOfFuel => OutOfFuel
  end.

(** The validator [GetCurrentValidators] builds from an address and a
    power of the contract's answer. *)
Definition validatorOf (a : Address) (power : Z) : Validator :=
  {| ValAddress := a; VotingPower := big_Int64 power; ProposerPriority := 0 |}.

(** The voting power the new list has for the address of [v]: that of
    its first validator at the address, and 0 when it has none. *)
Definition newPower (newVals : list Validator) (v : Validator) : Z :=
  match validatorContains newVals v with
  | Some f => VotingPower f
  | None => 0
  end.

(** The number of results the goroutine of [VerifyHeaders] sends on the
    iterations [i, i + k): those before the first [select] that takes the
    abort case. *)
Fixpoint sentBeforeAbort (abort : nat -> bool) (i k : nat) : nat :=
  match k with
  | O => O
  | S k => if abort i then O else S (sentBeforeAbort abort (S i) k)
  end.

(** The arguments of the call that [GetCurrentValidators] and
    [GetCurrentValidatorsByBlockNrOrHash] make to the validator contract
    with the packed [data]. *)
Definition validatorsCallArgs {W : Type} (E : Collaborators W) (c : Bor)
    (data : bytes) : TransactionArgs :=
  {| argGas := maxGas;
     argTo := HexToAddress E (ValidatorContract (config c));
     argData := data |}.

(** The sum of the core counts of the processors, without
    wrap-around. *)
Definition sumCores (cp : list InfoStat) : Z :=
  foldr (fun info s => Cores info + s) 0 cp.

(** * Properties *)

(** ** Machine integers *)

Lemma to_uint64_range (x : Z) : is_uint64 (to_uint64 x).
Proof. unfold is_uint64, to_uint64, uint64_modulus. apply Z.mod_pos_bound. lia. Qed.

Lemma to_uint64_small (x : Z) : is_uint64 x -> to_uint64 x = x.
Proof. unfold is_uint64, to_uint64. intros H. apply Z.mod_small. exact H. Qed.

Lemma to_uint64_add_r (x y : Z) : to_uint64 (x + to_uint64 y) = to_uint64 (x + y).
Proof. unfold to_uint64. apply Zplus_mod_idemp_r. Qed.

Lemma to_uint64_mul_l (x y : Z) : to_uint64 (to_uint64 x * y) = to_uint64 (x * y).
Proof. unfold to_uint64. apply Zmult_mod_idemp_l. Qed.

Lemma to_uint64_to_int64 (x : Z) : to_uint64 (to_int64 x) = to_uint64 x.
Proof.
  unfold to_uint64, to_int64.
  rewrite Zminus_mod_idemp_l.
  f_equal. lia.
Qed.

(** Range goals over [uint64]. *)
Ltac solve_uint64 :=
  unfold is_uint64, is_int, uint64_modulus in *; lia.

(** ** C5: the producer delay *)

(** C5.  For every block number, every succession offset (a zero-based
    offset, so not negative) and every Bor configuration (of [uint64]
    fields, with a sprint length that is not zero),
    [CalcProducerDelay number succession cfg] is
    [base + succession * backup_multiplier] in [uint64] arithmetic, where
    [base] is [producer_delay] when [number mod sprint = 0] and [period]
    otherwise; without overflow it is that sum exactly. *)
Theorem CalcProducerDelay_base_plus_backup (number succession : Z) (c : BorConfig) :
  uint64_config c ->
  Sprint c <> 0 ->
  0 <= succession ->
  CalcProducerDelay number succession c
  = Returns (to_uint64 (baseDelay number c + succession * BackupMultiplier c))
  /\ (baseDelay number c + succession * BackupMultiplier c < uint64_modulus ->
      CalcProducerDelay number succession c
      = Returns (baseDelay number c + succession * BackupMultiplier c)).
Proof.
  intros (HP & HD & HS & HB) Hsprint Hsucc.
  assert (Hbase : is_uint64 (baseDelay number c)).
  { unfold baseDelay. destruct (number mod Sprint c =? 0); assumption. }
  assert (Hcalc : CalcProducerDelay number succession c
                  = Returns (to_uint64 (baseDelay number c
                                        + succession * BackupMultiplier c))).
  { unfold CalcProducerDelay, baseDelay in *.
    destruct (Z.eqb_spec (Sprint c) 0) as [Hz | _]; [contradiction |].
    destruct (Z.gtb_spec succession 0) as [Hpos | Hzero].
    - f_equal.
      rewrite to_uint64_add_r.
      rewrite <- (to_uint64_add_r _ (to_uint64 succession * _)).
      rewrite to_uint64_mul_l, to_uint64_add_r.
      destruct (number mod Sprint c =? 0); reflexivity.
    - assert (succession = 0) as -> by lia.
      rewrite Z.mul_0_l, Z.add_0_r.
      destruct (number mod Sprint c =? 0);
        rewrite to_uint64_small; auto. }
  split; [exact Hcalc |].
  intros Hfit. rewrite Hcalc. f_equal. apply to_uint64_small.
  assert (0 <= succession * BackupMultiplier c)
    by (apply Z.mul_nonneg_nonneg; solve_uint64).
  solve_uint64.
Qed.

(** ** C3: the span-commit decision *)

(** C3.  [needToCommitSpan] is false for a nil span; for a span it is true
    exactly when [end_block = 0], or [end_block > sprint] and the header
    number is [end_block - sprint + 1]; it is false in every other
    case.  (The numbers are [uint64] values and the sprint length of an
    engine is not zero: [New] replaces a zero by the default.) *)
Theorem needToCommitSpan_cases (cfg : BorConfig) (span : Span) (headerNumber : Z) :
  is_uint64 (Sprint cfg) ->
  Sprint cfg <> 0 ->
  is_uint64 (EndBlock span) ->
  needToCommitSpan cfg None headerNumber = false
  /\ (needToCommitSpan cfg (Some span) headerNumber = true
      <-> EndBlock span = 0
          \/ (EndBlock span > Sprint cfg
              /\ headerNumber = EndBlock span - Sprint cfg + 1))
  /\ (needToCommitSpan cfg (Some span) headerNumber = false
      <-> ~ (EndBlock span = 0
             \/ (EndBlock span > Sprint cfg
                 /\ headerNumber = EndBlock span - Sprint cfg + 1))).
Proof.
  intros HS HS0 HE.
  assert (Hiff : needToCommitSpan cfg (Some span) headerNumber = true
      <-> EndBlock span = 0
          \/ (EndBlock span > Sprint cfg
              /\ headerNumber = EndBlock span - Sprint cfg + 1)).
  { unfold needToCommitSpan.
    destruct (Z.eqb_spec (EndBlock span) 0) as [Hz | Hnz].
    - split; auto.
    - destruct (Z.gtb_spec (EndBlock span) (Sprint cfg)) as [Hgt | Hle]; cbn.
      + assert (Hsub : to_uint64 (to_uint64 (EndBlock span - Sprint cfg) + 1)
                       = EndBlock span - Sprint cfg + 1).
        { rewrite (to_uint64_small (EndBlock span - Sprint cfg))
            by solve_uint64.
          apply to_uint64_small. solve_uint64. }
        rewrite Hsub.
        destruct (Z.eqb_spec (EndBlock span - Sprint cfg + 1) headerNumber)
          as [Heq | Hne].
        * split; auto. intros _. right. split; lia.
        * split; [discriminate |]. intros [H | [_ H]]; [contradiction | lia].
      + split; [discriminate |]. intros [H | [H _]]; [contradiction | lia]. }
  split; [reflexivity |]. split; [exact Hiff |].
  rewrite <- Hiff. destruct (needToCommitSpan cfg (Some span) headerNumber).
  - split; [discriminate | intros H; exfalso; apply H; reflexivity].
  - split; [intros _; discriminate | reflexivity].
Qed.

(** ** C4: system messages never fail *)

(** C4.  [applyMessage] returns nil for every message, header and world:
    when the EVM call fails its error is dropped and the world is the one
    left by the call followed by [state.Finalise(true)]; when the call
    succeeds the world is the one left by the call. *)
Theorem applyMessage_returns_nil {W : Type} (E : Collaborators W)
    (msg : callmsg) (header : Header) (w : W) :
  fst (applyMessage E msg header w) = Returns None
  /\ (forall err w', vmenv_Call E msg header w = (Some err, w') ->
        applyMessage E msg header w = (Returns None, state_Finalise E true w'))
  /\ (forall w', vmenv_Call E msg header w = (None, w') ->
        applyMessage E msg header w = (Returns None, w')).
Proof.
  unfold applyMessage, bind, calls, writes, ret.
  destruct (vmenv_Call E msg header w) as [[err |] w1]; cbn.
  - split; [reflexivity |]. split.
    + intros err' w' [= _ <-]. reflexivity.
    + intros w' [=].
  - split; [reflexivity |]. split.
    + intros err' w' [=].
    + intros w' [= <-]. reflexivity.
Qed.

(** ** C9: what [Seal] refuses to seal *)

(** C9.  For a block whose number is 0, [Seal] returns [errUnknownBlock]
    and leaves the world as it was.  For any other block with no
    transactions on a chain whose period is 0, [Seal] returns nil at once:
    its only effect is the log line, so no goroutine is started and no
    block is ever sent on the results channel. *)
Theorem Seal_genesis_and_empty_block {W : Type} (E : Collaborators W)
    (c : Bor) (fuel : nat) (block : Block) (w : W) (n : Z) :
  Number (blockHeader block) = Some n ->
  (big_Uint64 n = 0 ->
     Seal E c fuel block w = (Returns (Some errUnknownBlock), w))
  /\ (big_Uint64 n <> 0 ->
      Period (config c) = 0 ->
      Transactions block = [] ->
      Seal E c fuel block w
      = (Returns None,
         log_emit E {| logLevel := LvlInfo;
                       logMessage := "Sealing paused, waiting for transactions";
                       logError := None |} w)).
Proof.
  intros HN. unfold Seal, Uint64. rewrite HN.
  cbv beta iota delta [bind ret].
  split.
  - intros ->. reflexivity.
  - intros Hn HP HT. rewrite HP, HT.
    destruct (Z.eqb_spec (big_Uint64 n) 0) as [Hz | _]; [contradiction |].
    reflexivity.
Qed.

(** ** Postconditions in the monad *)

Section Post.
Context {W : Type}.

Lemma post_ret {A : Type} (a : A) (P : A -> Prop) : P a -> post (W := W) (ret a) P.
Proof. intros HP w a' w' [= <- _]. exact HP. Qed.

Lemma post_bind {A B : Type} (m : Go W A) (k : A -> Go W B)
    (Q : A -> Prop) (P : B -> Prop) :
  post m Q -> (forall a, Q a -> post (k a) P) -> post (bind m k) P.
Proof.
  intros Hm Hk w b w'. unfold bind.
  destruct (m w) as [[a | p |] w1] eqn:Hrun; try discriminate.
  intros H. eapply Hk; [eapply Hm; exact Hrun | exact H].
Qed.

Lemma post_panic {A : Type} (p : panic_value) (P : A -> Prop) :
  post (W := W) (panic p) P.
Proof. intros w a w'. discriminate. Qed.

Lemma post_diverge {A : Type} (P : A -> Prop) : post (W := W) diverge P.
Proof. intros w a w'. discriminate. Qed.

Lemma post_lift {A : Type} (o : outcome A) (P : A -> Prop) :
  (forall a, o = Returns a -> P a) -> post (W := W) (lift o) P.
Proof. intros H w a w' [= -> _]. apply H. reflexivity. Qed.

Lemma post_reads {A : Type} (f : W -> A) (P : A -> Prop) :
  (forall w, P (f w)) -> post (reads f) P.
Proof. intros H w a w' [= <- _]. apply H. Qed.

Lemma post_calls {A : Type} (f : W -> A * W) (P : A -> Prop) :
  (forall w, P (fst (f w))) -> post (calls f) P.
Proof.
  intros H w a w'. unfold calls. specialize (H w).
  destruct (f w) as [a' w1]. intros [= <- _]. exact H.
Qed.

Lemma post_true {A : Type} (m : Go W A) : post m (fun _ => True).
Proof. intros w a w' _. exact I. Qed.
End Post.

Ltac post_step :=
  lazymatch goal with
  | |- post (bind _ _) _ => eapply post_bind; [| intros ? ?]
  | |- post (ret _) _ => apply post_ret
  | |- post (panic _) _ => apply post_panic
  | |- post diverge _ => apply post_diverge
  | |- post (match ?x with _ => _ end) _ => destruct x eqn:?
  end.

(** ** The cascading checks never report a future block *)

(** Closes a goal [not_future ...] from the hypotheses of that form. *)
Ltac solve_not_future :=
  unfold not_future_result, not_future, errorOf in *; cbn in *;
  first [discriminate | congruence | assumption].


Section NeverFuture.
Context {W : Type} (E : Collaborators W) (c : Bor).
Hypothesis HE : never_future E.

Lemma GetCurrentValidators_not_future headerHash blockNumber :
  post (GetCurrentValidators E c headerHash blockNumber) not_future_result.
Proof.
  destruct HE as (Hpack & Hunpack & _).
  unfold GetCurrentValidators.
  pose proof (Hpack blockNumber) as Hp.
  destruct (Pack_getBorValidators E blockNumber) as [data | err].
  - eapply post_bind; [apply post_true | intros [res | err] _].
    + pose proof (Hunpack res) as Hu.
      destruct (Unpack_getBorValidators E res) as [[ret0 ret1] | err].
      * eapply post_bind; [apply post_true | intros valz _].
        apply post_ret. solve_not_future.
      * apply post_ret. solve_not_future.
    + apply post_panic.
  - eapply post_bind; [apply post_true | intros _ _].
    apply post_ret. solve_not_future.
Qed.

Lemma GetCurrentValidatorsByBlockNrOrHash_not_future nr blockNumber :
  post (GetCurrentValidatorsByBlockNrOrHash E c nr blockNumber)
       not_future_result.
Proof.
  destruct HE as (Hpack & Hunpack & Hcall & _).
  unfold GetCurrentValidatorsByBlockNrOrHash.
  pose proof (Hpack blockNumber) as Hp.
  destruct (Pack_getBorValidators E blockNumber) as [data | err].
  - eapply post_bind;
      [apply (post_reads _ not_future_result); intros w; apply Hcall |].
    intros [res | err] Hres.
    + pose proof (Hunpack res) as Hu.
      destruct (Unpack_getBorValidators E res) as [[ret0 ret1] | err].
      * eapply post_bind; [apply post_true | intros valz _].
        apply post_ret. solve_not_future.
      * apply post_ret. solve_not_future.
    + apply post_ret. solve_not_future.
  - eapply post_bind; [apply post_true | intros _ _].
    apply post_ret. solve_not_future.
Qed.

Lemma snapshotLoop_not_future fuel :
  forall number hash parents headers,
    post (snapshotLoop E c fuel number hash parents headers) not_future_result.
Proof.
  destruct HE as (_ & _ & _ & Hstore & _).
  induction fuel as [| fuel IH]; intros number hash parents headers.
  - apply post_diverge.
  - cbn [snapshotLoop].
    eapply post_bind; [apply post_true | intros [snap |] _].
    { apply post_ret. solve_not_future. }
    eapply post_bind; [apply post_true | intros [snap |] _].
    { apply post_ret. solve_not_future. }
    eapply post_bind with
      (Q := fun g => forall r, g = Some r -> not_future_result r).
    { destruct (number =? 0); [| apply post_ret; discriminate].
      eapply post_bind; [apply post_true | intros [checkpoint |] _];
        [| apply post_ret; discriminate].
      eapply post_bind; [apply GetCurrentValidators_not_future |].
      intros [validators | err] Hvals.
      - eapply post_bind;
          [apply (post_calls _ not_future); intros w; apply Hstore |].
        intros [err |] Herr.
        + apply post_ret. intros r [= <-]. solve_not_future.
        + eapply post_bind; [apply post_true | intros _ _].
          apply post_ret. intros r [= <-]. solve_not_future.
      - apply post_ret. intros r [= <-]. solve_not_future. }
    intros [[snap | err] |] Hgenesis.
    { apply post_ret. solve_not_future. }
    { apply post_ret. specialize (Hgenesis _ eq_refl). solve_not_future. }
    eapply post_bind with
      (Q := fun r : result (Header * list Header) => not_future_result r).
    { destruct (len parents >? 0).
      - destruct (last parents) as [header |]; [| apply post_panic].
        destruct (negb (Header_Hash E header =? hash));
          [apply post_ret; solve_not_future |].
        eapply post_bind; [apply post_true | intros n _].
        destruct (negb (n =? number)); apply post_ret; solve_not_future.
      - eapply post_bind; [apply post_true | intros [header |] _];
          apply post_ret; solve_not_future. }
    intros [[header parents'] | err] Hnext.
    + apply IH.
    + apply post_ret. solve_not_future.
Qed.

Lemma snapshot_not_future fuel number hash parents :
  post (snapshot E c fuel number hash parents) not_future_result.
Proof.
  pose proof (snapshotLoop_not_future fuel number hash parents []) as Hloop.
  destruct HE as (_ & _ & _ & Hstore & Happly & _).
  unfold snapshot.
  eapply post_bind; [exact Hloop |].
  intros [[snap headers] | err] Hr.
  - eapply post_bind;
      [apply (post_calls _ not_future_result); intros w; apply Happly |].
    intros [snap' | err] Hr'.
    + eapply post_bind; [apply post_true | intros _ _].
      destruct (_ && _); [| apply post_ret; solve_not_future].
      eapply post_bind;
        [apply (post_calls _ not_future); intros w; apply Hstore |].
      intros [err |] Herr.
      * apply post_ret. solve_not_future.
      * eapply post_bind; [apply post_true | intros _ _].
        apply post_ret. solve_not_future.
    + apply post_ret. solve_not_future.
  - apply post_ret. solve_not_future.
Qed.

Lemma ecrecover_not_future header :
  post (ecrecover E header) not_future_result.
Proof.
  destruct HE as (_ & _ & _ & _ & _ & _ & Hrecover & _).
  unfold ecrecover.
  eapply post_bind; [apply post_true | intros [address |] _].
  - apply post_ret. solve_not_future.
  - destruct (len (Extra header) <? extraSeal);
      [apply post_ret; solve_not_future |].
    pose proof (Hrecover header) as Hr.
    destruct (crypto_recover E header) as [signer | err].
    + eapply post_bind; [apply post_true | intros _ _].
      apply post_ret. solve_not_future.
    + apply post_ret. solve_not_future.
Qed.

Lemma verifySeal_not_future fuel header parents :
  post (verifySeal E c fuel header parents) not_future.
Proof.
  pose proof HE as (_ & _ & _ & _ & _ & _ & _ & Hsucc).
  unfold verifySeal.
  eapply post_bind; [apply post_true | intros number _].
  destruct (number =? 0); [apply post_ret; solve_not_future |].
  eapply post_bind; [apply snapshot_not_future |].
  intros [snap | err] Hsnap; [| apply post_ret; solve_not_future].
  eapply post_bind; [apply ecrecover_not_future |].
  intros [signer | err] Hsigner; [| apply post_ret; solve_not_future].
  destruct (negb (HasAddress E (snapValidatorSet snap) signer));
    [apply post_ret; solve_not_future |].
  pose proof (Hsucc snap signer) as Hs.
  destruct (GetSignerSuccessionNumber E snap signer) as [succession | err].
  - eapply post_bind; [apply post_true | intros parent _].
    eapply post_bind; [apply post_true | intros tooSoon _].
    destruct tooSoon; [apply post_ret; solve_not_future |].
    destruct (negb (fakeDiff c)); [| apply post_ret; solve_not_future].
    eapply post_bind; [apply post_true | intros d _].
    destruct (negb (d =? _)); apply post_ret; solve_not_future.
  - apply post_ret. solve_not_future.
Qed.

Lemma verifyCascadingFields_not_future fuel header parents :
  post (verifyCascadingFields E c fuel header parents) not_future.
Proof.
  pose proof HE as (_ & _ & _ & _ & _ & Hparse & _).
  unfold verifyCascadingFields.
  eapply post_bind; [apply post_true | intros number _].
  destruct (number =? 0); [apply post_ret; solve_not_future |].
  eapply post_bind; [apply post_true | intros [parent |] _];
    [| apply post_ret; solve_not_future].
  eapply post_bind; [apply post_true | intros parentNumber _].
  destruct (_ || _); [apply post_ret; solve_not_future |].
  destruct (_ >? _); [apply post_ret; solve_not_future |].
  eapply post_bind; [apply snapshot_not_future |].
  intros [snap | err] Hsnap; [| apply post_ret; solve_not_future].
  eapply post_bind; [apply post_true | intros sprintEnd _].
  eapply post_bind with (Q := not_future).
  { destruct sprintEnd; [| apply post_ret; solve_not_future].
    eapply post_bind; [apply GetCurrentValidatorsByBlockNrOrHash_not_future |].
    intros [newValidators | err] Hvals; [| apply post_ret; solve_not_future].
    eapply post_bind; [apply post_true | intros region _].
    pose proof (Hparse region) as Hp.
    destruct (ParseValidators E region) as [headerVals | err].
    - destruct (negb (_ =? _)); [apply post_ret; solve_not_future |].
      destruct (negb _); apply post_ret; solve_not_future.
    - apply post_ret. solve_not_future. }
  intros [err |] Herr; [apply post_ret; exact Herr |].
  eapply post_bind; [apply post_true | intros sprintStart _].
  eapply post_bind with (Q := not_future).
  { destruct sprintStart; [| apply post_ret; solve_not_future].
    eapply post_bind; [apply post_true | intros parentValidatorBytes _].
    destruct (negb _); apply post_ret; solve_not_future. }
  intros [err |] Herr'; [apply post_ret; exact Herr' |].
  apply verifySeal_not_future.
Qed.
End NeverFuture.

(** ** C7 and C1: the standalone checks of [verifyHeader] *)

(** The bound of the future-block check for a clock reading after 1970. *)
Lemma future_bound (now : Z) :
  0 <= now < 2 ^ 63 ->
  to_uint64 (to_int64 (now + allowFutureBlockTimeSeconds)) = now + 3.
Proof.
  intros H. rewrite to_uint64_to_int64. unfold allowFutureBlockTimeSeconds.
  apply to_uint64_small. solve_uint64.
Qed.

Lemma validateHeaderExtraField_errors (extraBytes : bytes) (err : error) :
  validateHeaderExtraField extraBytes = Some err ->
  err = errMissingVanity \/ err = errMissingSignature.
Proof.
  unfold validateHeaderExtraField.
  destruct (len extraBytes <? extraVanity); [intros [= <-]; auto |].
  destruct (len extraBytes <? extraVanity + extraSeal);
    [intros [= <-]; auto | discriminate].
Qed.

Lemma validateHeaderExtraField_ok (extraBytes : bytes) :
  extraVanity + extraSeal <= len extraBytes ->
  validateHeaderExtraField extraBytes = None.
Proof.
  unfold validateHeaderExtraField, extraVanity, extraSeal. intros H.
  destruct (Z.ltb_spec (len extraBytes) 32); [lia |].
  destruct (Z.ltb_spec (len extraBytes) (32 + 65)); [lia | reflexivity].
Qed.

(** The checks of [verifyHeader] that follow the extra-data checks: when
    the call returns [err] and none of these checks produced it, the
    cascading checks did. *)
Lemma verifyHeader_tail {W : Type} (E : Collaborators W) (c : Bor)
    (fuel : nat) (header : Header) (parents : list Header) (n : Z)
    (w w' : W) (err : error) :
  err <> errInvalidMixDigest -> err <> errInvalidUncleHash ->
  err <> errInvalidDifficulty -> (forall text, err <> ForeignError text) ->
  (if negb (MixDigest header =? zeroHash)
   then ret (Some errInvalidMixDigest)
   else if negb (UncleHash header =? uncleHash E)
   then ret (Some errInvalidUncleHash)
   else if (big_Uint64 n >? 0) && isNil (Difficulty header)
   then ret (Some errInvalidDifficulty)
   else
     match misc_VerifyForkHashes E header with
     | Some text => ret (Some (ForeignError text))
     | None => verifyCascadingFields E c fuel header parents
     end) w = (Returns (Some err), w') ->
  verifyCascadingFields E c fuel header parents w = (Returns (Some err), w').
Proof.
  intros H1 H2 H3 H4.
  destruct (negb (MixDigest header =? zeroHash));
    [intros [= <- _]; contradiction |].
  destruct (negb (UncleHash header =? uncleHash E));
    [intros [= <- _]; contradiction |].
  destruct ((big_Uint64 n >? 0) && isNil (Difficulty header));
    [intros [= <- _]; contradiction |].
  destruct (misc_VerifyForkHashes E header) as [text |];
    [intros [= <- _]; exfalso; eapply H4; reflexivity |].
  auto.
Qed.

(** C7.  For every header that has a number, read when the clock shows
    [now] seconds (a time after 1970 that fits [int64]): a header whose
    time is exactly [now + 3] passes the future-block check, so
    [verifyHeader] can return [ErrFutureBlock] for it only if the
    cascading checks do, and these never do unless a collaborator hands
    that very error out; a header whose time is [now + 4] or later gets
    [ErrFutureBlock], with the world untouched. *)
Theorem verifyHeader_future_block {W : Type} (E : Collaborators W) (c : Bor)
    (fuel : nat) (header : Header) (parents : list Header) (w : W) (n : Z) :
  Number header = Some n ->
  0 <= Instant_Unix (time_Now E w) < 2 ^ 63 ->
  (Time header = Instant_Unix (time_Now E w) + 3 ->
     (forall w',
        verifyHeader E c fuel header parents w
        = (Returns (Some ErrFutureBlock), w') ->
        verifyCascadingFields E c fuel header parents w
        = (Returns (Some ErrFutureBlock), w'))
     /\ (never_future E ->
         fst (verifyHeader E c fuel header parents w)
         <> Returns (Some ErrFutureBlock)))
  /\ (Instant_Unix (time_Now E w) + 4 <= Time header ->
      verifyHeader E c fuel header parents w
      = (Returns (Some ErrFutureBlock), w)).
Proof.
  intros HN Hnow.
  assert (Hpass : Time header = Instant_Unix (time_Now E w) + 3 ->
            forall w',
              verifyHeader E c fuel header parents w
              = (Returns (Some ErrFutureBlock), w') ->
              verifyCascadingFields E c fuel header parents w
              = (Returns (Some ErrFutureBlock), w')).
  { unfold verifyHeader. rewrite HN.
    cbv beta iota delta [bind reads]. rewrite (future_bound _ Hnow).
    intros HT w'. rewrite HT.
    destruct (Z.gtb_spec (Instant_Unix (time_Now E w) + 3)
                         (Instant_Unix (time_Now E w) + 3)); [lia |].
    destruct (validateHeaderExtraField (Extra header)) as [err |] eqn:Hextra.
    { destruct (validateHeaderExtraField_errors _ _ Hextra); subst err;
        discriminate. }
    destruct (Sprint (config c) =? 0); [discriminate |].
    destruct (_ && _); [discriminate |].
    destruct (_ && _); [discriminate |].
    apply verifyHeader_tail; discriminate. }
  split.
  - intros HT. split; [exact (Hpass HT) |].
    intros HE Hret.
    pose proof (Hpass HT) as Hcascade.
    destruct (verifyHeader E c fuel header parents w) as [o w'] eqn:Hrun.
    cbn [fst] in Hret. subst o.
    apply (verifyCascadingFields_not_future E c HE fuel header parents
             w (Some ErrFutureBlock) w' (Hcascade w' eq_refl)).
    reflexivity.
  - intros HT. unfold verifyHeader. rewrite HN.
    cbv beta iota delta [bind reads]. rewrite (future_bound _ Hnow).
    destruct (Z.gtb_spec (Time header) (Instant_Unix (time_Now E w) + 3));
      [reflexivity | lia].
Qed.

(** C1, as the code has it.  For every sprint-end header that reaches the
    extra-data check (it has a number, its time is not in the future and
    its extra-data holds the vanity and the seal): when the length of the
    validator region is not a multiple of 40, [verifyHeader] returns
    [errInvalidSpanValidators]; when it is a multiple of 40 the check
    passes, and [verifyHeader] returns [errInvalidSpanValidators] only if
    the cascading checks (the comparison with the validators of the
    contract) do. *)
Theorem verifyHeader_sprint_end_validators {W : Type} (E : Collaborators W)
    (c : Bor) (fuel : nat) (header : Header) (parents : list Header)
    (w : W) (n : Z) :
  Number header = Some n ->
  Sprint (config c) <> 0 ->
  to_uint64 (big_Uint64 n + 1) mod Sprint (config c) = 0 ->
  Time header
  <= to_uint64 (to_int64 (Instant_Unix (time_Now E w)
                          + allowFutureBlockTimeSeconds)) ->
  extraVanity + extraSeal <= len (Extra header) ->
  ((len (Extra header) - extraVanity - extraSeal)
     mod validatorHeaderBytesLength <> 0 ->
   verifyHeader E c fuel header parents w
   = (Returns (Some errInvalidSpanValidators), w))
  /\ ((len (Extra header) - extraVanity - extraSeal)
        mod validatorHeaderBytesLength = 0 ->
      forall w',
        verifyHeader E c fuel header parents w
        = (Returns (Some errInvalidSpanValidators), w') ->
        verifyCascadingFields E c fuel header parents w
        = (Returns (Some errInvalidSpanValidators), w')).
Proof.
  intros HN HS Hend HT Hlen. unfold verifyHeader. rewrite HN.
  cbv beta iota delta [bind reads].
  destruct (Z.gtb_spec (Time header)
              (to_uint64 (to_int64 (Instant_Unix (time_Now E w)
                                    + allowFutureBlockTimeSeconds))));
    [lia |].
  rewrite (validateHeaderExtraField_ok _ Hlen).
  destruct (Z.eqb_spec (Sprint (config c)) 0); [contradiction |].
  rewrite Hend. cbn [Z.eqb negb andb].
  assert (Hrem : Z.rem (len (Extra header) - extraVanity - extraSeal)
                       validatorHeaderBytesLength
                 = (len (Extra header) - extraVanity - extraSeal)
                     mod validatorHeaderBytesLength).
  { apply Z.rem_mod_nonneg; [lia | reflexivity]. }
  rewrite Hrem.
  split.
  - intros Hne.
    destruct (Z.eqb_spec ((len (Extra header) - extraVanity - extraSeal)
                            mod validatorHeaderBytesLength) 0);
      [contradiction | reflexivity].
  - intros -> w'. cbn [Z.eqb negb].
    apply verifyHeader_tail; discriminate.
Qed.

(** ** C10: a failed contract call in [GetCurrentValidators] *)

Lemma GetCurrentValidators_failed_call {W : Type} (E : Collaborators W)
    (c : Bor) (headerHash : Hash) (blockNumber : Z) (w : W) (data : bytes)
    (err : error) :
  Pack_getBorValidators E blockNumber = Ok data ->
  ethAPI_Call E (validatorsCallArgs E c data)
    (BlockNumberOrHashWithHash headerHash) w
  = Err err ->
  GetCurrentValidators E c headerHash blockNumber w
  = (Panics (PanicError err), w).
Proof.
  intros Hpack Hcall. unfold GetCurrentValidators. rewrite Hpack.
  cbv beta iota zeta delta [bind reads].
  fold (validatorsCallArgs E c data). rewrite Hcall. reflexivity.
Qed.

Lemma GetCurrentValidatorsByBlockNrOrHash_failed_call {W : Type}
    (E : Collaborators W) (c : Bor) (blockNrOrHash : BlockNumberOrHash)
    (blockNumber : Z) (w : W) (data : bytes) (err : error) :
  Pack_getBorValidators E blockNumber = Ok data ->
  ethAPI_Call E (validatorsCallArgs E c data) blockNrOrHash w = Err err ->
  GetCurrentValidatorsByBlockNrOrHash E c blockNrOrHash blockNumber w
  = (Returns (Err err), w).
Proof.
  intros Hpack Hcall. unfold GetCurrentValidatorsByBlockNrOrHash.
  rewrite Hpack. cbv beta iota zeta delta [bind reads].
  fold (validatorsCallArgs E c data). rewrite Hcall. reflexivity.
Qed.

(** C10.  Suppose the arguments are packed into [data] and the eth API
    call that [GetCurrentValidators] makes (to the validator contract,
    with [data], at the block of the given hash) fails with [err]: this
    call alone, whatever other calls would do.  Then
    [GetCurrentValidators] panics with [err] instead of returning it,
    and the world is left as it was.  Its sibling
    [GetCurrentValidatorsByBlockNrOrHash] returns [err] when the call it
    makes fails.  Both callers inherit the panic: [snapshot] when it
    reaches the genesis checkpoint (no cached and no stored snapshot for
    block 0) and the call for block 1 at the hash of the checkpoint
    fails, and [Prepare] on a sprint-end block once the snapshot of the
    parent is there and the call for the next block at the parent hash
    fails. *)
Theorem GetCurrentValidators_panics {W : Type} (E : Collaborators W)
    (c : Bor) (err : error) :
  (forall headerHash blockNumber w data,
     Pack_getBorValidators E blockNumber = Ok data ->
     ethAPI_Call E (validatorsCallArgs E c data)
       (BlockNumberOrHashWithHash headerHash) w
     = Err err ->
     GetCurrentValidators E c headerHash blockNumber w
     = (Panics (PanicError err), w))
  /\ (forall blockNrOrHash blockNumber w data,
        Pack_getBorValidators E blockNumber = Ok data ->
        ethAPI_Call E (validatorsCallArgs E c data) blockNrOrHash w
        = Err err ->
        GetCurrentValidatorsByBlockNrOrHash E c blockNrOrHash blockNumber w
        = (Returns (Err err), w))
  /\ (forall fuel hash parents w w1 w2 e checkpoint data,
        recents_Get E hash w = (None, w1) ->
        loadSnapshot E hash w1 = (Err e, w2) ->
        chain_GetHeaderByNumber E 0 w2 = Some checkpoint ->
        Pack_getBorValidators E (to_uint64 (0 + 1)) = Ok data ->
        ethAPI_Call E (validatorsCallArgs E c data)
          (BlockNumberOrHashWithHash (Header_Hash E checkpoint)) w2
        = Err err ->
        snapshot E c (S fuel) 0 hash parents w
        = (Panics (PanicError err), w2))
  /\ (forall fuel header n w snap w1 data,
        Number header = Some n ->
        Sprint (config c) <> 0 ->
        to_uint64 (big_Uint64 n + 1) mod Sprint (config c) = 0 ->
        snapshot E c fuel (to_uint64 (big_Uint64 n - 1)) (ParentHash header)
                 [] w
        = (Returns (Ok snap), w1) ->
        Pack_getBorValidators E (to_uint64 (big_Uint64 n + 1)) = Ok data ->
        ethAPI_Call E (validatorsCallArgs E c data)
          (BlockNumberOrHashWithHash (ParentHash header)) w1
        = Err err ->
        Prepare E c fuel header w = (Panics (PanicError err), w1)).
Proof.
  split; [| split; [| split]].
  - intros headerHash blockNumber w data Hpack Hcall.
    eapply GetCurrentValidators_failed_call; eauto.
  - intros blockNrOrHash blockNumber w data Hpack Hcall.
    eapply GetCurrentValidatorsByBlockNrOrHash_failed_call; eauto.
  - intros fuel hash parents w w1 w2 e checkpoint data Hrecents Hload
           Hgenesis Hpack Hcall.
    unfold snapshot. cbn [snapshotLoop].
    cbv beta iota delta [bind calls reads ret].
    rewrite Hrecents.
    change (0 mod checkpointInterval =? 0) with true. cbv beta iota.
    rewrite Hload. cbv beta iota.
    change (0 =? 0) with true. cbv beta iota.
    rewrite Hgenesis. cbv beta iota zeta.
    rewrite (GetCurrentValidators_failed_call E c _ _ _ data err Hpack Hcall).
    reflexivity.
  - intros fuel header n w snap w1 data HN HS Hend Hsnap Hpack Hcall.
    unfold Prepare, Uint64. cbn [Number withNonce withCoinbase ParentHash].
    rewrite HN. cbv beta iota delta [bind ret]. rewrite Hsnap.
    destruct (Z.eqb_spec (Sprint (config c)) 0); [contradiction |].
    rewrite Hend. cbn [Z.eqb].
    cbn [Extra withDifficulty withNonce withCoinbase].
    destruct (len (Extra header) <? extraVanity);
      cbn [ParentHash withExtra withDifficulty withNonce withCoinbase];
      rewrite (GetCurrentValidators_failed_call E c _ _ _ data err Hpack
                 Hcall);
      reflexivity.
Qed.

(** ** C6: errors at a sprint boundary *)

(** C6.  On a sprint boundary ([number mod sprint = 0]), when the span
    commit fails with [err], or the span commit succeeds and the
    state-sync commit (run unless the engine works without Heimdall)
    fails with [err]: [Finalize] logs the error and returns, the header
    untouched and nothing else done; [FinalizeAndAssemble] logs the same
    line and returns [err] with no block. *)
Theorem Finalize_swallows_FinalizeAndAssemble_returns {W : Type}
    (E : Collaborators W) (c : Bor) (fuel : nat) (header : Header)
    (txs : list Z) (w w1 : W) (n : Z) (err : error) :
  Number header = Some n ->
  Sprint (config c) <> 0 ->
  big_Uint64 n mod Sprint (config c) = 0 ->
  checkAndCommitSpan E c fuel header w = (Returns (Some err), w1)
  \/ (WithoutHeimdall c = false
      /\ exists w0,
           checkAndCommitSpan E c fuel header w = (Returns None, w0)
           /\ CommitStates E c header w0 = (Returns (Err err), w1)) ->
  exists msg,
    let logged :=
      log_emit E {| logLevel := LvlError; logMessage := msg;
                    logError := Some err |} w1 in
    Finalize E c fuel header w = (Returns header, logged)
    /\ FinalizeAndAssemble E c fuel header txs w
       = (Returns (header, Err err), logged).
Proof.
  intros HN HS Hsprint Hfail.
  unfold Finalize, FinalizeAndAssemble, Uint64. rewrite HN.
  cbv beta iota zeta delta [bind ret].
  destruct (Z.eqb_spec (Sprint (config c)) 0); [contradiction |].
  rewrite Hsprint. change (0 =? 0) with true. cbv beta iota.
  destruct Hfail as [Hspan | (Hheimdall & w0 & Hspan & Hstates)].
  - exists "Error while committing span". rewrite Hspan.
    split; reflexivity.
  - exists "Error while committing states". rewrite Hspan, Hheimdall.
    cbn [negb]. rewrite Hstates. split; reflexivity.
Qed.

(** ** C8: the time of a prepared header *)

Ltac header_fields_in H :=
  cbn [withCoinbase withNonce withDifficulty withExtra withMixDigest withTime
       withRoot withUncleHash ParentHash UncleHash Coinbase Root Difficulty
       Number Time Extra MixDigest Nonce] in H.

(** A call of [GetCurrentValidators] that returns validators leaves the
    world as it was. *)
Lemma GetCurrentValidators_world {W : Type} (E : Collaborators W) (c : Bor)
    (headerHash : Hash) (blockNumber : Z) (w w' : W) (valz : list Validator) :
  GetCurrentValidators E c headerHash blockNumber w = (Returns (Ok valz), w') ->
  w' = w.
Proof.
  unfold GetCurrentValidators.
  destruct (Pack_getBorValidators E blockNumber) as [data | err].
  - cbv beta iota delta [bind reads lift ret panic].
    destruct (ethAPI_Call E _ _ w) as [res | err]; [| discriminate].
    destruct (Unpack_getBorValidators E res) as [[ret0 ret1] | err].
    + destruct (makeValidators ret0 ret1 0); [| discriminate | discriminate].
      intros [= _ <-]. reflexivity.
    + discriminate.
  - cbv beta iota delta [bind log writes ret]. discriminate.
Qed.


(** ** C2: the state-sync loop *)

Lemma validateEventRecord_inOrder (e : EventRecordWithTime)
    (number : Z) (to : Instant) (lastStateID : Z) (chain : string) :
  is_uint64 lastStateID -> is_uint64 (eventID e) ->
  lastStateID < eventID e ->
  isNil (validateEventRecord e number to lastStateID chain)
  = eventInOrder chain to lastStateID e.
Proof.
  intros Hl He Hlt. unfold validateEventRecord, eventInOrder, Instant_Before.
  rewrite (to_uint64_small (lastStateID + 1)) by solve_uint64.
  rewrite (Z.eqb_sym (lastStateID + 1)).
  destruct (eventID e =? lastStateID + 1); [| reflexivity].
  destruct (String.eqb (eventChainID e) chain); [| reflexivity].
  destruct (eventTime e <? to); reflexivity.
Qed.

Lemma committedEvents_sublist (chain : string) (to : Instant)
    (events : list EventRecordWithTime) :
  forall lastStateID,
    sublist (committedEvents chain to lastStateID events) events.
Proof.
  induction events as [| e events IH]; intros lastStateID; cbn.
  - constructor.
  - destruct (eventID e <=? lastStateID).
    + constructor. apply IH.
    + destruct (eventInOrder chain to lastStateID e).
      * constructor. apply IH.
      * apply sublist_nil_l.
Qed.

Lemma committedEvents_ids (chain : string) (to : Instant)
    (events : list EventRecordWithTime) :
  forall lastStateID,
    map eventID (committedEvents chain to lastStateID events)
    = seqZ (lastStateID + 1) (len (committedEvents chain to lastStateID events)).
Proof.
  induction events as [| e events IH]; intros lastStateID; cbn.
  - reflexivity.
  - destruct (eventID e <=? lastStateID); [apply IH |].
    destruct (eventInOrder chain to lastStateID e) eqn:Horder; [| reflexivity].
    unfold eventInOrder in Horder.
    apply andb_prop in Horder as [Horder _].
    apply andb_prop in Horder as [Hid _].
    apply Z.eqb_eq in Hid.
    unfold len in *. cbn [map length].
    rewrite Nat2Z.inj_succ, seqZ_cons by lia.
    rewrite Hid, IH. f_equal. f_equal; lia.
Qed.

Lemma committedEvents_inOrder (chain : string) (to : Instant)
    (events : list EventRecordWithTime) :
  forall lastStateID,
    Forall (fun e => eventChainID e = chain /\ eventTime e < to)
           (committedEvents chain to lastStateID events).
Proof.
  induction events as [| e events IH]; intros lastStateID; cbn.
  - constructor.
  - destruct (eventID e <=? lastStateID); [apply IH |].
    destruct (eventInOrder chain to lastStateID e) eqn:Horder;
      [| constructor].
    constructor; [| apply IH].
    unfold eventInOrder in Horder.
    apply andb_prop in Horder as [Horder Htime].
    apply andb_prop in Horder as [_ Hchain].
    split; [apply String.eqb_eq; exact Hchain | apply Z.ltb_lt; exact Htime].
Qed.

Lemma commitEventRecords_run {W : Type} (E : Collaborators W) (c : Bor)
    (header : Header) (number : Z) (to : Instant) :
  (forall e w, fst (CommitState E e header w) = None) ->
  forall events lastStateID stateSyncs w,
    is_uint64 lastStateID ->
    Forall (fun e => is_uint64 (eventID e)) events ->
    exists w',
      commitEventRecords E c events number to header lastStateID stateSyncs w
      = (Returns (Ok (stateSyncs
                      ++ map stateDataOf
                           (committedEvents (chainID c) to lastStateID events))),
         w')
      /\ (w' = afterCommits E header w
                 (committedEvents (chainID c) to lastStateID events)
          \/ exists r,
               w' = log_emit E r
                      (afterCommits E header w
                         (committedEvents (chainID c) to lastStateID events))).
Proof.
  intros Hcommit events.
  induction events as [| e events IH]; intros lastStateID stateSyncs w Hl Hev.
  - exists w. cbn. rewrite app_nil_r. split; [reflexivity | left; reflexivity].
  - inversion Hev as [| ? ? He Hev']; subst.
    cbn [commitEventRecords committedEvents].
    destruct (Z.leb_spec (eventID e) lastStateID) as [Hle | Hlt].
    + apply IH; assumption.
    + pose proof (validateEventRecord_inOrder e number to lastStateID
                    (chainID c) Hl He Hlt) as Hvalid.
      destruct (validateEventRecord e number to lastStateID (chainID c))
        as [err |]; cbn [isNil] in Hvalid; rewrite <- Hvalid.
      * eexists. cbv beta iota delta [bind log writes ret].
        split; [cbn; rewrite app_nil_r; reflexivity |].
        right. eexists. reflexivity.
      * cbv beta iota delta [bind calls].
        pose proof (Hcommit e w) as Hnone.
        destruct (CommitState E e header w) as [o w2] eqn:Hcall.
        cbn [fst] in Hnone. subst o.
        rewrite (to_uint64_small (lastStateID + 1)) by solve_uint64.
        destruct (IH (lastStateID + 1) (stateSyncs ++ [stateDataOf e]) w2)
          as (w' & Hrun & Hworld); [solve_uint64 | assumption |].
        exists w'. unfold stateDataOf in Hrun at 1. rewrite Hrun.
        cbn [map afterCommits foldl]. rewrite Hcall. cbn [snd].
        rewrite <- app_assoc. split; [reflexivity | exact Hworld].
Qed.

Lemma slice_take {A : Type} (l : list A) (hi : Z) :
  0 <= hi <= len l -> slice l 0 hi = Returns (take (Z.to_nat hi) l).
Proof.
  intros H. unfold slice.
  destruct (Z.leb_spec 0 0); [| lia].
  destruct (Z.leb_spec 0 hi); [| lia].
  destruct (Z.leb_spec hi (len l)); [| lia].
  cbn [andb]. rewrite Z.sub_0_r. reflexivity.
Qed.

(** [CommitStates] is its loop, run on the fetched list once it is cut to
    the override count of the block. *)
Lemma CommitStates_loop {W : Type} (E : Collaborators W) (c : Bor)
    (header : Header) (n l : Z) (from : Header)
    (events : list EventRecordWithTime) (w w1 : W) :
  Number header = Some n ->
  LastStateId E (to_uint64 (big_Uint64 n - 1)) w = Ok l ->
  chain_GetHeaderByNumber E (to_uint64 (big_Uint64 n - Sprint (config c))) w
  = Some from ->
  Heimdall_FetchStateSyncEvents E (to_uint64 (big_Uint64 l + 1))
    (Instant_Unix (windowEnd from)) (log_emit E fetchingLog w)
  = (Ok events, w1) ->
  (forall val, overrideOf c (big_Uint64 n) = Some val -> 0 <= val) ->
  CommitStates E c header w
  = commitEventRecords E c (cutToOverride c (big_Uint64 n) events)
      (big_Uint64 n) (windowEnd from) header (big_Uint64 l) [] w1.
Proof.
  intros HN Hlast Hfrom Hfetch Hval.
  unfold CommitStates, Uint64. rewrite HN.
  cbv beta iota zeta delta [bind ret reads calls log writes].
  rewrite Hlast, Hfrom. fold (windowEnd from). fold fetchingLog.
  rewrite Hfetch.
  unfold cutToOverride, overrideOf in *.
  destruct (OverrideStateSyncRecords (config c)) as [overrides |];
    [| reflexivity].
  destruct (overrides !! FormatUint (big_Uint64 n)) as [val |] eqn:Hlookup;
    [| reflexivity].
  destruct (Z.ltb_spec val (len events)); [| reflexivity].
  unfold lift. rewrite slice_take by (specialize (Hval val eq_refl); lia).
  reflexivity.
Qed.

(** C2, as the code has it.  Take the list of event records that
    [CommitStates] fetches (cut to the override count of the block, if one
    is configured), in a world where no call of [CommitState] fails.
    [CommitStates] passes over every event whose id is not above the
    running last state id; it commits each other event, in order, while
    the event has [id = last_state_id + 1], the chain id of the engine and
    a time before the end of the window; it breaks at the first one that
    has not, committing neither it nor any later event.  The returned list
    holds exactly the committed events: they are a sub-list of the fetched
    ones, their ids are [last + 1, last + 2, ...], and [CommitState] has
    run on each of them, in order (after which at most the log line of
    the break is written). *)
Theorem CommitStates_commits_in_order {W : Type} (E : Collaborators W)
    (c : Bor) (header : Header) (n l : Z) (from : Header)
    (events : list EventRecordWithTime) (w w1 : W) :
  Number header = Some n ->
  LastStateId E (to_uint64 (big_Uint64 n - 1)) w = Ok l ->
  chain_GetHeaderByNumber E (to_uint64 (big_Uint64 n - Sprint (config c))) w
  = Some from ->
  Heimdall_FetchStateSyncEvents E (to_uint64 (big_Uint64 l + 1))
    (Instant_Unix (windowEnd from)) (log_emit E fetchingLog w)
  = (Ok events, w1) ->
  (forall val, overrideOf c (big_Uint64 n) = Some val -> 0 <= val) ->
  (forall e w, fst (CommitState E e header w) = None) ->
  Forall (fun e => is_uint64 (eventID e)) events ->
  let fetched := cutToOverride c (big_Uint64 n) events in
  let done :=
    committedEvents (chainID c) (windowEnd from) (big_Uint64 l) fetched in
  (exists w',
     CommitStates E c header w = (Returns (Ok (map stateDataOf done)), w')
     /\ (w' = afterCommits E header w1 done
         \/ exists r, w' = log_emit E r (afterCommits E header w1 done)))
  /\ sublist done fetched
  /\ map eventID done = seqZ (big_Uint64 l + 1) (len done)
  /\ Forall (fun e => eventChainID e = chainID c
                      /\ eventTime e < windowEnd from) done.
Proof.
  intros HN Hlast Hfrom Hfetch Hval Hcommit Hev fetched done.
  split; [| split; [| split]].
  - rewrite (CommitStates_loop E c header n l from events w w1)
      by assumption.
    assert (Hcut : Forall (fun e => is_uint64 (eventID e)) fetched).
    { unfold fetched, cutToOverride.
      destruct (overrideOf c (big_Uint64 n)) as [val |]; [| exact Hev].
      destruct (val <? len events); [| exact Hev].
      apply Forall_take. exact Hev. }
    destruct (commitEventRecords_run E c header (big_Uint64 n)
                (windowEnd from) Hcommit fetched (big_Uint64 l) [] w1
                (to_uint64_range _) Hcut) as (w' & Hrun & Hworld).
    exists w'. split; [exact Hrun | exact Hworld].
  - apply committedEvents_sublist.
  - apply committedEvents_ids.
  - apply committedEvents_inOrder.
Qed.

(** * The properties on explicit runs *)

(** ** C5 *)

Lemma CalcProducerDelay_base_plus_backup_witness :
  uint64_config Runs.cfg
  /\ Sprint Runs.cfg <> 0
  /\ 0 <= 1
  /\ CalcProducerDelay 4 1 Runs.cfg = Returns 8.
Proof.
  assert (H1 : uint64_config Runs.cfg)
    by (unfold uint64_config, is_uint64, uint64_modulus; simpl; lia).
  assert (H2 : Sprint Runs.cfg <> 0) by (simpl; lia).
  assert (H3 : 0 <= 1) by lia.
  split; [exact H1 |]. split; [exact H2 |]. split; [exact H3 |].
  apply (proj2 (CalcProducerDelay_base_plus_backup 4 1 Runs.cfg H1 H2 H3)).
  vm_compute. reflexivity.
Defined.

(** ** C3 *)

Lemma needToCommitSpan_cases_witness :
  is_uint64 (Sprint Runs.cfg)
  /\ Sprint Runs.cfg <> 0
  /\ is_uint64 163
  /\ needToCommitSpan Runs.cfg
       (Some {| ID := 5; StartBlock := 100; EndBlock := 163 |}) 160 = true.
Proof.
  assert (H1 : is_uint64 (Sprint Runs.cfg))
    by (unfold is_uint64, uint64_modulus; simpl; lia).
  assert (H2 : Sprint Runs.cfg <> 0) by (simpl; lia).
  assert (H3 : is_uint64 163) by (unfold is_uint64, uint64_modulus; lia).
  split; [exact H1 |]. split; [exact H2 |]. split; [exact H3 |].
  apply (proj1 (proj2 (needToCommitSpan_cases Runs.cfg
                         {| ID := 5; StartBlock := 100; EndBlock := 163 |}
                         160 H1 H2 H3))).
  right. simpl. lia.
Defined.

(** ** C9 *)

Lemma Seal_genesis_and_empty_block_witness :
  Number (Runs.header 0 0 50 []) = Some 0
  /\ Number (Runs.header 5 1004 50 []) = Some 5
  /\ Seal Runs.E0 (Runs.engine 10) 1
          {| blockHeader := Runs.header 0 0 50 []; Transactions := [] |}
          Runs.w0
     = (Returns (Some errUnknownBlock), Runs.w0)
  /\ Seal Runs.E0 (Runs.engineOf Runs.cfgPeriod0 10) 1
          {| blockHeader := Runs.header 5 1004 50 []; Transactions := [] |}
          Runs.w0
     = (Returns None,
        Toy.addLog {| logLevel := LvlInfo;
                      logMessage := "Sealing paused, waiting for transactions";
                      logError := None |} Runs.w0).
Proof.
  split; [reflexivity |]. split; [reflexivity |]. split.
  - apply (proj1 (Seal_genesis_and_empty_block Runs.E0 (Runs.engine 10) 1
                    {| blockHeader := Runs.header 0 0 50 [];
                       Transactions := [] |} Runs.w0 0 eq_refl)).
    reflexivity.
  - apply (proj2 (Seal_genesis_and_empty_block Runs.E0
                    (Runs.engineOf Runs.cfgPeriod0 10) 1
                    {| blockHeader := Runs.header 5 1004 50 [];
                       Transactions := [] |} Runs.w0 5 eq_refl)).
    + vm_compute. discriminate.
    + reflexivity.
    + reflexivity.
Defined.

(** ** C7 *)

(** The collaborators of the small world never hand out
    [ErrFutureBlock]. *)
Lemma Toy_never_future (s : Toy.Scenario) : never_future (Toy.collaborators s).
Proof.
  repeat split; intros; cbn; try discriminate.
  - destruct (Toy.contractAnswers s); discriminate.
  - unfold Toy.parseValidators. destruct (_ =? 0); discriminate.
  - unfold Toy.succession.
    destruct (Toy.indexOf _ _); discriminate.
Qed.

Lemma verifyHeader_future_block_witness :
  Number (Runs.header 3 1002 53 (replicate 97 x00)) = Some 3
  /\ Number (Runs.header 3 1002 54 (replicate 97 x00)) = Some 3
  /\ 0 <= Instant_Unix (time_Now Runs.E0 Runs.w0) < 2 ^ 63
  /\ never_future Runs.E0
  /\ fst (verifyHeader Runs.E0 (Runs.engine 10) 1
            (Runs.header 3 1002 53 (replicate 97 x00)) [] Runs.w0)
     <> Returns (Some ErrFutureBlock)
  /\ verifyHeader Runs.E0 (Runs.engine 10) 1
       (Runs.header 3 1002 54 (replicate 97 x00)) [] Runs.w0
     = (Returns (Some ErrFutureBlock), Runs.w0).
Proof.
  assert (H : 0 <= Instant_Unix (time_Now Runs.E0 Runs.w0) < 2 ^ 63)
    by (split; [apply Z.leb_le | apply Z.ltb_lt]; vm_compute; reflexivity).
  assert (HE : never_future Runs.E0) by apply Toy_never_future.
  split; [reflexivity |]. split; [reflexivity |]. split; [exact H |].
  split; [exact HE |]. split.
  - apply (proj1 (verifyHeader_future_block Runs.E0 (Runs.engine 10) 1
                    (Runs.header 3 1002 53 (replicate 97 x00)) [] Runs.w0 3
                    eq_refl H)); [vm_compute; reflexivity | exact HE].
  - apply (proj2 (verifyHeader_future_block Runs.E0 (Runs.engine 10) 1
                    (Runs.header 3 1002 54 (replicate 97 x00)) [] Runs.w0 3
                    eq_refl H)).
    vm_compute. discriminate.
Defined.

(** A header at exactly [now + 3] is handed to the later checks: here it
    fails on its unknown parent, not as a future block. *)
Example verifyHeader_at_the_bound :
  fst (verifyHeader Runs.E0 (Runs.engine 10) 1
         (Runs.header 3 1002 53 (replicate 97 x00)) [] Runs.w0)
  = Returns (Some ErrUnknownAncestor).
Proof. vm_compute. reflexivity. Qed.

(** ** C1 *)

Lemma verifyHeader_sprint_end_validators_witness :
  Number (Runs.header 3 1002 50 (replicate 138 x00)) = Some 3
  /\ Sprint (config (Runs.engine 10)) <> 0
  /\ to_uint64 (big_Uint64 3 + 1) mod Sprint (config (Runs.engine 10)) = 0
  /\ Time (Runs.header 3 1002 50 (replicate 138 x00))
     <= to_uint64 (to_int64 (Instant_Unix (time_Now Runs.E0 Runs.w0)
                             + allowFutureBlockTimeSeconds))
  /\ extraVanity + extraSeal
     <= len (Extra (Runs.header 3 1002 50 (replicate 138 x00)))
  /\ verifyHeader Runs.E0 (Runs.engine 10) 1
       (Runs.header 3 1002 50 (replicate 138 x00)) [] Runs.w0
     = (Returns (Some errInvalidSpanValidators), Runs.w0).
Proof.
  assert (H2 : Sprint (config (Runs.engine 10)) <> 0) by (simpl; lia).
  assert (H3 : to_uint64 (big_Uint64 3 + 1)
                 mod Sprint (config (Runs.engine 10)) = 0)
    by (vm_compute; reflexivity).
  assert (H4 : Time (Runs.header 3 1002 50 (replicate 138 x00))
               <= to_uint64 (to_int64 (Instant_Unix (time_Now Runs.E0 Runs.w0)
                                       + allowFutureBlockTimeSeconds)))
    by (vm_compute; discriminate).
  assert (H5 : extraVanity + extraSeal
               <= len (Extra (Runs.header 3 1002 50 (replicate 138 x00))))
    by (vm_compute; discriminate).
  split; [reflexivity |]. split; [exact H2 |]. split; [exact H3 |].
  split; [exact H4 |]. split; [exact H5 |].
  apply (proj1 (verifyHeader_sprint_end_validators Runs.E0 (Runs.engine 10) 1
                  (Runs.header 3 1002 50 (replicate 138 x00)) [] Runs.w0 3
                  eq_refl H2 H3 H4 H5)).
  vm_compute. discriminate.
Defined.

(** A sprint-end header with an empty validator region passes the
    extra-data check: block 3 goes on to the cascading checks (and fails
    there on its unknown parent), and with a sprint of one block the
    genesis header is accepted. *)
Example verifyHeader_empty_region_block3 :
  len (Extra (Runs.header 3 1002 50 (replicate 97 x00)))
  - extraVanity - extraSeal = 0
  /\ fst (verifyHeader Runs.E0 (Runs.engine 10) 1
            (Runs.header 3 1002 50 (replicate 97 x00)) [] Runs.w0)
     = Returns (Some ErrUnknownAncestor).
Proof. split; vm_compute; reflexivity. Qed.

(** Where the parent is known the cascading checks compare the region
    with the validators of the contract, and then return
    [errInvalidSpanValidators] for an empty region as for a region of 80
    bytes that names other validators. *)
Example verifyHeader_region_compared_with_contract :
  fst (verifyHeader Runs.EAt2 (Runs.engine 10) 1
         (Runs.header 3 1002 106 (replicate 97 x00)) [] Runs.w2At110)
  = Returns (Some errInvalidSpanValidators)
  /\ fst (verifyHeader Runs.EAt2 (Runs.engine 10) 1
            (Runs.header 3 1002 106 (replicate 177 x00)) [] Runs.w2At110)
     = Returns (Some errInvalidSpanValidators).
Proof. vm_compute. split; reflexivity. Qed.

Example verifyHeader_empty_region_genesis :
  fst (verifyHeader Runs.E0 (Runs.engineOf Runs.cfgSprint1 10) 1
         (Runs.header 0 0 50 (replicate 97 x00)) [] Runs.w0)
  = Returns None.
Proof. vm_compute. reflexivity. Qed.

(** The claim as stated fails on block 3 with an empty validator region:
    the region is not a positive multiple of 40, and [verifyHeader] does
    not return [errInvalidSpanValidators]. *)
Lemma verifyHeader_sprint_end_validators_counterexample :
  ~ sprint_end_validators_as_stated.
Proof.
  intros H.
  specialize (H Toy.World Runs.E0 (Runs.engine 10) 1%nat
                (Runs.header 3 1002 50 (replicate 97 x00)) [] Runs.w0 3).
  destruct H as [_ H].
  - reflexivity.
  - simpl. lia.
  - vm_compute. reflexivity.
  - vm_compute. discriminate.
  - vm_compute. discriminate.
  - assert (Hret : fst (verifyHeader Runs.E0 (Runs.engine 10) 1
                          (Runs.header 3 1002 50 (replicate 97 x00)) []
                          Runs.w0)
                   = Returns (Some errInvalidSpanValidators)).
    { apply H. intros [Hpos _]. vm_compute in Hpos. discriminate. }
    vm_compute in Hret. discriminate.
Qed.

(** ** C2 *)

(** Scenario S6 at block 4 of the chain: the last state id is 10 and
    Heimdall returns the events 11, 12 and 14; the events 11 and 12 are
    committed and 14 is not. *)
Lemma CommitStates_commits_in_order_witness :
  Number Runs.block4 = Some 4
  /\ LastStateId Runs.ES6 (to_uint64 (big_Uint64 4 - 1)) Runs.w0 = Ok 10
  /\ chain_GetHeaderByNumber Runs.ES6
       (to_uint64 (big_Uint64 4 - Sprint (config (Runs.engine 10)))) Runs.w0
     = Some Runs.genesis
  /\ Heimdall_FetchStateSyncEvents Runs.ES6 (to_uint64 (big_Uint64 10 + 1))
       (Instant_Unix (windowEnd Runs.genesis))
       (log_emit Runs.ES6 fetchingLog Runs.w0)
     = (Ok [Runs.event 11; Runs.event 12; Runs.event 14],
        Toy.addLog fetchingLog Runs.w0)
  /\ (forall val,
        overrideOf (Runs.engine 10) (big_Uint64 4) = Some val -> 0 <= val)
  /\ (forall e w, fst (CommitState Runs.ES6 e Runs.block4 w) = None)
  /\ Forall (fun e => is_uint64 (eventID e))
            [Runs.event 11; Runs.event 12; Runs.event 14]
  /\ committedEvents "137" (windowEnd Runs.genesis) 10
       [Runs.event 11; Runs.event 12; Runs.event 14]
     = [Runs.event 11; Runs.event 12]
  /\ exists w',
       CommitStates Runs.ES6 (Runs.engine 10) Runs.block4 Runs.w0
       = (Returns (Ok (map stateDataOf [Runs.event 11; Runs.event 12])), w').
Proof.
  assert (H5 : forall val,
             overrideOf (Runs.engine 10) (big_Uint64 4) = Some val -> 0 <= val)
    by (intros val; vm_compute; discriminate).
  assert (H6 : forall e w, fst (CommitState Runs.ES6 e Runs.block4 w) = None)
    by (intros e w; reflexivity).
  assert (H7 : Forall (fun e => is_uint64 (eventID e))
                      [Runs.event 11; Runs.event 12; Runs.event 14])
    by (repeat constructor; unfold is_uint64, uint64_modulus; simpl; lia).
  split; [reflexivity |]. split; [reflexivity |]. split; [reflexivity |].
  split; [reflexivity |]. split; [exact H5 |]. split; [exact H6 |].
  split; [exact H7 |]. split; [vm_compute; reflexivity |].
  destruct (CommitStates_commits_in_order Runs.ES6 (Runs.engine 10)
              Runs.block4 4 10 Runs.genesis
              [Runs.event 11; Runs.event 12; Runs.event 14]
              Runs.w0 (Toy.addLog fetchingLog Runs.w0)
              eq_refl eq_refl eq_refl eq_refl H5 H6 H7)
    as [[w' [Hrun _]] _].
  exists w'. exact Hrun.
Defined.

(** The same run, evaluated: the returned data are those of the events 11
    and 12, [CommitState] ran on these two, and the last state id of the
    contract is 12. *)
Example CommitStates_S6 :
  let run :=
    CommitStates Runs.ES6 (Runs.engine 10) Runs.block4 Runs.w0 in
  fst run = Returns (Ok (map stateDataOf [Runs.event 11; Runs.event 12]))
  /\ Toy.committed (snd run) = [Runs.event 11; Runs.event 12]
  /\ Toy.lastStateID (snd run) = 12.
Proof. vm_compute. repeat split; reflexivity. Qed.

(** When Heimdall returns the events 10 and 11 and the last state id is
    10, the event 10 fails the id condition, yet the loop goes on and
    commits the event 11. *)
Example CommitStates_skips_stale_event :
  let run :=
    CommitStates Runs.EStale (Runs.engine 10) Runs.block4 Runs.w0 in
  isNil (validateEventRecord (Runs.event 10) 4 (time_Unix 100) 10 "137")
  = false
  /\ fst run = Returns (Ok [stateDataOf (Runs.event 11)])
  /\ Toy.committed (snd run) = [Runs.event 11].
Proof. vm_compute. repeat split; reflexivity. Qed.

(** The claim as stated fails on that run: by it, nothing is committed
    once the event 10 has failed. *)
Lemma CommitStates_commits_in_order_counterexample : ~ commits_as_stated.
Proof.
  intros H.
  destruct (H Toy.World Runs.EStale (Runs.engine 10) Runs.block4 4 10
              Runs.genesis
              [Runs.event 10; Runs.event 11] Runs.w0
              (Toy.addLog fetchingLog Runs.w0))
    as [w' Hrun]; try reflexivity.
  - repeat constructor; unfold is_uint64, uint64_modulus; simpl; lia.
  - vm_compute in Hrun. discriminate.
Qed.

(** ** C4 *)

(** A system message whose EVM call fails: nil is returned and the state
    was finalised once. *)
Example applyMessage_failed_call :
  let E := Toy.collaborators
             {| Toy.knownHeaders := []; Toy.contractAnswers := true;
                Toy.contractValidators := [];
                Toy.contractSpan := {| ID := 0; StartBlock := 0; EndBlock := 0 |};
                Toy.fetchedEvents := []; Toy.evmFails := true |} in
  let run := applyMessage E (getSystemMessage 4096 []) Runs.genesis Runs.w0 in
  fst run = Returns None
  /\ Toy.finalised (snd run) = 1%nat
  /\ Toy.evmCalls (snd run) = [getSystemMessage 4096 []].
Proof. vm_compute. repeat split; reflexivity. Qed.

(** ** C6 *)

Lemma Finalize_swallows_FinalizeAndAssemble_returns_witness :
  Number (Runs.header 4 1003 50 []) = Some 4
  /\ Sprint (config (Runs.engine 10)) <> 0
  /\ big_Uint64 4 mod Sprint (config (Runs.engine 10)) = 0
  /\ checkAndCommitSpan Runs.EFailing (Runs.engine 10) 1
       (Runs.header 4 1003 50 []) Runs.w0
     = (Returns (Some Toy.reverted), Runs.w0)
  /\ exists msg,
       let logged :=
         Toy.addLog {| logLevel := LvlError; logMessage := msg;
                       logError := Some Toy.reverted |} Runs.w0 in
       Finalize Runs.EFailing (Runs.engine 10) 1 (Runs.header 4 1003 50 [])
                Runs.w0
       = (Returns (Runs.header 4 1003 50 []), logged)
       /\ FinalizeAndAssemble Runs.EFailing (Runs.engine 10) 1
            (Runs.header 4 1003 50 []) [] Runs.w0
          = (Returns (Runs.header 4 1003 50 [], Err Toy.reverted), logged).
Proof.
  assert (H2 : Sprint (config (Runs.engine 10)) <> 0) by (simpl; lia).
  assert (H3 : big_Uint64 4 mod Sprint (config (Runs.engine 10)) = 0)
    by (vm_compute; reflexivity).
  assert (H4 : checkAndCommitSpan Runs.EFailing (Runs.engine 10) 1
                 (Runs.header 4 1003 50 []) Runs.w0
               = (Returns (Some Toy.reverted), Runs.w0))
    by (vm_compute; reflexivity).
  split; [reflexivity |]. split; [exact H2 |]. split; [exact H3 |].
  split; [exact H4 |].
  exact (Finalize_swallows_FinalizeAndAssemble_returns Runs.EFailing
           (Runs.engine 10) 1 (Runs.header 4 1003 50 []) [] Runs.w0 Runs.w0 4
           Toy.reverted eq_refl H2 H3 (or_introl H4)).
Defined.

(** ** C8 *)


(** With no signer configured (the zero address) [Prepare] succeeds with
    the succession 0, though the snapshot has no succession number for
    that address. *)
Example Prepare_without_signer :
  fst (Prepare Runs.E0 (Runs.engine zeroAddress) 1 Runs.block1 Runs.w0)
  = Returns (withDifficulty
               (Runs.header 1 1000 102 (replicate 97 x00)) (Some 0), None)
  /\ GetSignerSuccessionNumber Runs.E0
       (Runs.snapshotOf [Runs.validator 10; Runs.validator 11]) zeroAddress
     = Err (UnauthorizedSignerError 0 zeroAddress).
Proof. split; vm_compute; reflexivity. Qed.


(** ** C10 *)

Lemma GetCurrentValidators_panics_witness :
  Pack_getBorValidators Runs.EHashFails 1 = Ok []
  /\ ethAPI_Call Runs.EHashFails
       (validatorsCallArgs Runs.EHashFails (Runs.engine 10) [])
       (BlockNumberOrHashWithHash 1000) Runs.w0
     = Err Toy.reverted
  /\ GetCurrentValidators Runs.EHashFails (Runs.engine 10) 1000 1 Runs.w0
     = (Panics (PanicError Toy.reverted), Runs.w0)
  /\ GetCurrentValidatorsByBlockNrOrHash Runs.EHashFails (Runs.engine 10)
       (BlockNumberOrHashWithHash 1000) 1 Runs.w0
     = (Returns (Err Toy.reverted), Runs.w0).
Proof.
  assert (H1 : Pack_getBorValidators Runs.EHashFails 1 = Ok [])
    by reflexivity.
  assert (H2 : ethAPI_Call Runs.EHashFails
                 (validatorsCallArgs Runs.EHashFails (Runs.engine 10) [])
                 (BlockNumberOrHashWithHash 1000) Runs.w0
               = Err Toy.reverted)
    by reflexivity.
  split; [exact H1 |]. split; [exact H2 |].
  destruct (GetCurrentValidators_panics Runs.EHashFails (Runs.engine 10)
              Toy.reverted) as (Hpanic & Hsibling & _).
  split; [exact (Hpanic 1000 1 Runs.w0 [] H1 H2) |].
  exact (Hsibling (BlockNumberOrHashWithHash 1000) 1 Runs.w0 [] H1 H2).
Defined.

(** Only the call they make counts: on that node the sibling, asked for
    the latest block, returns the validators of the contract, and
    [GetCurrentValidators] panics all the same. *)
Example GetCurrentValidators_only_its_call :
  GetCurrentValidatorsByBlockNrOrHash Runs.EHashFails (Runs.engine 10)
    LatestBlockNumber 1 Runs.w0
  = (Returns (Ok [Runs.validator 10; Runs.validator 11]), Runs.w0)
  /\ fst (GetCurrentValidators Runs.EHashFails (Runs.engine 10) 1000 1
            Runs.w0)
     = Panics (PanicError Toy.reverted).
Proof. split; vm_compute; reflexivity. Qed.

(** The callers on the chain of the scenarios, when the contract call
    fails: the snapshot of the genesis block with an empty cache, and
    [Prepare] on block 3 (a sprint end) with the parent snapshot cached,
    both panic. *)
Example snapshot_genesis_panics :
  fst (snapshot Runs.EFailing (Runs.engine 10) 1 0 1000 []
         {| Toy.clock := time_Unix 50; Toy.logged := []; Toy.goroutines := [];
            Toy.recents := ∅; Toy.lastStateID := 10; Toy.committed := [];
            Toy.evmCalls := []; Toy.finalised := 0; Toy.stateSync := [] |})
  = Panics (PanicError Toy.reverted).
Proof. vm_compute. reflexivity. Qed.

Example Prepare_sprint_end_panics :
  fst (Prepare Runs.EFailing (Runs.engine 10) 1
         (Runs.header 3 1002 0 []) Runs.w2Cached)
  = Panics (PanicError Toy.reverted).
Proof. vm_compute. reflexivity. Qed.

(** A block that [Seal] does seal, for comparison: block 1 as prepared
    for the signer 10, carrying one transaction.  One goroutine is
    started; it sends the block with the seal written over the last 65
    bytes once the delay has elapsed and the receiver is ready, and sends
    nothing when the stop channel is closed first. *)
Example Seal_starts_one_goroutine :
  let block := {| blockHeader := Runs.prepared1; Transactions := [7] |} in
  let sealed :=
    {| blockHeader :=
         withExtra Runs.prepared1 (replicate 32 x00 ++ Toy.sealOf 10);
       Transactions := [7] |} in
  let run := Seal Runs.E0 Runs.signingEngine 1 block Runs.w0At100 in
  fst run = Returns None
  /\ map sealedBlock (Toy.goroutines (snd run)) = [sealed]
  /\ map (fun task => sealTaskSends task DelayElapsed true)
         (Toy.goroutines (snd run)) = [Some sealed]
  /\ map (fun task => sealTaskSends task StopClosed true)
         (Toy.goroutines (snd run)) = [None].
Proof. vm_compute. repeat split; reflexivity. Qed.

(** ** The end-to-end scenarios of the specification *)

(** S1: block 1 of the in-turn signer, time 102 and difficulty 2, is
    accepted. *)
Example scenario_S1_verify :
  fst (verifyHeader Runs.E0 (Runs.engine 10) 1 (Runs.sealed1 10 102 2) []
         Runs.w0At100)
  = Returns None.
Proof. vm_compute. reflexivity. Qed.

(** S2: block 1 of the other signer (succession 1, difficulty 1) is too
    soon at time 103 and accepted at time 104. *)
Example scenario_S2_verify :
  fst (Prepare Runs.E0 (Runs.engine 11) 1 Runs.block1 Runs.w0)
  = Returns (withDifficulty
               (Runs.header 1 1000 104 (replicate 97 x00)) (Some 1), None)
  /\ fst (verifyHeader Runs.E0 (Runs.engine 10) 1 (Runs.sealed1 11 103 1) []
            Runs.w0At100)
     = Returns (Some (BlockTooSoonError 1 1))
  /\ fst (verifyHeader Runs.E0 (Runs.engine 10) 1 (Runs.sealed1 11 104 1) []
            Runs.w0At101)
     = Returns None.
Proof. vm_compute. repeat split; reflexivity. Qed.

(** S3: block 3 is accepted with the validator bytes of 10 and 11 in this
    order, 80 bytes, and gets [errInvalidSpanValidators] with the two
    swapped. *)
Example scenario_S3_verify :
  len (Toy.headerBytes (Runs.validator 10)
       ++ Toy.headerBytes (Runs.validator 11)) = 80
  /\ fst (verifyHeader Runs.EAt2 (Runs.engine 10) 1
            (Runs.sealed3 (Toy.headerBytes (Runs.validator 10)
                           ++ Toy.headerBytes (Runs.validator 11)))
            [] Runs.w2At110)
     = Returns None
  /\ fst (verifyHeader Runs.EAt2 (Runs.engine 10) 1
            (Runs.sealed3 (Toy.headerBytes (Runs.validator 11)
                           ++ Toy.headerBytes (Runs.validator 10)))
            [] Runs.w2At110)
     = Returns (Some errInvalidSpanValidators).
Proof. vm_compute. repeat split; reflexivity. Qed.


(** * Further properties of the engine *)

(** ** Runs that return *)

(** What a run of [bind], [ret], [reads], [lift] or [Uint64] that returns
    went through. *)
Lemma bind_Returns {W A B : Type} (m : Go W A) (k : A -> Go W B)
    (w w' : W) (b : B) :
  bind m k w = (Returns b, w') ->
  exists a w1, m w = (Returns a, w1) /\ k a w1 = (Returns b, w').
Proof.
  unfold bind. destruct (m w) as [[a | p |] w1]; try discriminate.
  intros H. exists a, w1. split; [reflexivity | exact H].
Qed.

Lemma ret_Returns {W A : Type} (a b : A) (w w' : W) :
  ret a w = (Returns b, w') -> a = b /\ w = w'.
Proof. intros [= -> ->]. split; reflexivity. Qed.

Lemma reads_Returns {W A : Type} (f : W -> A) (a : A) (w w' : W) :
  reads f w = (Returns a, w') -> a = f w /\ w' = w.
Proof. intros [= <- <-]. split; reflexivity. Qed.

Lemma lift_Returns {W A : Type} (o : outcome A) (a : A) (w w' : W) :
  lift o w = (Returns a, w') -> o = Returns a /\ w' = w.
Proof. intros [= -> <-]. split; reflexivity. Qed.

Lemma Uint64_Returns {W : Type} (x : option Z) (a : Z) (w w' : W) :
  Uint64 x w = (Returns a, w') ->
  exists n, x = Some n /\ a = big_Uint64 n /\ w' = w.
Proof.
  unfold Uint64. destruct x as [n |]; [| discriminate].
  intros [= <- <-]. exists n. repeat split.
Qed.

(** Splits a hypothesis [H : bind m k w = (Returns b, w')] into the run
    of [m] and the run of the rest. *)
Ltac invert_bind H a w1 Hm :=
  apply bind_Returns in H as (a & w1 & Hm & H).

Lemma big_Uint64_nonneg (n : Z) : 0 <= big_Uint64 n.
Proof.
  unfold big_Uint64. pose proof (to_uint64_range (Z.abs n)) as H.
  unfold is_uint64 in H. lia.
Qed.

Lemma isSprintStart_Returns (number sprint : Z) (b : bool) :
  isSprintStart number sprint = Returns b ->
  sprint <> 0 /\ b = (number mod sprint =? 0).
Proof.
  unfold isSprintStart. destruct (Z.eqb_spec sprint 0); [discriminate |].
  intros [= <-]. split; [assumption | reflexivity].
Qed.

(** A call of [GetCurrentValidatorsByBlockNrOrHash] that returns
    validators, and a call of [GetCurrentSpan] that returns a span, leave
    the world as it was; the fields of the span are [uint64] values. *)
Lemma GetCurrentValidatorsByBlockNrOrHash_world {W : Type}
    (E : Collaborators W) (c : Bor) (nr : BlockNumberOrHash)
    (blockNumber : Z) (w w' : W) (valz : list Validator) :
  GetCurrentValidatorsByBlockNrOrHash E c nr blockNumber w
  = (Returns (Ok valz), w') ->
  w' = w.
Proof.
  unfold GetCurrentValidatorsByBlockNrOrHash.
  destruct (Pack_getBorValidators E blockNumber) as [data | err].
  - cbv beta iota delta [bind reads lift ret].
    destruct (ethAPI_Call E _ _ w) as [res | err]; [| discriminate].
    destruct (Unpack_getBorValidators E res) as [[ret0 ret1] | err].
    + destruct (makeValidators ret0 ret1 0); [| discriminate | discriminate].
      intros [= _ <-]. reflexivity.
    + discriminate.
  - cbv beta iota delta [bind log writes ret]. discriminate.
Qed.

Lemma GetCurrentSpan_Returns {W : Type} (E : Collaborators W) (c : Bor)
    (headerHash : Hash) (w w' : W) (span : Span) :
  GetCurrentSpan E c headerHash w = (Returns (Ok span), w') ->
  w' = w /\ is_uint64 (ID span) /\ is_uint64 (StartBlock span)
  /\ is_uint64 (EndBlock span).
Proof.
  unfold GetCurrentSpan.
  destruct (Pack_getCurrentSpan E) as [data | err].
  - cbv beta iota delta [bind reads ret].
    destruct (ethAPI_Call E _ _ w) as [res | err]; [| discriminate].
    destruct (Unpack_getCurrentSpan E res) as [[[n s] e] | err];
      [| discriminate].
    intros [= <- <-]. cbn.
    repeat split; apply to_uint64_range.
  - cbv beta iota delta [bind log writes ret]. discriminate.
Qed.

(** ** The snapshot loop ends *)

Section Halts.
Context {W : Type}.

Lemma halts_ret {A : Type} (a : A) : halts (W := W) (ret a).
Proof. intros w. discriminate. Qed.

Lemma halts_panic {A : Type} (p : panic_value) :
  halts (W := W) (A := A) (panic p).
Proof. intros w. discriminate. Qed.

Lemma halts_reads {A : Type} (f : W -> A) : halts (reads f).
Proof. intros w. discriminate. Qed.

Lemma halts_writes (f : W -> W) : halts (writes f).
Proof. intros w. discriminate. Qed.

Lemma halts_calls {A : Type} (f : W -> A * W) : halts (calls f).
Proof. intros w. unfold calls. destruct (f w). discriminate. Qed.

Lemma halts_lift {A : Type} (o : outcome A) :
  o <> OutOfFuel -> halts (W := W) (lift o).
Proof. intros H w. exact H. Qed.

Lemma halts_bind_ret {A B : Type} (a : A) (k : A -> Go W B) :
  halts (k a) -> halts (bind (ret a) k).
Proof. intros H w. exact (H w). Qed.

Lemma halts_bind_panic {A B : Type} (p : panic_value) (k : A -> Go W B) :
  halts (bind (panic p) k).
Proof. intros w. discriminate. Qed.

Lemma halts_bind {A B : Type} (m : Go W A) (k : A -> Go W B) :
  halts m -> (forall a, halts (k a)) -> halts (bind m k).
Proof.
  intros Hm Hk w. unfold bind. specialize (Hm w).
  destruct (m w) as [[a | p |] w1]; cbn in *;
    [apply Hk | discriminate | contradiction].
Qed.
End Halts.

Lemma makeValidators_halts (ret0 : list Address) (ret1 : list Z) :
  forall i, makeValidators ret0 ret1 i <> OutOfFuel.
Proof.
  induction ret0 as [| a rest IH]; intros i; cbn; [discriminate |].
  destruct (ret1 !! i); [| discriminate].
  specialize (IH (S i)).
  destruct (makeValidators rest ret1 (S i));
    [discriminate | discriminate | contradiction].
Qed.

Lemma CalcProducerDelay_halts (number succession : Z) (cfg : BorConfig) :
  CalcProducerDelay number succession cfg <> OutOfFuel.
Proof. unfold CalcProducerDelay. destruct (Sprint cfg =? 0); discriminate. Qed.

Lemma isSprintStart_halts (number sprint : Z) :
  isSprintStart number sprint <> OutOfFuel.
Proof. unfold isSprintStart. destruct (sprint =? 0); discriminate. Qed.

Lemma slice_halts {A : Type} (b : list A) (lo hi : Z) :
  slice b lo hi <> OutOfFuel.
Proof. unfold slice. destruct (_ && _); discriminate. Qed.

(** One step of a proof that a run built from the monad's operations
    halts. *)
Ltac halts_step :=
  lazymatch goal with
  | |- halts (bind _ _) => apply halts_bind; [| intros ?]
  | |- halts (ret _) => apply halts_ret
  | |- halts (panic _) => apply halts_panic
  | |- halts (reads _) => apply halts_reads
  | |- halts (writes _) => apply halts_writes
  | |- halts (calls _) => apply halts_calls
  | |- halts (log _ _ _ _) => apply halts_writes
  | |- halts (Uint64 ?x) => destruct x; [apply halts_ret | apply halts_panic]
  | |- halts (lift (makeValidators _ _ _)) =>
    apply halts_lift, makeValidators_halts
  | |- halts (lift (CalcProducerDelay _ _ _)) =>
    apply halts_lift, CalcProducerDelay_halts
  | |- halts (lift (isSprintStart _ _)) =>
    apply halts_lift, isSprintStart_halts
  | |- halts (lift (slice _ _ _)) => apply halts_lift, slice_halts
  | |- halts (match ?x with _ => _ end) => destruct x
  end.

Section EngineHalts.
Context {W : Type} (E : Collaborators W) (c : Bor).

Lemma GetCurrentValidators_halts headerHash blockNumber :
  halts (GetCurrentValidators E c headerHash blockNumber).
Proof. unfold GetCurrentValidators. repeat halts_step. Qed.

Lemma GetCurrentValidatorsByBlockNrOrHash_halts nr blockNumber :
  halts (GetCurrentValidatorsByBlockNrOrHash E c nr blockNumber).
Proof. unfold GetCurrentValidatorsByBlockNrOrHash. repeat halts_step. Qed.

Lemma ecrecover_halts header : halts (ecrecover E header).
Proof. unfold ecrecover. repeat halts_step. Qed.

Hypothesis Hgenesis : has_genesis E.

(** Each iteration of the loop goes one block down, and at block 0 the
    header of the chain ends it. *)
Lemma snapshotLoop_halts (fuel : nat) :
  forall number hash parents headers,
    0 <= number -> (Z.to_nat number < fuel)%nat ->
    halts (snapshotLoop E c fuel number hash parents headers).
Proof.
  induction fuel as [| fuel IH]; intros number hash parents headers Hn Hfuel;
    [lia |].
  cbn [snapshotLoop].
  apply halts_bind; [apply halts_calls | intros [snap |]];
    [apply halts_ret |].
  apply halts_bind; [repeat halts_step | intros [snap |]];
    [apply halts_ret |].
  destruct (Z.eqb_spec number 0) as [-> | Hnz].
  - intros w. cbv beta iota delta [bind reads].
    specialize (Hgenesis w).
    destruct (chain_GetHeaderByNumber E 0 w) as [checkpoint |];
      [| contradiction].
    cbv beta iota.
    pose proof (GetCurrentValidators_halts (Header_Hash E checkpoint)
                  (to_uint64 (0 + 1)) w) as Hv.
    destruct (GetCurrentValidators E c (Header_Hash E checkpoint)
                (to_uint64 (0 + 1)) w) as [[[validators | err] | p |] w1];
      cbn in *; try discriminate; [| contradiction].
    unfold calls. destruct (Snapshot_store E _ w1) as [[err |] w2];
      cbn; discriminate.
  - apply halts_bind; [apply halts_ret | intros [[snap | err] |]];
      [apply halts_ret | apply halts_ret |].
    apply halts_bind; [repeat halts_step |].
    intros [[header parents'] | err]; [| apply halts_ret].
    apply IH.
    + unfold to_uint64, uint64_modulus. apply Z.mod_pos_bound. lia.
    + assert (to_uint64 (number - 1) <= number - 1).
      { unfold to_uint64. apply Z.mod_le; unfold uint64_modulus; lia. }
      lia.
Qed.

Lemma snapshot_halts (fuel : nat) number hash parents :
  0 <= number -> (Z.to_nat number < fuel)%nat ->
  halts (snapshot E c fuel number hash parents).
Proof.
  intros Hn Hfuel. unfold snapshot.
  apply halts_bind; [apply snapshotLoop_halts; assumption |].
  intros [[snap headers] | err]; repeat halts_step.
Qed.

(** The block before a block that is not the genesis block. *)
Lemma before_fuel (fuel : nat) (number : Z) :
  is_uint64 number -> (Z.to_nat number <= fuel)%nat ->
  (number =? 0) = false ->
  0 <= to_uint64 (number - 1)
  /\ (Z.to_nat (to_uint64 (number - 1)) < fuel)%nat.
Proof.
  intros Hn Hfuel Hnz. apply Z.eqb_neq in Hnz.
  rewrite to_uint64_small by solve_uint64.
  unfold is_uint64 in Hn. lia.
Qed.

Lemma verifySeal_halts (fuel : nat) header parents :
  (forall n, Number header = Some n ->
             (Z.to_nat (big_Uint64 n) <= fuel)%nat) ->
  halts (verifySeal E c fuel header parents).
Proof.
  intros Hfuel. unfold verifySeal, Uint64.
  destruct (Number header) as [n |]; [| apply halts_bind_panic].
  specialize (Hfuel n eq_refl).
  apply halts_bind_ret.
  destruct (big_Uint64 n =? 0) eqn:Hnz; [apply halts_ret |].
  destruct (before_fuel fuel (big_Uint64 n) (to_uint64_range _) Hfuel Hnz)
    as [Hpos Hlt].
  apply halts_bind; [apply snapshot_halts; assumption |].
  intros [snap | err]; [| apply halts_ret].
  apply halts_bind; [apply ecrecover_halts |].
  intros r. repeat halts_step.
Qed.

Lemma verifyCascadingFields_halts (fuel : nat) header parents :
  (forall n, Number header = Some n ->
             (Z.to_nat (big_Uint64 n) <= fuel)%nat) ->
  halts (verifyCascadingFields E c fuel header parents).
Proof.
  intros Hfuel. unfold verifyCascadingFields, Uint64.
  destruct (Number header) as [n |] eqn:HN; [| apply halts_bind_panic].
  pose proof (Hfuel n eq_refl) as Hle.
  apply halts_bind_ret.
  destruct (big_Uint64 n =? 0) eqn:Hnz; [apply halts_ret |].
  destruct (before_fuel fuel (big_Uint64 n) (to_uint64_range _) Hle Hnz)
    as [Hpos Hlt].
  apply halts_bind; [repeat halts_step |].
  intros [parent |]; [| apply halts_ret].
  apply halts_bind; [repeat halts_step | intros parentNumber].
  destruct (_ || _); [apply halts_ret |].
  destruct (_ >? _); [apply halts_ret |].
  apply halts_bind; [apply snapshot_halts; assumption |].
  intros [snap | err]; [| apply halts_ret].
  apply halts_bind; [repeat halts_step | intros sprintEnd].
  apply halts_bind.
  { destruct sprintEnd; [| apply halts_ret].
    apply halts_bind;
      [apply GetCurrentValidatorsByBlockNrOrHash_halts | intros r].
    repeat halts_step. }
  intros [err |]; [apply halts_ret |].
  apply halts_bind; [repeat halts_step | intros sprintStart].
  apply halts_bind; [repeat halts_step |].
  intros [err |]; [apply halts_ret |].
  apply verifySeal_halts. rewrite HN. exact Hfuel.
Qed.
End EngineHalts.

(** X4.  On a chain that has a header for block 0, the loop of [snapshot]
    ends: for a block number [number] (a [uint64]) it goes down one block
    per iteration and stops at block 0 at the latest, so with more than
    [number] units of fuel the call returns or panics, and never stops
    for want of fuel. *)
Theorem snapshot_terminates {W : Type} (E : Collaborators W) (c : Bor)
    (fuel : nat) (number : Z) (hash : Hash) (parents : list Header) (w : W) :
  has_genesis E ->
  is_uint64 number ->
  (Z.to_nat number < fuel)%nat ->
  fst (snapshot E c fuel number hash parents w) <> OutOfFuel.
Proof.
  intros Hgenesis Hnumber Hfuel.
  apply (snapshot_halts E c Hgenesis); [apply Hnumber | exact Hfuel].
Qed.

(** X5.  On a chain that has a header for block 0, [verifyHeader] on a
    header of number [n] returns or panics when given [n] units of fuel
    or more: its standalone checks, the cascading checks and the seal
    check all end. *)
Theorem verifyHeader_terminates {W : Type} (E : Collaborators W) (c : Bor)
    (fuel : nat) (header : Header) (parents : list Header) (w : W) :
  has_genesis E ->
  (forall n, Number header = Some n ->
             (Z.to_nat (big_Uint64 n) <= fuel)%nat) ->
  fst (verifyHeader E c fuel header parents w) <> OutOfFuel.
Proof.
  intros Hgenesis Hfuel. revert w.
  change (halts (verifyHeader E c fuel header parents)).
  unfold verifyHeader.
  destruct (Number header) as [n |] eqn:HN; [| apply halts_ret].
  apply halts_bind; [apply halts_reads | intros now].
  destruct (_ >? _); [apply halts_ret |].
  destruct (validateHeaderExtraField _); [apply halts_ret |].
  destruct (Sprint (config c) =? 0); [apply halts_panic |].
  destruct (_ && _); [apply halts_ret |].
  destruct (_ && _); [apply halts_ret |].
  destruct (negb _); [apply halts_ret |].
  destruct (negb _); [apply halts_ret |].
  destruct (_ && _); [apply halts_ret |].
  destruct (misc_VerifyForkHashes E header); [apply halts_ret |].
  apply verifyCascadingFields_halts; [exact Hgenesis |].
  rewrite HN. exact Hfuel.
Qed.

(** ** The headers a snapshot is built from *)

Section Descending.
Context {W : Type} (E : Collaborators W) (c : Bor).
Hypothesis Hchain : lawful_chain E.

Lemma snapshotLoop_descending (fuel : nat) :
  forall number hash parents headers w w' snap hs,
    snapshotLoop E c fuel number hash parents headers w
    = (Returns (Ok (snap, hs)), w') ->
    exists gathered,
      hs = headers ++ gathered /\ descending E number hash gathered.
Proof.
  induction fuel as [| fuel IH];
    intros number hash parents headers w w' snap hs H; [discriminate |].
  cbn [snapshotLoop] in H.
  invert_bind H s w1 Hs.
  destruct s as [snap0 |].
  { apply ret_Returns in H as [[= _ <-] _].
    exists []. rewrite app_nil_r. split; [reflexivity | exact I]. }
  invert_bind H disk w2 Hdisk.
  destruct disk as [snap0 |].
  { apply ret_Returns in H as [[= _ <-] _].
    exists []. rewrite app_nil_r. split; [reflexivity | exact I]. }
  invert_bind H genesis w3 Hgenesis.
  destruct genesis as [[snap0 | err] |].
  { apply ret_Returns in H as [[= _ <-] _].
    exists []. rewrite app_nil_r. split; [reflexivity | exact I]. }
  { discriminate. }
  invert_bind H next w4 Hnext.
  destruct next as [[header parents'] | err]; [| discriminate].
  apply IH in H as (gathered & -> & Hdesc).
  exists (header :: gathered). rewrite <- app_assoc. split; [reflexivity |].
  cbn [descending].
  assert (Hheader : Header_Hash E header = hash
                    /\ exists n, Number header = Some n
                                 /\ big_Uint64 n = number).
  { destruct (len parents >? 0).
    - destruct (last parents) as [header0 |]; [| discriminate].
      destruct (Z.eqb_spec (Header_Hash E header0) hash) as [Hhash | Hhash];
        cbn [negb] in Hnext; [| discriminate].
      invert_bind Hnext n w5 Hn.
      apply Uint64_Returns in Hn as (m & HN & -> & ->).
      destruct (Z.eqb_spec (big_Uint64 m) number) as [Hnum | Hnum];
        cbn [negb] in Hnext; [| discriminate].
      apply ret_Returns in Hnext as [[= <- _] _].
      split; [exact Hhash |]. exists m. split; [exact HN | exact Hnum].
    - invert_bind Hnext found w5 Hfound.
      destruct found as [header0 |]; [| discriminate].
      apply ret_Returns in Hnext as [[= <- _] _].
      injection Hfound as Hfound _.
      apply Hchain in Hfound. exact Hfound. }
  destruct Hheader as [Hhash Hnum].
  split; [exact Hhash |]. split; [exact Hnum | exact Hdesc].
Qed.
End Descending.

(** X6.  On a chain whose [GetHeader] answers with headers of the hash
    and number asked for, a snapshot that [snapshot] returns for
    [(number, hash)] is made from an earlier snapshot (cached, stored or
    built at the genesis block) by applying the headers that the loop
    gathered, reversed: these are the headers of the blocks [number],
    [number - 1], ... down to the block above the earlier snapshot, each
    the parent of the one before, so [apply] gets a contiguous run of
    headers, oldest first, that ends at the block asked for. *)
Theorem snapshot_applies_contiguous_headers {W : Type} (E : Collaborators W)
    (c : Bor) (fuel : nat) (number : Z) (hash : Hash)
    (parents : list Header) (w w' : W) (s : Snapshot) :
  lawful_chain E ->
  snapshot E c fuel number hash parents w = (Returns (Ok s), w') ->
  exists snap hs w1,
    snapshotLoop E c fuel number hash parents [] w
    = (Returns (Ok (snap, hs)), w1)
    /\ descending E number hash hs
    /\ fst (Snapshot_apply E snap (reverse hs) w1) = Ok s.
Proof.
  intros Hchain. unfold snapshot. intros H.
  invert_bind H r w1 Hloop.
  destruct r as [[snap hs] | err]; [| discriminate].
  exists snap, hs, w1. split; [exact Hloop |].
  destruct (snapshotLoop_descending E c Hchain _ _ _ _ _ _ _ _ _ Hloop)
    as (gathered & -> & Hdesc).
  split; [exact Hdesc |].
  invert_bind H r w2 Happly.
  unfold calls in Happly. cbn [app] in *.
  destruct (Snapshot_apply E snap (reverse gathered) w1) as [r' w2'].
  injection Happly as -> ->. cbn [fst].
  destruct r as [s' |]; [| discriminate].
  invert_bind H u w3 Hadd.
  destruct (_ && _).
  - invert_bind H e w4 Hstore. destruct e; [discriminate |].
    invert_bind H u' w5 Hlog. apply ret_Returns in H as [[= ->] _].
    reflexivity.
  - apply ret_Returns in H as [[= ->] _]. reflexivity.
Qed.

(** ** What an accepted header satisfies *)

(** X7.  A header that [verifyHeader] accepts passed every standalone
    check: it has a number; its time is not beyond the clock reading plus
    3 seconds; its extra-data holds the vanity and the seal, with
    validator bytes in between that are absent on a block that does not
    end a sprint and a multiple of 40 bytes on one that does; its mix
    digest is zero and its uncle hash that of the empty list; it has a
    difficulty unless it is the genesis header; the fork-hash check
    passed; and the cascading checks accepted it, leaving the world the
    call leaves. *)
Theorem verifyHeader_accepted {W : Type} (E : Collaborators W) (c : Bor)
    (fuel : nat) (header : Header) (parents : list Header) (w w' : W) :
  verifyHeader E c fuel header parents w = (Returns None, w') ->
  exists n,
    Number header = Some n
    /\ Time header
       <= to_uint64 (to_int64 (Instant_Unix (time_Now E w)
                               + allowFutureBlockTimeSeconds))
    /\ extraVanity + extraSeal <= len (Extra header)
    /\ Sprint (config c) <> 0
    /\ (if to_uint64 (big_Uint64 n + 1) mod Sprint (config c) =? 0
        then (len (Extra header) - extraVanity - extraSeal)
               mod validatorHeaderBytesLength = 0
        else len (Extra header) = extraVanity + extraSeal)
    /\ MixDigest header = zeroHash
    /\ UncleHash header = uncleHash E
    /\ (big_Uint64 n <> 0 -> Difficulty header <> None)
    /\ misc_VerifyForkHashes E header = None
    /\ verifyCascadingFields E c fuel header parents w = (Returns None, w').
Proof.
  unfold verifyHeader.
  destruct (Number header) as [n |] eqn:HN; [| discriminate].
  cbv beta iota zeta delta [bind reads].
  destruct (Z.gtb_spec (Time header)
              (to_uint64 (to_int64 (Instant_Unix (time_Now E w)
                                    + allowFutureBlockTimeSeconds))))
    as [Hfuture | Htime]; [discriminate |].
  unfold validateHeaderExtraField.
  destruct (Z.ltb_spec (len (Extra header)) extraVanity); [discriminate |].
  destruct (Z.ltb_spec (len (Extra header)) (extraVanity + extraSeal))
    as [Hshort | Hlong]; [discriminate |].
  destruct (Z.eqb_spec (Sprint (config c)) 0) as [Hz | Hsprint];
    [discriminate |].
  assert (Hrem : Z.rem (len (Extra header) - extraVanity - extraSeal)
                       validatorHeaderBytesLength
                 = (len (Extra header) - extraVanity - extraSeal)
                     mod validatorHeaderBytesLength).
  { apply Z.rem_mod_nonneg; [lia | reflexivity]. }
  rewrite Hrem.
  assert (Hdifficulty :
            (big_Uint64 n >? 0) && isNil (Difficulty header) = false ->
            big_Uint64 n <> 0 -> Difficulty header <> None).
  { intros Hdiff Hnz Hnil. rewrite Hnil in Hdiff. cbn in Hdiff.
    pose proof (big_Uint64_nonneg n).
    destruct (Z.gtb_spec (big_Uint64 n) 0); [discriminate | lia]. }
  destruct (to_uint64 (big_Uint64 n + 1) mod Sprint (config c) =? 0)
    eqn:Hend; cbn [negb andb].
  - destruct (Z.eqb_spec ((len (Extra header) - extraVanity - extraSeal)
                            mod validatorHeaderBytesLength) 0)
      as [Hregion | Hregion]; cbn [negb]; [| discriminate].
    destruct (Z.eqb_spec (MixDigest header) zeroHash); cbn [negb];
      [| discriminate].
    destruct (Z.eqb_spec (UncleHash header) (uncleHash E)); cbn [negb];
      [| discriminate].
    destruct ((big_Uint64 n >? 0) && isNil (Difficulty header)) eqn:Hdiff;
      [discriminate |].
    destruct (misc_VerifyForkHashes E header); [discriminate |].
    intros Hrun. exists n. rewrite Hend.
    repeat split; try assumption; try lia. apply Hdifficulty. reflexivity.
  - destruct (Z.eqb_spec (len (Extra header) - extraVanity - extraSeal) 0)
      as [Hregion | Hregion]; cbn [negb]; [| discriminate].
    destruct (Z.eqb_spec (MixDigest header) zeroHash); cbn [negb];
      [| discriminate].
    destruct (Z.eqb_spec (UncleHash header) (uncleHash E)); cbn [negb];
      [| discriminate].
    destruct ((big_Uint64 n >? 0) && isNil (Difficulty header)) eqn:Hdiff;
      [discriminate |].
    destruct (misc_VerifyForkHashes E header); [discriminate |].
    intros Hrun. exists n. rewrite Hend.
    repeat split; try assumption; try lia. apply Hdifficulty. reflexivity.
Qed.

Lemma bytes_Equal_eq (a b : bytes) : bytes_Equal a b = true -> a = b.
Proof.
  revert b. induction a as [| x a IH]; intros [| y b]; cbn;
    try discriminate; [reflexivity |].
  intros H. apply andb_prop in H as [Hxy Hab].
  apply Byte.byte_dec_bl in Hxy. f_equal; [exact Hxy | apply IH; exact Hab].
Qed.

Lemma sameHeaderBytes_eq {W : Type} (E : Collaborators W)
    (newValidators headerVals : list Validator) :
  length newValidators = length headerVals ->
  sameHeaderBytes E newValidators headerVals = true ->
  map (HeaderBytes E) newValidators = map (HeaderBytes E) headerVals.
Proof.
  revert headerVals.
  induction newValidators as [| v vs IH]; intros [| h hs]; cbn;
    try discriminate; [reflexivity |].
  intros [= Hlen] H. apply andb_prop in H as [Hv Hvs].
  apply bytes_Equal_eq in Hv. f_equal; [exact Hv | apply IH; assumption].
Qed.

Lemma insertByAddress_length (v : Validator) (l : list Validator) :
  length (insertByAddress v l) = S (length l).
Proof.
  induction l as [| x l IH]; cbn; [reflexivity |].
  destruct (ValAddress v <? ValAddress x); cbn; [reflexivity |].
  rewrite IH. reflexivity.
Qed.

Lemma sortByAddress_length (l : list Validator) :
  length (sortByAddress l) = length l.
Proof.
  induction l as [| x l IH]; cbn; [reflexivity |].
  fold (sortByAddress l). rewrite insertByAddress_length, IH. reflexivity.
Qed.

(** [copy] into a slot of zeros that is as long as the source. *)
Lemma copyAt_slot (done src rest : bytes) :
  copyAt (done ++ replicate (length src) x00 ++ rest) (length done) src
  = done ++ src ++ rest.
Proof.
  unfold copyAt.
  rewrite take_app_length.
  rewrite !length_app, length_replicate.
  replace (length done + (length src + length rest) - length done)%nat
    with (length src + length rest)%nat by lia.
  rewrite take_ge by lia.
  rewrite drop_app_ge by lia.
  replace (length done + length src - length done)%nat
    with (length src) by lia.
  rewrite drop_app_length' by (symmetry; apply length_replicate).
  reflexivity.
Qed.

(** The copy loop of [verifyCascadingFields] writes the header forms of
    the validators one after the other. *)
Lemma fillValidatorsBytes_concat {W : Type} (E : Collaborators W) :
  header_bytes_40 E ->
  forall vals done i,
    length done = (i * Z.to_nat validatorHeaderBytesLength)%nat ->
    fillValidatorsBytes E
      (done ++ replicate (length vals * Z.to_nat validatorHeaderBytesLength) x00)
      i vals
    = done ++ concat (map (HeaderBytes E) vals).
Proof.
  intros H40 vals.
  induction vals as [| v vals IH]; intros done i Hdone; cbn.
  - reflexivity.
  - assert (Hv : length (HeaderBytes E v)
                 = Z.to_nat validatorHeaderBytesLength).
    { specialize (H40 v). unfold len in H40. lia. }
    rewrite <- Hdone, replicate_add, <- Hv, copyAt_slot.
    rewrite (app_assoc done), (app_assoc done). rewrite Hv. apply IH.
    rewrite length_app, Hdone, Hv. lia.
Qed.

(** What [verifyCascadingFields] did when it accepted a header. *)
Lemma verifyCascadingFields_inversion {W : Type} (E : Collaborators W)
    (c : Bor) (fuel : nat) (header : Header) (parents : list Header)
    (w w' : W) :
  verifyCascadingFields E c fuel header parents w = (Returns None, w') ->
  exists n,
    Number header = Some n
    /\ (big_Uint64 n = 0 -> w' = w)
    /\ (big_Uint64 n <> 0 ->
        exists parent m snap w1,
          parentOf E header (big_Uint64 n) parents w = Some parent
          /\ Number parent = Some m
          /\ big_Uint64 m = to_uint64 (big_Uint64 n - 1)
          /\ Header_Hash E parent = ParentHash header
          /\ to_uint64 (Time parent + Period (config c)) <= Time header
          /\ snapshot E c fuel (to_uint64 (big_Uint64 n - 1))
                      (ParentHash header) parents w
             = (Returns (Ok snap), w1)
          /\ Sprint (config c) <> 0
          /\ (to_uint64 (big_Uint64 n + 1) mod Sprint (config c) = 0 ->
              sprintEndChecked E c header (big_Uint64 n) w1)
          /\ (big_Uint64 n mod Sprint (config c) = 0 ->
              slice (Extra parent) extraVanity
                    (len (Extra parent) - extraSeal)
              = Returns
                  (fillValidatorsBytes E
                     (replicate
                        (length (Validators (snapValidatorSet snap))
                         * Z.to_nat validatorHeaderBytesLength) x00)
                     0 (sortByAddress (Validators (snapValidatorSet snap)))))
          /\ verifySeal E c fuel header parents w1 = (Returns None, w')).
Proof.
  unfold verifyCascadingFields, parentOf. intros H.
  invert_bind H number w0 Hnumber.
  apply Uint64_Returns in Hnumber as (n & HN & -> & ->).
  exists n. split; [exact HN |].
  destruct (Z.eqb_spec (big_Uint64 n) 0) as [Hz | Hnz].
  { apply ret_Returns in H as [_ <-]. split; [reflexivity | contradiction]. }
  split; [contradiction | intros _].
  invert_bind H parent w1 Hparent.
  assert (Hp : w1 = w
               /\ parent = if len parents >? 0 then last parents
                           else chain_GetHeader E (ParentHash header)
                                  (to_uint64 (big_Uint64 n - 1)) w).
  { destruct (len parents >? 0).
    - apply ret_Returns in Hparent as [<- <-]. split; reflexivity.
    - apply reads_Returns in Hparent as [-> ->]. split; reflexivity. }
  destruct Hp as [-> Hp]. clear Hparent.
  destruct parent as [parent |]; [| discriminate].
  invert_bind H parentNumber w1 Hm.
  apply Uint64_Returns in Hm as (m & Hm & -> & ->).
  destruct (Z.eqb_spec (big_Uint64 m) (to_uint64 (big_Uint64 n - 1)))
    as [Hlink | Hlink]; cbn [negb orb] in H; [| discriminate].
  destruct (Z.eqb_spec (Header_Hash E parent) (ParentHash header))
    as [Hhash | Hhash]; cbn [negb] in H; [| discriminate].
  destruct (Z.gtb_spec (to_uint64 (Time parent + Period (config c)))
              (Time header)) as [Hgt | Hle]; [discriminate |].
  invert_bind H r w1 Hsnap.
  destruct r as [snap | err]; [| discriminate].
  invert_bind H sprintEnd w2 Hend.
  apply lift_Returns in Hend as [Hend ->].
  apply isSprintStart_Returns in Hend as [Hsprint ->].
  invert_bind H err w2 Hcheck.
  destruct err as [err |]; [discriminate |].
  invert_bind H sprintStart w3 Hstart.
  apply lift_Returns in Hstart as [Hstart ->].
  apply isSprintStart_Returns in Hstart as [_ ->].
  invert_bind H err w3 Hcheck'.
  destruct err as [err |]; [discriminate |].
  assert (Hendcheck :
            w2 = w1
            /\ (to_uint64 (big_Uint64 n + 1) mod Sprint (config c) = 0 ->
                sprintEndChecked E c header (big_Uint64 n) w1)).
  { destruct (Z.eqb_spec (to_uint64 (big_Uint64 n + 1) mod Sprint (config c)) 0)
      as [Heq | Hne].
    - invert_bind Hcheck r w4 Hvals.
      destruct r as [newValidators | err]; [| discriminate].
      pose proof (GetCurrentValidatorsByBlockNrOrHash_world _ _ _ _ _ _ _ Hvals)
        as ->.
      invert_bind Hcheck region w4 Hregion.
      apply lift_Returns in Hregion as [Hregion ->].
      destruct (ParseValidators E region) as [headerVals | err] eqn:Hparse;
        [| discriminate].
      destruct (Z.eqb_spec (len (sortByAddress newValidators)) (len headerVals))
        as [Hlen | Hlen]; cbn [negb] in Hcheck; [| discriminate].
      destruct (sameHeaderBytes E (sortByAddress newValidators) headerVals)
        eqn:Hsame; cbn [negb] in Hcheck; [| discriminate].
      apply ret_Returns in Hcheck as [_ <-].
      split; [reflexivity | intros _].
      exists newValidators, region, headerVals.
      split; [exact Hvals |]. split; [exact Hregion |].
      split; [exact Hparse |].
      apply sameHeaderBytes_eq; [unfold len in Hlen; lia | exact Hsame].
    - apply ret_Returns in Hcheck as [_ <-].
      split; [reflexivity | contradiction]. }
  destruct Hendcheck as [-> Hendcheck].
  assert (Hstartcheck :
            w3 = w1
            /\ (big_Uint64 n mod Sprint (config c) = 0 ->
                slice (Extra parent) extraVanity
                      (len (Extra parent) - extraSeal)
                = Returns
                    (fillValidatorsBytes E
                       (replicate
                          (length (Validators (snapValidatorSet snap))
                           * Z.to_nat validatorHeaderBytesLength) x00)
                       0
                       (sortByAddress (Validators (snapValidatorSet snap)))))).
  { destruct (Z.eqb_spec (big_Uint64 n mod Sprint (config c)) 0)
      as [Heq | Hne].
    - invert_bind Hcheck' region w4 Hregion.
      apply lift_Returns in Hregion as [Hregion ->].
      match type of Hcheck' with
      | context [bytes_Equal ?a ?b] =>
        destruct (bytes_Equal a b) eqn:Hsame; cbn [negb] in Hcheck';
          [| discriminate]
      end.
      apply ret_Returns in Hcheck' as [_ <-].
      split; [reflexivity | intros _].
      apply bytes_Equal_eq in Hsame.
      rewrite Hregion, Hsame. reflexivity.
    - apply ret_Returns in Hcheck' as [_ <-].
      split; [reflexivity | contradiction]. }
  destruct Hstartcheck as [-> Hstartcheck].
  exists parent, m, snap, w1.
  rewrite <- Hp. repeat split; assumption.
Qed.

(** X8.  A header that the cascading checks accept is the genesis header,
    for which nothing is looked up, or it has a parent (the last header
    of the batch, or else the header the chain has for the parent hash
    and the number before) with the number before its own and the hash it
    names as parent, its time is no less than the time of the parent plus
    the period (in [uint64] arithmetic), the snapshot at the parent was
    there, and [verifySeal] accepted it in the world the snapshot left. *)
Theorem verifyCascadingFields_accepted {W : Type} (E : Collaborators W)
    (c : Bor) (fuel : nat) (header : Header) (parents : list Header)
    (w w' : W) :
  verifyCascadingFields E c fuel header parents w = (Returns None, w') ->
  exists n,
    Number header = Some n
    /\ (big_Uint64 n = 0 -> w' = w)
    /\ (big_Uint64 n <> 0 ->
        exists parent m snap w1,
          parentOf E header (big_Uint64 n) parents w = Some parent
          /\ Number parent = Some m
          /\ big_Uint64 m = big_Uint64 n - 1
          /\ Header_Hash E parent = ParentHash header
          /\ to_uint64 (Time parent + Period (config c)) <= Time header
          /\ snapshot E c fuel (to_uint64 (big_Uint64 n - 1))
                      (ParentHash header) parents w
             = (Returns (Ok snap), w1)
          /\ verifySeal E c fuel header parents w1 = (Returns None, w')).
Proof.
  intros H.
  destruct (verifyCascadingFields_inversion E c fuel header parents w w' H)
    as (n & HN & Hgenesis & Hrest).
  exists n. split; [exact HN |]. split; [exact Hgenesis |].
  intros Hnz.
  destruct (Hrest Hnz)
    as (parent & m & snap & w1 & Hp & Hm & Hlink & Hhash & Htime & Hsnap
        & _ & _ & _ & Hseal).
  exists parent, m, snap, w1.
  repeat split; try assumption.
  rewrite Hlink. apply to_uint64_small.
  pose proof (to_uint64_range (Z.abs n)) as Hrange.
  fold (big_Uint64 n) in Hrange. solve_uint64.
Qed.

(** X9.  The validator bytes of accepted headers, where the header form
    of a validator takes 40 bytes.  A sprint-end header (not the genesis
    header) is accepted only if its validator bytes parse into validators
    whose header forms are, one by one, those of the validators the
    contract returns for the next block, sorted by address.  The first
    header of a sprint is accepted only if the validator bytes of its
    parent are the header forms of the validators of the snapshot at the
    parent, sorted by address, one after the other. *)
Theorem verifyCascadingFields_validator_bytes {W : Type}
    (E : Collaborators W) (c : Bor) (fuel : nat) (header : Header)
    (parents : list Header) (w w' : W) (n : Z) :
  header_bytes_40 E ->
  Number header = Some n ->
  big_Uint64 n <> 0 ->
  verifyCascadingFields E c fuel header parents w = (Returns None, w') ->
  exists parent snap w1,
    parentOf E header (big_Uint64 n) parents w = Some parent
    /\ snapshot E c fuel (to_uint64 (big_Uint64 n - 1)) (ParentHash header)
                parents w
       = (Returns (Ok snap), w1)
    /\ (to_uint64 (big_Uint64 n + 1) mod Sprint (config c) = 0 ->
        sprintEndChecked E c header (big_Uint64 n) w1)
    /\ (big_Uint64 n mod Sprint (config c) = 0 ->
        slice (Extra parent) extraVanity (len (Extra parent) - extraSeal)
        = Returns
            (concat (map (HeaderBytes E)
                         (sortByAddress
                            (Validators (snapValidatorSet snap)))))).
Proof.
  intros H40 HN Hnz H.
  destruct (verifyCascadingFields_inversion E c fuel header parents w w' H)
    as (n' & HN' & _ & Hrest).
  rewrite HN in HN'. injection HN' as <-.
  destruct (Hrest Hnz)
    as (parent & m & snap & w1 & Hp & _ & _ & _ & _ & Hsnap & _ & Hend
        & Hstart & _).
  exists parent, snap, w1.
  split; [exact Hp |]. split; [exact Hsnap |]. split; [exact Hend |].
  intros Hfirst. rewrite (Hstart Hfirst). f_equal.
  rewrite <- (sortByAddress_length (Validators (snapValidatorSet snap))).
  apply (fillValidatorsBytes_concat E H40 _ [] 0). reflexivity.
Qed.

(** X10.  What the first cascading checks refuse.  The genesis header is
    accepted as it is, with nothing looked up.  For any other header:
    without a parent (none in the batch and none on the chain) the result
    is [ErrUnknownAncestor]; so it is when the parent has another number
    than the one before, or another hash than the header names, and in a
    batch the parent is the header before it in the batch, whatever the
    chain holds; with the right parent, a time below the time of the
    parent plus the period gives [ErrInvalidTimestamp].  The world is
    left as it was in each case. *)
Theorem verifyCascadingFields_rejects {W : Type} (E : Collaborators W)
    (c : Bor) (fuel : nat) (header : Header) (parents : list Header)
    (w : W) (n : Z) :
  Number header = Some n ->
  (big_Uint64 n = 0 ->
   verifyCascadingFields E c fuel header parents w = (Returns None, w))
  /\ (big_Uint64 n <> 0 ->
      parentOf E header (big_Uint64 n) parents w = None ->
      verifyCascadingFields E c fuel header parents w
      = (Returns (Some ErrUnknownAncestor), w))
  /\ (forall parent m,
        big_Uint64 n <> 0 ->
        parentOf E header (big_Uint64 n) parents w = Some parent ->
        Number parent = Some m ->
        (big_Uint64 m <> to_uint64 (big_Uint64 n - 1)
         \/ Header_Hash E parent <> ParentHash header ->
         verifyCascadingFields E c fuel header parents w
         = (Returns (Some ErrUnknownAncestor), w))
        /\ (big_Uint64 m = to_uint64 (big_Uint64 n - 1) ->
            Header_Hash E parent = ParentHash header ->
            Time header < to_uint64 (Time parent + Period (config c)) ->
            verifyCascadingFields E c fuel header parents w
            = (Returns (Some ErrInvalidTimestamp), w))).
Proof.
  intros HN. unfold verifyCascadingFields, parentOf, Uint64. rewrite HN.
  cbv beta iota delta [bind ret].
  split; [intros ->; reflexivity |].
  split.
  - intros Hnz Hnone.
    destruct (Z.eqb_spec (big_Uint64 n) 0); [contradiction |].
    destruct (len parents >? 0); cbv beta iota delta [reads];
      rewrite Hnone; reflexivity.
  - intros parent m Hnz Hsome Hm.
    destruct (Z.eqb_spec (big_Uint64 n) 0); [contradiction |].
    split.
    + intros Hbad.
      destruct (len parents >? 0); cbv beta iota delta [reads];
        rewrite Hsome; cbv beta iota; rewrite Hm;
        (destruct Hbad as [Hnumber | Hhash];
         [ destruct (Z.eqb_spec (big_Uint64 m)
                                (to_uint64 (big_Uint64 n - 1)));
           [contradiction | reflexivity]
         | destruct (Z.eqb_spec (Header_Hash E parent) (ParentHash header));
           [contradiction |];
           rewrite orb_true_r; reflexivity ]).
    + intros Hnumber Hhash Htime.
      destruct (len parents >? 0); cbv beta iota delta [reads];
        rewrite Hsome; cbv beta iota; rewrite Hm;
        rewrite Hnumber, Hhash, !Z.eqb_refl; cbn [negb orb];
        (destruct (Z.gtb_spec (to_uint64 (Time parent + Period (config c)))
                              (Time header)); [reflexivity | lia]).
Qed.

(** X11.  A header that [verifySeal] accepts is not the genesis header;
    the snapshot at its parent was there; the signer recovered from its
    seal is a validator of that snapshot and has a succession number in
    it; if the header has a parent (in the batch, or else on the chain),
    its time is no less than the time of the parent plus the producer
    delay of the signer's succession; and, unless the engine fakes
    difficulties, its difficulty is the one the snapshot gives the
    signer. *)
Theorem verifySeal_accepted {W : Type} (E : Collaborators W) (c : Bor)
    (fuel : nat) (header : Header) (parents : list Header) (w w' : W) :
  verifySeal E c fuel header parents w = (Returns None, w') ->
  exists n snap w1 signerAddress succession,
    Number header = Some n
    /\ big_Uint64 n <> 0
    /\ snapshot E c fuel (to_uint64 (big_Uint64 n - 1)) (ParentHash header)
                parents w
       = (Returns (Ok snap), w1)
    /\ ecrecover E header w1 = (Returns (Ok signerAddress), w')
    /\ HasAddress E (snapValidatorSet snap) signerAddress = true
    /\ GetSignerSuccessionNumber E snap signerAddress = Ok succession
    /\ (forall parent,
          parentOf E header (big_Uint64 n) parents w' = Some parent ->
          exists delay,
            CalcProducerDelay (big_Uint64 n) succession (config c)
            = Returns delay
            /\ to_uint64 (Time parent + delay) <= Time header)
    /\ (fakeDiff c = false ->
        exists d, Difficulty header = Some d
                  /\ big_Uint64 d = Snapshot_Difficulty E snap signerAddress).
Proof.
  unfold verifySeal, parentOf. intros H.
  invert_bind H number w0 Hnumber.
  apply Uint64_Returns in Hnumber as (n & HN & -> & ->).
  destruct (Z.eqb_spec (big_Uint64 n) 0) as [Hz | Hnz]; [discriminate |].
  invert_bind H r w1 Hsnap.
  destruct r as [snap | err]; [| discriminate].
  invert_bind H r w2 Hsigner.
  destruct r as [signerAddress | err]; [| discriminate].
  destruct (HasAddress E (snapValidatorSet snap) signerAddress) eqn:Hhas;
    cbn [negb] in H; [| discriminate].
  destruct (GetSignerSuccessionNumber E snap signerAddress)
    as [succession | err] eqn:Hsucc; [| discriminate].
  invert_bind H parent w3 Hparent.
  invert_bind H tooSoon w4 Hsoon.
  destruct tooSoon; [discriminate |].
  assert (Hw3 : w3 = w2 /\ parent
                = if len parents >? 0 then last parents
                  else chain_GetHeader E (ParentHash header)
                         (to_uint64 (big_Uint64 n - 1)) w2).
  { destruct (len parents >? 0).
    - apply ret_Returns in Hparent as [<- <-]. split; reflexivity.
    - pose proof (big_Uint64_nonneg n).
      destruct (Z.gtb_spec (big_Uint64 n) 0); [| lia].
      apply reads_Returns in Hparent as [-> ->]. split; reflexivity. }
  destruct Hw3 as [-> Hparent'].
  assert (Hw4 : w4 = w2
                /\ forall p, parent = Some p ->
                     exists delay,
                       CalcProducerDelay (big_Uint64 n) succession (config c)
                       = Returns delay
                       /\ to_uint64 (Time p + delay) <= Time header).
  { destruct parent as [p |].
    - invert_bind Hsoon delay w5 Hdelay.
      apply lift_Returns in Hdelay as [Hdelay ->].
      apply ret_Returns in Hsoon as [Hlt <-].
      split; [reflexivity |]. intros p' [= <-]. exists delay.
      split; [exact Hdelay |]. apply Z.ltb_ge. exact Hlt.
    - apply ret_Returns in Hsoon as [_ <-]. split; [reflexivity |].
      intros p [=]. }
  destruct Hw4 as [-> Hdelay].
  assert (Hdiff : w' = w2
                  /\ (fakeDiff c = false ->
                      exists d, Difficulty header = Some d
                                /\ big_Uint64 d
                                   = Snapshot_Difficulty E snap signerAddress)).
  { destruct (fakeDiff c); cbn [negb] in H.
    - apply ret_Returns in H as [_ <-]. split; [reflexivity | discriminate].
    - invert_bind H d w5 Hd.
      apply Uint64_Returns in Hd as (d' & Hd & -> & ->).
      destruct (Z.eqb_spec (big_Uint64 d')
                           (Snapshot_Difficulty E snap signerAddress))
        as [Heq | Hne]; cbn [negb] in H; [| discriminate].
      apply ret_Returns in H as [_ <-]. split; [reflexivity |].
      intros _. exists d'. split; assumption. }
  destruct Hdiff as [-> Hdiff].
  exists n, snap, w1, signerAddress, succession.
  split; [exact HN |]. split; [exact Hnz |]. split; [exact Hsnap |].
  split; [exact Hsigner |]. split; [exact Hhas |]. split; [exact Hsucc |].
  split; [| exact Hdiff].
  intros p Hp. apply Hdelay. rewrite Hparent'. exact Hp.
Qed.

(** X12.  What [verifySeal] refuses.  The genesis header gets
    [errUnknownBlock].  For another header whose parent snapshot is there
    and whose seal gives a signer: a signer outside the validators of the
    snapshot gets [UnauthorizedSignerError], with the number of the
    parent; a validator whose header comes before the time of the parent
    plus its producer delay gets [BlockTooSoonError]; a validator in
    time, on an engine that does not fake difficulties, makes the call
    panic when the header has no difficulty, and gets
    [WrongDifficultyError] when the difficulty is not the one the
    snapshot gives the signer. *)
Theorem verifySeal_rejects {W : Type} (E : Collaborators W) (c : Bor)
    (fuel : nat) (header : Header) (parents : list Header) (w w1 w2 : W)
    (n : Z) (snap : Snapshot) (signerAddress : Address) :
  Number header = Some n ->
  (big_Uint64 n = 0 ->
   verifySeal E c fuel header parents w = (Returns (Some errUnknownBlock), w))
  /\ (big_Uint64 n <> 0 ->
      snapshot E c fuel (to_uint64 (big_Uint64 n - 1)) (ParentHash header)
               parents w
      = (Returns (Ok snap), w1) ->
      ecrecover E header w1 = (Returns (Ok signerAddress), w2) ->
      (HasAddress E (snapValidatorSet snap) signerAddress = false ->
       verifySeal E c fuel header parents w
       = (Returns (Some (UnauthorizedSignerError
                           (to_uint64 (big_Uint64 n - 1)) signerAddress)),
          w2))
      /\ (forall succession parent delay,
            HasAddress E (snapValidatorSet snap) signerAddress = true ->
            GetSignerSuccessionNumber E snap signerAddress = Ok succession ->
            parentOf E header (big_Uint64 n) parents w2 = Some parent ->
            CalcProducerDelay (big_Uint64 n) succession (config c)
            = Returns delay ->
            (Time header < to_uint64 (Time parent + delay) ->
             verifySeal E c fuel header parents w
             = (Returns (Some (BlockTooSoonError (big_Uint64 n) succession)),
                w2))
            /\ (to_uint64 (Time parent + delay) <= Time header ->
                fakeDiff c = false ->
                (Difficulty header = None ->
                 verifySeal E c fuel header parents w
                 = (Panics nilDereference, w2))
                /\ (forall d,
                      Difficulty header = Some d ->
                      big_Uint64 d <> Snapshot_Difficulty E snap signerAddress ->
                      verifySeal E c fuel header parents w
                      = (Returns
                           (Some (WrongDifficultyError (big_Uint64 n)
                                    (Snapshot_Difficulty E snap signerAddress)
                                    (big_Uint64 d) signerAddress)),
                         w2))))).
Proof.
  intros HN. unfold verifySeal, parentOf, Uint64. rewrite HN.
  cbv beta iota delta [bind ret].
  split; [intros ->; reflexivity |].
  intros Hnz Hsnap Hsigner.
  destruct (Z.eqb_spec (big_Uint64 n) 0); [contradiction |].
  rewrite Hsnap, Hsigner.
  split; [intros ->; reflexivity |].
  intros succession parent delay -> -> Hparent Hdelay. cbn [negb].
  pose proof (big_Uint64_nonneg n) as Hpos.
  destruct (Z.gtb_spec (big_Uint64 n) 0); [| lia].
  assert (Hdelay' : lift (W := W)
                      (CalcProducerDelay (big_Uint64 n) succession (config c))
                    = fun w0 => (Returns delay, w0)).
  { rewrite Hdelay. reflexivity. }
  destruct (len parents >? 0); cbv beta iota delta [reads];
    rewrite Hparent; cbv beta iota; rewrite Hdelay';
    (split;
     [ intros Hsoon;
       destruct (Z.ltb_spec (Time header) (to_uint64 (Time parent + delay)));
       [reflexivity | lia]
     | intros Htime ->; cbn [negb];
       destruct (Z.ltb_spec (Time header) (to_uint64 (Time parent + delay)));
       [lia |];
       split;
       [ intros ->; reflexivity
       | intros d -> Hd;
         destruct (Z.eqb_spec (big_Uint64 d)
                              (Snapshot_Difficulty E snap signerAddress));
         [contradiction | reflexivity] ] ]).
Qed.

(** ** Batches of headers *)

Section Batch.
Context {W : Type} (E : Collaborators W) (c : Bor).

(** A run of the goroutine in which no [select] takes the abort case,
    against a run with the choices [abort]. *)
Lemma verifyHeadersLoop_prefix (fuel : nat) (headers : list Header)
    (abort : nat -> bool) (rest : list Header) :
  forall i w full w',
    verifyHeadersLoop E c fuel (fun _ => false) headers i rest w
    = (Returns full, w') ->
    length full = length rest
    /\ exists w'',
         verifyHeadersLoop E c fuel abort headers i rest w
         = (Returns (take (sentBeforeAbort abort i (length rest)) full), w'').
Proof.
  induction rest as [| header rest IH]; intros i w full w' H;
    cbn [verifyHeadersLoop] in *.
  - apply ret_Returns in H as [<- <-]. split; [reflexivity |].
    exists w. reflexivity.
  - invert_bind H err w1 Herr.
    invert_bind H sent w2 Hsent.
    apply ret_Returns in H as [<- <-].
    destruct (IH _ _ _ _ Hsent) as [Hlen [w'' Hrun]].
    split; [cbn; rewrite Hlen; reflexivity |].
    cbn [length sentBeforeAbort].
    unfold bind at 1. rewrite Herr.
    destruct (abort i).
    + exists w1. reflexivity.
    + exists w''. unfold bind. rewrite Hrun. reflexivity.
Qed.

(** The results of a run that is never aborted, one by one: [worlds]
    holds the world before each header and the world at the end. *)
Lemma verifyHeadersLoop_in_order (fuel : nat) (headers : list Header)
    (rest : list Header) :
  forall i w full w',
    verifyHeadersLoop E c fuel (fun _ => false) headers i rest w
    = (Returns full, w') ->
    exists worlds,
      length worlds = S (length rest)
      /\ worlds !! 0%nat = Some w
      /\ worlds !! length rest = Some w'
      /\ forall k header,
           rest !! k = Some header ->
           exists wk wk' err,
             worlds !! k = Some wk
             /\ worlds !! S k = Some wk'
             /\ full !! k = Some err
             /\ verifyHeader E c fuel header (take (i + k) headers) wk
                = (Returns err, wk').
Proof.
  induction rest as [| header rest IH]; intros i w full w' H;
    cbn [verifyHeadersLoop] in *.
  - apply ret_Returns in H as [<- <-]. exists [w].
    split; [reflexivity |]. split; [reflexivity |]. split; [reflexivity |].
    intros k header Hk. discriminate Hk.
  - invert_bind H err w1 Herr.
    invert_bind H sent w2 Hsent.
    apply ret_Returns in H as [<- <-].
    destruct (IH _ _ _ _ Hsent) as (worlds & Hlen & Hfirst & Hlast & Hall).
    exists (w :: worlds).
    split; [cbn [length]; rewrite Hlen; reflexivity |].
    split; [reflexivity |]. split; [exact Hlast |].
    intros [| k] h Hk.
    + injection Hk as <-. exists w, w1, err.
      split; [reflexivity |]. split; [exact Hfirst |].
      split; [reflexivity |].
      rewrite Nat.add_0_r. exact Herr.
    + destruct (Hall k h Hk) as (wk & wk' & e & H1 & H2 & H3 & H4).
      exists wk, wk', e.
      split; [exact H1 |]. split; [exact H2 |]. split; [exact H3 |].
      rewrite Nat.add_succ_r. exact H4.
Qed.
End Batch.

(** X13.  Take a batch on which the goroutine of [VerifyHeaders], never
    aborted, returns.  It sends one result per header, in the order of
    the headers: the result at position [i] is what [verifyHeader] gives
    for the header at position [i] with the headers before it in the
    batch as parents, run in the world the verification of the header
    before left (the first in the world of the call).  For a batch of
    one header the result is the one [VerifyHeader] gives.  Aborting
    changes no result that is sent: under any choices of the [select]
    statements, the results sent are those of the run that is never
    aborted, up to the first [select] that takes the abort case. *)
Theorem VerifyHeaders_results {W : Type} (E : Collaborators W) (c : Bor)
    (fuel : nat) (headers : list Header) (w w' : W)
    (full : list (option error)) :
  VerifyHeaders E c fuel (fun _ => false) headers w = (Returns full, w') ->
  length full = length headers
  /\ (exists worlds,
        length worlds = S (length headers)
        /\ worlds !! 0%nat = Some w
        /\ worlds !! length headers = Some w'
        /\ forall i header,
             headers !! i = Some header ->
             exists wi wi' err,
               worlds !! i = Some wi
               /\ worlds !! S i = Some wi'
               /\ full !! i = Some err
               /\ verifyHeader E c fuel header (take i headers) wi
                  = (Returns err, wi'))
  /\ (forall header,
        headers = [header] ->
        exists err,
          full = [err]
          /\ VerifyHeader E c fuel header w = (Returns err, w'))
  /\ (forall abort,
        exists w'',
          VerifyHeaders E c fuel abort headers w
          = (Returns (take (sentBeforeAbort abort 0 (length headers)) full),
             w'')).
Proof.
  unfold VerifyHeaders. intros H.
  destruct (verifyHeadersLoop_prefix E c fuel headers (fun _ => false)
              headers 0 w full w' H) as [Hlen _].
  split; [exact Hlen |]. split; [| split].
  - exact (verifyHeadersLoop_in_order E c fuel headers headers 0 w full w' H).
  - intros header ->. cbn [verifyHeadersLoop] in H.
    invert_bind H err w1 Herr.
    invert_bind H sent w2 Hsent.
    apply ret_Returns in Hsent as [<- <-].
    apply ret_Returns in H as [<- <-].
    exists err. split; [reflexivity | exact Herr].
  - intros abort.
    destruct (verifyHeadersLoop_prefix E c fuel headers abort
                headers 0 w full w' H) as [_ [w'' Hrun]].
    exists w''. exact Hrun.
Qed.

(** ** What [Prepare] leaves in the header *)

(** The vanity of a prepared header: the first 32 bytes of the given
    extra-data, padded with zeros. *)
Lemma vanity_padded (extra : bytes) :
  take (Z.to_nat extraVanity)
       (if len extra <? extraVanity
        then extra ++ replicate (Z.to_nat (extraVanity - len extra)) x00
        else extra)
  = take (Z.to_nat extraVanity)
         (extra ++ replicate (Z.to_nat extraVanity) x00)
  /\ length (take (Z.to_nat extraVanity)
                  (extra ++ replicate (Z.to_nat extraVanity) x00))
     = Z.to_nat extraVanity.
Proof.
  unfold len. split.
  - destruct (Z.ltb_spec (Z.of_nat (length extra)) extraVanity) as [Hlt | Hge].
    + rewrite take_ge by (rewrite length_app, length_replicate; lia).
      rewrite take_app_ge by lia.
      rewrite take_replicate. f_equal. f_equal. lia.
    + rewrite take_app_le by lia. reflexivity.
  - rewrite length_take, length_app, length_replicate. lia.
Qed.

(** What a successful [Prepare] did. *)
Lemma Prepare_inversion {W : Type} (E : Collaborators W) (c : Bor)
    (fuel : nat) (header header' : Header) (w w' : W) :
  Prepare E c fuel header w = (Returns (header', None), w') ->
  exists n snap validatorBytes parent succession delay,
    Number header = Some n
    /\ snapshot E c fuel (to_uint64 (big_Uint64 n - 1)) (ParentHash header)
                [] w
       = (Returns (Ok snap), w')
    /\ Extra header'
       = take (Z.to_nat extraVanity)
              (Extra header ++ replicate (Z.to_nat extraVanity) x00)
         ++ validatorBytes ++ replicate (Z.to_nat extraSeal) x00
    /\ (to_uint64 (big_Uint64 n + 1) mod Sprint (config c) <> 0 ->
        validatorBytes = [])
    /\ (to_uint64 (big_Uint64 n + 1) mod Sprint (config c) = 0 ->
        exists newValidators,
          GetCurrentValidators E c (ParentHash header)
            (to_uint64 (big_Uint64 n + 1)) w'
          = (Returns (Ok newValidators), w')
          /\ validatorBytes
             = concat (map (HeaderBytes E) (sortByAddress newValidators)))
    /\ Coinbase header' = zeroAddress
    /\ Nonce header' = 0
    /\ MixDigest header' = zeroHash
    /\ Difficulty header' = Some (Snapshot_Difficulty E snap (signer c))
    /\ Number header' = Number header
    /\ ParentHash header' = ParentHash header
    /\ Root header' = Root header
    /\ UncleHash header' = UncleHash header
    /\ validateHeaderExtraField (Extra header') = None
    /\ chain_GetHeader E (ParentHash header) (to_uint64 (big_Uint64 n - 1)) w'
       = Some parent
    /\ (if negb (signer c =? zeroAddress)
        then GetSignerSuccessionNumber E snap (signer c)
        else Ok 0) = Ok succession
    /\ CalcProducerDelay (big_Uint64 n) succession (config c) = Returns delay
    /\ Time header'
       = Z.max (to_uint64 (Time parent + delay))
               (to_uint64 (Instant_Unix (time_Now E w'))).
Proof.
  unfold Prepare, Uint64.
  cbn [Number ParentHash withNonce withCoinbase].
  destruct (Number header) as [n |] eqn:HN; [| discriminate].
  cbv beta iota zeta delta [bind ret reads lift].
  intros H.
  destruct (snapshot E c fuel (to_uint64 (big_Uint64 n - 1))
                     (ParentHash header) [] w)
    as [[[snap | e] | p |] w1] eqn:Hsnap; try discriminate.
  destruct (Sprint (config c) =? 0); [discriminate |].
  header_fields_in H.
  destruct (vanity_padded (Extra header)) as [Hvanity Hlen].
  assert (Hextra : forall validatorBytes,
            validateHeaderExtraField
              (take (Z.to_nat extraVanity)
                    (Extra header ++ replicate (Z.to_nat extraVanity) x00)
               ++ validatorBytes ++ replicate (Z.to_nat extraSeal) x00)
            = None).
  { intros validatorBytes. apply validateHeaderExtraField_ok.
    unfold len. rewrite !length_app, Hlen, length_replicate.
    unfold extraVanity, extraSeal. lia. }
  exists n, snap.
  destruct (len (Extra header) <? extraVanity); header_fields_in H;
    (destruct (to_uint64 (big_Uint64 n + 1) mod Sprint (config c) =? 0)
       eqn:Hend;
     [ apply Z.eqb_eq in Hend;
       destruct (GetCurrentValidators E c (ParentHash header)
                   (to_uint64 (big_Uint64 n + 1)) w1)
         as [[[valz | e] | p |] w2] eqn:Hvalz;
       cbv beta iota in H; try discriminate;
       pose proof (GetCurrentValidators_world _ _ _ _ _ _ _ Hvalz) as ->;
       exists (concat (map (HeaderBytes E) (sortByAddress valz)))
     | apply Z.eqb_neq in Hend; exists [] ]);
    cbv beta iota in H; header_fields_in H;
    (destruct (chain_GetHeader E (ParentHash header)
                 (to_uint64 (big_Uint64 n - 1)) w1)
       as [parent |] eqn:Hparent; [| discriminate]);
    exists parent;
    (destruct (if negb (signer c =? zeroAddress)
               then GetSignerSuccessionNumber E snap (signer c)
               else Ok 0) as [succession | err] eqn:Hsucc;
     [| discriminate]);
    exists succession;
    (destruct (CalcProducerDelay (big_Uint64 n) succession (config c))
       as [delay | |] eqn:Hdelay; try discriminate);
    exists delay;
    (match type of H with
     | context [?a <? ?b] => destruct (Z.ltb_spec a b)
     end);
    injection H as <- <-;
    cbn [withTime withMixDigest withExtra withDifficulty withNonce
         withCoinbase Extra Coinbase Nonce MixDigest Difficulty Number
         ParentHash Root UncleHash Time];
    rewrite ?Hvanity, <- ?app_assoc, ?Hextra;
    repeat split; try reflexivity; try contradiction; auto;
    try apply (Hextra []); try lia;
    intros _; exists valz; (split; [exact Hvalz | reflexivity]).
Qed.

(** X14.  A header that [Prepare] returns with no error has a zero
    coinbase, nonce and mix digest, the difficulty that the snapshot at
    the parent gives the signer of the engine, and the number, parent
    hash, root and uncle hash it came with.  Its extra-data is the first
    32 bytes of the extra-data it came with (padded with zeros), then the
    validator bytes, then 65 zero bytes for the seal: no validator bytes
    on a block that does not end a sprint, and on one that does the
    header forms of the validators of the contract for the next block,
    sorted by address.  So the extra-data passes
    [validateHeaderExtraField]. *)
Theorem Prepare_header_layout {W : Type} (E : Collaborators W) (c : Bor)
    (fuel : nat) (header header' : Header) (w w' : W) :
  Prepare E c fuel header w = (Returns (header', None), w') ->
  exists n snap validatorBytes,
    Number header = Some n
    /\ snapshot E c fuel (to_uint64 (big_Uint64 n - 1)) (ParentHash header)
                [] w
       = (Returns (Ok snap), w')
    /\ Extra header'
       = take (Z.to_nat extraVanity)
              (Extra header ++ replicate (Z.to_nat extraVanity) x00)
         ++ validatorBytes ++ replicate (Z.to_nat extraSeal) x00
    /\ (to_uint64 (big_Uint64 n + 1) mod Sprint (config c) <> 0 ->
        validatorBytes = [])
    /\ (to_uint64 (big_Uint64 n + 1) mod Sprint (config c) = 0 ->
        exists newValidators,
          GetCurrentValidators E c (ParentHash header)
            (to_uint64 (big_Uint64 n + 1)) w'
          = (Returns (Ok newValidators), w')
          /\ validatorBytes
             = concat (map (HeaderBytes E) (sortByAddress newValidators)))
    /\ Coinbase header' = zeroAddress
    /\ Nonce header' = 0
    /\ MixDigest header' = zeroHash
    /\ Difficulty header' = Some (Snapshot_Difficulty E snap (signer c))
    /\ Number header' = Number header
    /\ ParentHash header' = ParentHash header
    /\ Root header' = Root header
    /\ UncleHash header' = UncleHash header
    /\ validateHeaderExtraField (Extra header') = None.
Proof.
  intros H.
  destruct (Prepare_inversion E c fuel header header' w w' H)
    as (n & snap & validatorBytes & _ & _ & _ & H1 & H2 & H3 & H4 & H5 & H6
        & H7 & H8 & H9 & H10 & H11 & H12 & H13 & H14 & _).
  exists n, snap, validatorBytes. repeat split; assumption.
Qed.

(** X15.  The difficulty [Prepare] writes is the one [CalcDifficulty]
    gives for the parent: when [Prepare] succeeds on a header and
    [parent] has the number before and the hash the header names,
    [CalcDifficulty] on [parent], run in the same world, returns the
    difficulty of the prepared header and leaves the same world. *)
Theorem Prepare_difficulty_is_CalcDifficulty {W : Type} (E : Collaborators W)
    (c : Bor) (fuel : nat) (header header' parent : Header) (w w' : W)
    (n m : Z) :
  Prepare E c fuel header w = (Returns (header', None), w') ->
  Number header = Some n ->
  Number parent = Some m ->
  big_Uint64 m = to_uint64 (big_Uint64 n - 1) ->
  Header_Hash E parent = ParentHash header ->
  CalcDifficulty E c fuel parent w = (Returns (Difficulty header'), w').
Proof.
  intros Hprepare HN Hm Hnumber Hhash.
  destruct (Prepare_inversion E c fuel header header' w w' Hprepare)
    as (n' & snap & _ & _ & _ & _ & HN' & Hsnap & _ & _ & _ & _ & _ & _
        & Hdiff & _).
  rewrite HN in HN'. injection HN' as <-.
  unfold CalcDifficulty, Uint64. rewrite Hm.
  cbv beta iota delta [bind ret]. rewrite Hnumber, Hhash, Hsnap, Hdiff.
  reflexivity.
Qed.


(** ** What [Seal] seals *)

(** [copy(dst[off:], src)] keeps the length of [dst] and its bytes before
    [off], and fills the rest from [src] when [src] has the bytes. *)
Lemma copyAt_length (dst src : bytes) (off : nat) :
  (off <= length dst)%nat -> length (copyAt dst off src) = length dst.
Proof.
  intros H. unfold copyAt.
  rewrite !length_app, !length_take, length_drop. lia.
Qed.

Lemma copyAt_before (dst src : bytes) (off : nat) :
  (off <= length dst)%nat -> take off (copyAt dst off src) = take off dst.
Proof.
  intros H. unfold copyAt.
  rewrite take_app_le by (rewrite length_take; lia).
  rewrite take_take. f_equal. lia.
Qed.

Lemma copyAt_after (dst src : bytes) (off : nat) :
  (off <= length dst)%nat -> (length dst - off <= length src)%nat ->
  drop off (copyAt dst off src) = take (length dst - off) src.
Proof.
  intros H Hsrc. unfold copyAt.
  rewrite drop_app_length' by (rewrite length_take; lia).
  rewrite (drop_ge dst) by lia. apply app_nil_r.
Qed.

(** X17.  When [Seal] returns nil, the block is not the genesis block,
    and either sealing was paused (a period of 0 and no transactions: one
    log line and nothing else), or all of this holds: the snapshot at the
    parent was there, the signer of the engine is one of its validators
    with a succession number, the extra-data has room for the seal, the
    signing function signed the header, and exactly one goroutine was
    started, after one log line.  The block of that goroutine has the
    transactions of the given block and its header with the extra-data
    alone changed: the length and all bytes before the last 65 are kept,
    and the last 65 bytes are the first 65 of the signature. *)
Theorem Seal_sealed {W : Type} (E : Collaborators W) (c : Bor)
    (fuel : nat) (block : Block) (w w' : W) :
  Seal E c fuel block w = (Returns None, w') ->
  let header := blockHeader block in
  exists n,
    Number header = Some n
    /\ big_Uint64 n <> 0
    /\ ((Period (config c) = 0 /\ Transactions block = []
         /\ w' = log_emit E pausedLog w)
        \/ exists snap w1 successionNumber sign sighash task,
             snapshot E c fuel (to_uint64 (big_Uint64 n - 1))
                      (ParentHash header) [] w
             = (Returns (Ok snap), w1)
             /\ HasAddress E (snapValidatorSet snap) (signer c) = true
             /\ GetSignerSuccessionNumber E snap (signer c)
                = Ok successionNumber
             /\ extraSeal <= len (Extra header)
             /\ signFn c = Some sign
             /\ sign (signer c) (rlp_sigHeader E header) = Ok sighash
             /\ w' = go_spawn E task (log_emit E waitingLog w1)
             /\ sealNumber task = big_Uint64 n
             /\ Transactions (sealedBlock task) = Transactions block
             /\ blockHeader (sealedBlock task)
                = withExtra header (Extra (blockHeader (sealedBlock task)))
             /\ length (Extra (blockHeader (sealedBlock task)))
                = length (Extra header)
             /\ take (length (Extra header) - Z.to_nat extraSeal)
                     (Extra (blockHeader (sealedBlock task)))
                = take (length (Extra header) - Z.to_nat extraSeal)
                       (Extra header)
             /\ (extraSeal <= len sighash ->
                 drop (length (Extra header) - Z.to_nat extraSeal)
                      (Extra (blockHeader (sealedBlock task)))
                 = take (Z.to_nat extraSeal) sighash)).
Proof.
  intros H header. unfold Seal in H. fold header in H.
  invert_bind H number w0 Hnumber.
  apply Uint64_Returns in Hnumber as (n & HN & -> & ->).
  exists n. split; [exact HN |].
  destruct (Z.eqb_spec (big_Uint64 n) 0) as [Hz | Hnz]; [discriminate |].
  split; [exact Hnz |].
  destruct ((Period (config c) =? 0) && (len (Transactions block) =? 0))
    eqn:Hpaused.
  { left. apply andb_prop in Hpaused as [HP HT].
    apply Z.eqb_eq in HP. apply Z.eqb_eq in HT.
    invert_bind H u w1 Hlog. apply ret_Returns in H as [_ <-].
    injection Hlog as _ <-.
    split; [exact HP |]. split; [| reflexivity].
    destruct (Transactions block); [reflexivity | discriminate HT]. }
  right.
  invert_bind H r w1 Hsnap.
  destruct r as [snap | err]; [| discriminate].
  destruct (HasAddress E (snapValidatorSet snap) (signer c)) eqn:Hhas;
    cbn [negb] in H; [| discriminate].
  destruct (GetSignerSuccessionNumber E snap (signer c))
    as [successionNumber | err] eqn:Hsucc; [| discriminate].
  invert_bind H now w2 Hnow.
  apply reads_Returns in Hnow as [-> ->].
  invert_bind H rlp w2 Hrlp.
  apply lift_Returns in Hrlp as [Hrlp ->].
  unfold BorRLP in Hrlp. fold header in Hrlp.
  destruct (Z.ltb_spec (len (Extra header)) 65) as [Hshort | Hlong];
    [discriminate |].
  injection Hrlp as <-.
  destruct (signFn c) as [sign |] eqn:Hsign; [| discriminate].
  fold header in H.
  destruct (sign (signer c) (rlp_sigHeader E header)) as [sighash | err]
    eqn:Hsig; [| discriminate].
  invert_bind H u w2 Hlog. injection Hlog as _ <-.
  invert_bind H u' w3 Hspawn. injection Hspawn as _ <-.
  apply ret_Returns in H as [_ <-].
  unfold len in Hlong.
  assert (Hoff : (length (Extra header) - Z.to_nat extraSeal
                  <= length (Extra header))%nat) by lia.
  eexists snap, w1, successionNumber, sign, sighash, _.
  split; [exact Hsnap |]. split; [exact Hhas |]. split; [exact Hsucc |].
  split; [unfold extraSeal, len; lia |].
  split; [reflexivity |]. split; [exact Hsig |].
  split; [reflexivity |].
  cbn [sealNumber sealedBlock blockHeader Transactions withExtra Extra].
  split; [reflexivity |]. split; [reflexivity |]. split; [reflexivity |].
  split; [apply copyAt_length; exact Hoff |].
  split; [apply copyAt_before; exact Hoff |].
  intros Hsighash. rewrite copyAt_after.
  - f_equal. unfold extraSeal. lia.
  - exact Hoff.
  - unfold len, extraSeal in *. lia.
Qed.

(** X18.  What [Seal] refuses, for a block that is not the genesis block
    and does not pause sealing, once the snapshot at the parent is there.
    A signer outside the validators of the snapshot gets
    [UnauthorizedSignerError] with the number of the parent.  For a
    validator with a succession number: an extra-data shorter than the
    seal makes the call panic (the slice of [encodeSigHeader]); an engine
    that was given no signing function panics on the nil function; and an
    error of the signing function is returned.  In each case no goroutine
    is started: the world is the one the snapshot left. *)
Theorem Seal_refusals {W : Type} (E : Collaborators W) (c : Bor)
    (fuel : nat) (block : Block) (w w1 : W) (n : Z) (snap : Snapshot) :
  let header := blockHeader block in
  Number header = Some n ->
  big_Uint64 n <> 0 ->
  Period (config c) <> 0 \/ Transactions block <> [] ->
  snapshot E c fuel (to_uint64 (big_Uint64 n - 1)) (ParentHash header) [] w
  = (Returns (Ok snap), w1) ->
  (HasAddress E (snapValidatorSet snap) (signer c) = false ->
   Seal E c fuel block w
   = (Returns (Some (UnauthorizedSignerError (to_uint64 (big_Uint64 n - 1))
                                             (signer c))), w1))
  /\ (forall successionNumber,
        HasAddress E (snapValidatorSet snap) (signer c) = true ->
        GetSignerSuccessionNumber E snap (signer c) = Ok successionNumber ->
        (len (Extra header) < extraSeal ->
         Seal E c fuel block w = (Panics sliceOutOfRange, w1))
        /\ (extraSeal <= len (Extra header) -> signFn c = None ->
            Seal E c fuel block w = (Panics nilDereference, w1))
        /\ (forall sign err,
              extraSeal <= len (Extra header) -> signFn c = Some sign ->
              sign (signer c) (rlp_sigHeader E header) = Err err ->
              Seal E c fuel block w = (Returns (Some err), w1))).
Proof.
  intros header HN Hnz Hbusy Hsnap.
  assert (Hpaused : (Period (config c) =? 0)
                    && (len (Transactions block) =? 0) = false).
  { apply andb_false_iff. destruct Hbusy as [HP | HT].
    - left. apply Z.eqb_neq. exact HP.
    - right. apply Z.eqb_neq. destruct (Transactions block);
        [contradiction | unfold len; cbn; lia]. }
  unfold Seal, Uint64. fold header. rewrite HN.
  cbv beta iota delta [bind ret].
  destruct (Z.eqb_spec (big_Uint64 n) 0) as [Hz | _]; [contradiction |].
  rewrite Hpaused, Hsnap.
  split.
  - intros ->. reflexivity.
  - intros successionNumber -> ->. cbn [negb].
    cbv beta iota delta [reads lift BorRLP]. fold header.
    unfold extraSeal.
    split; [| split].
    + intros Hshort.
      destruct (Z.ltb_spec (len (Extra header)) 65); [reflexivity | lia].
    + intros Hlong ->.
      destruct (Z.ltb_spec (len (Extra header)) 65); [lia | reflexivity].
    + intros sign err Hlong -> Hsig.
      destruct (Z.ltb_spec (len (Extra header)) 65); [lia |].
      rewrite Hsig. reflexivity.
Qed.

(** ** [Finalize] and [FinalizeAndAssemble] *)

(** X19.  [Finalize] and [FinalizeAndAssemble] do the same to the header
    and to the world, whatever happens: the header [Finalize] leaves and
    its world are those of [FinalizeAndAssemble] on the same input, in a
    normal return, on an error and in a panic alike.  When
    [FinalizeAndAssemble] returns a block, it is made of that header and
    the given transactions, and the header is the given one with the
    state root and the uncle hash of the empty list set, and nothing
    else changed. *)
Theorem Finalize_as_FinalizeAndAssemble {W : Type} (E : Collaborators W)
    (c : Bor) (fuel : nat) (header : Header) (txs : list Z) (w : W) :
  let run := FinalizeAndAssemble E c fuel header txs w in
  Finalize E c fuel header w = (mapOutcome fst (fst run), snd run)
  /\ (forall header' block w',
        run = (Returns (header', Ok block), w') ->
        block = {| blockHeader := header'; Transactions := txs |}
        /\ header' = withUncleHash (withRoot header (Root header'))
                                   (uncleHash E)).
Proof.
  unfold Finalize, FinalizeAndAssemble.
  cbv beta iota zeta delta [bind ret log writes calls panic].
  repeat
    first
      [ solve [ cbn [fst snd mapOutcome];
                split;
                [ reflexivity
                | first [ discriminate
                        | intros header' block w' [= <- <- <-];
                          split; reflexivity ] ] ]
      | match goal with
        | |- context [Uint64 ?x ?w] =>
          destruct (Uint64 x w) as [[headerNumber | p |] w0]
        | |- context [Sprint (config c) =? 0] =>
          destruct (Sprint (config c) =? 0)
        | |- context [?n mod Sprint (config c) =? 0] =>
          destruct (n mod Sprint (config c) =? 0)
        | |- context [checkAndCommitSpan E c fuel header ?w] =>
          destruct (checkAndCommitSpan E c fuel header w)
            as [[[err |] | p |] w1]
        | |- context [negb (WithoutHeimdall c)] =>
          destruct (negb (WithoutHeimdall c))
        | |- context [CommitStates E c header ?w] =>
          destruct (CommitStates E c header w)
            as [[[stateSyncData | err] | p |] w2]
        | |- context [changeContractCodeIfNeeded E c ?n ?w] =>
          destruct (changeContractCodeIfNeeded E c n w)
            as [[[err |] | p |] w3]
        | |- context [state_IntermediateRoot E ?b ?w] =>
          destruct (state_IntermediateRoot E b w) as [root w4]
        | |- context [chain_isBlockChain E] =>
          destruct (chain_isBlockChain E)
        end ].
Qed.

(** ** Committing a span *)

(** X20.  When the contract returns the current span, [checkAndCommitSpan]
    fetches and commits the next span (the id of the current one plus 1)
    exactly when the current span has the end block 0, or the header is
    the first block of the last sprint of the span; in every other case
    it returns nil and leaves the world as it was. *)
Theorem checkAndCommitSpan_when {W : Type} (E : Collaborators W) (c : Bor)
    (fuel : nat) (header : Header) (w w1 : W) (n : Z) (span : Span) :
  Number header = Some n ->
  GetCurrentSpan E c (ParentHash header) w = (Returns (Ok span), w1) ->
  is_uint64 (Sprint (config c)) ->
  Sprint (config c) <> 0 ->
  (EndBlock span = 0
   \/ (Sprint (config c) < EndBlock span
       /\ big_Uint64 n = EndBlock span - Sprint (config c) + 1) ->
   checkAndCommitSpan E c fuel header w
   = fetchAndCommitSpan E c fuel (to_uint64 (ID span + 1)) header w)
  /\ (EndBlock span <> 0 ->
      EndBlock span <= Sprint (config c)
      \/ big_Uint64 n <> EndBlock span - Sprint (config c) + 1 ->
      checkAndCommitSpan E c fuel header w = (Returns None, w)).
Proof.
  intros HN Hspan HS HS0.
  destruct (GetCurrentSpan_Returns _ _ _ _ _ _ Hspan) as (-> & _ & _ & HE).
  unfold checkAndCommitSpan, Uint64. rewrite HN.
  cbv beta iota delta [bind ret]. rewrite Hspan.
  unfold needToCommitSpan.
  assert (Hsub : Sprint (config c) < EndBlock span ->
                 to_uint64 (to_uint64 (EndBlock span - Sprint (config c)) + 1)
                 = EndBlock span - Sprint (config c) + 1).
  { intros Hlt.
    rewrite (to_uint64_small (EndBlock span - Sprint (config c)))
      by solve_uint64.
    apply to_uint64_small. solve_uint64. }
  split.
  - intros [Hz | [Hlt Heq]].
    + rewrite Hz. reflexivity.
    + destruct (EndBlock span =? 0); [reflexivity |].
      destruct (Z.gtb_spec (EndBlock span) (Sprint (config c))); [| lia].
      rewrite (Hsub Hlt), Heq, Z.eqb_refl. reflexivity.
  - intros Hnz Hother.
    destruct (Z.eqb_spec (EndBlock span) 0); [contradiction |].
    destruct (Z.gtb_spec (EndBlock span) (Sprint (config c))) as [Hlt | Hle];
      [| reflexivity].
    rewrite (Hsub Hlt). cbn [andb].
    destruct (Z.eqb_spec (EndBlock span - Sprint (config c) + 1)
                         (big_Uint64 n)); [| reflexivity].
    destruct Hother; lia.
Qed.

(** X21.  [fetchAndCommitSpan] with Heimdall, once the span is fetched.
    A span of another chain id is refused with an error, and nothing is
    run in the EVM.  A span of the chain id of the engine whose
    validators and producers are encoded and packed is committed by a
    system message to the validator contract, after one log line: the
    call returns nil whether the EVM call fails or not, and the state is
    finalised after a failed call. *)
Theorem fetchAndCommitSpan_outcomes {W : Type} (E : Collaborators W)
    (c : Bor) (fuel : nat) (newSpanID : Z) (header : Header) (w w1 : W)
    (heimdallSpan : HeimdallSpan) :
  WithoutHeimdall c = false ->
  Heimdall_FetchSpan E newSpanID w = (Ok heimdallSpan, w1) ->
  (hsChainID heimdallSpan <> chainID c ->
   exists text,
     fetchAndCommitSpan E c fuel newSpanID header w
     = (Returns (Some (errorsNew text)), w1))
  /\ (forall validatorBytes producerBytes data,
        hsChainID heimdallSpan = chainID c ->
        rlp_MinimalVals E (Validators (hsValidatorSet heimdallSpan))
        = Ok validatorBytes ->
        rlp_MinimalVals E (SelectedProducers heimdallSpan)
        = Ok producerBytes ->
        Pack_commitSpan E (ID (hsSpan heimdallSpan))
          (StartBlock (hsSpan heimdallSpan))
          (EndBlock (hsSpan heimdallSpan)) validatorBytes producerBytes
        = Ok data ->
        let msg :=
          getSystemMessage (HexToAddress E (ValidatorContract (config c)))
                           data in
        let called := vmenv_Call E msg header (log_emit E committingLog w1) in
        fetchAndCommitSpan E c fuel newSpanID header w
        = (Returns None,
           if isNil (fst called) then snd called
           else state_Finalise E true (snd called))).
Proof.
  intros Hheimdall Hfetch. unfold fetchAndCommitSpan.
  rewrite Hheimdall. cbv beta iota delta [bind calls]. rewrite Hfetch.
  split.
  - intros Hne. eexists.
    destruct (String.eqb_spec (hsChainID heimdallSpan) (chainID c));
      [contradiction |].
    reflexivity.
  - intros validatorBytes producerBytes data Hchain Hvals Hprods Hpack.
    destruct (String.eqb_spec (hsChainID heimdallSpan) (chainID c));
      [| contradiction].
    cbn [negb]. rewrite Hvals, Hprods.
    cbv beta iota delta [log writes bind ret]. rewrite Hpack.
    unfold applyMessage, committingLog.
    cbv beta iota zeta delta [bind calls writes ret].
    destruct (vmenv_Call E _ header _) as [[err |] w2]; reflexivity.
Qed.

(** X22.  The span [getNextHeimdallSpanForTest] makes up, when it returns
    one: it has the id asked for; it starts at block 256 when the current
    span of the contract ends at 0, and right after the current span
    otherwise; when that does not overflow, it is 100 sprints long; its
    validator set is that of the snapshot at the parent and its producers
    are all the validators of that set; and its chain id is the one of
    the engine, so [fetchAndCommitSpan] does not refuse it for its chain
    id. *)
Theorem getNextHeimdallSpanForTest_span {W : Type} (E : Collaborators W)
    (c : Bor) (fuel : nat) (newSpanID : Z) (header : Header) (w w' : W)
    (heimdallSpan : HeimdallSpan) :
  getNextHeimdallSpanForTest E c fuel newSpanID header w
  = (Returns (Ok heimdallSpan), w') ->
  exists n span snap,
    Number header = Some n
    /\ GetCurrentSpan E c (ParentHash header) w = (Returns (Ok span), w)
    /\ snapshot E c fuel (to_uint64 (big_Uint64 n - 1)) (ParentHash header)
                [] w
       = (Returns (Ok snap), w')
    /\ ID (hsSpan heimdallSpan) = newSpanID
    /\ StartBlock (hsSpan heimdallSpan)
       = (if EndBlock span =? 0 then 256 else to_uint64 (EndBlock span + 1))
    /\ (0 < Sprint (config c) ->
        StartBlock (hsSpan heimdallSpan) + 100 * Sprint (config c)
        <= uint64_modulus ->
        EndBlock (hsSpan heimdallSpan)
        = StartBlock (hsSpan heimdallSpan) + 100 * Sprint (config c) - 1)
    /\ hsValidatorSet heimdallSpan = snapValidatorSet snap
    /\ SelectedProducers heimdallSpan = Validators (snapValidatorSet snap)
    /\ hsChainID heimdallSpan = chainID c.
Proof.
  unfold getNextHeimdallSpanForTest. intros H.
  invert_bind H headerNumber w0 Hnumber.
  apply Uint64_Returns in Hnumber as (n & HN & -> & ->).
  invert_bind H r w1 Hspan.
  destruct r as [span | err]; [| discriminate].
  destruct (GetCurrentSpan_Returns _ _ _ _ _ _ Hspan) as (-> & _ & _ & HE).
  invert_bind H r w2 Hsnap.
  destruct r as [snap | err]; [| discriminate].
  apply ret_Returns in H as [[= <-] <-].
  exists n, span, snap.
  cbn [hsSpan hsValidatorSet SelectedProducers hsChainID ID StartBlock
       EndBlock].
  repeat split; try assumption.
  intros Hpos Hfit.
  set (start := if EndBlock span =? 0 then 256
                else to_uint64 (EndBlock span + 1)) in *.
  assert (Hstart : is_uint64 start).
  { unfold start. destruct (EndBlock span =? 0);
      [unfold is_uint64, uint64_modulus; lia | apply to_uint64_range]. }
  rewrite to_uint64_add_r.
  unfold to_uint64 at 1 2. rewrite Zminus_mod_idemp_l.
  apply Z.mod_small. solve_uint64.
Qed.

(** ** The edges of [CommitStates] and of [GetCurrentValidators] *)

(** X23.  Two ways [CommitStates] panics, once the last state id is
    read.  When the chain has no header for the block one sprint before
    the header (as when the number is below the sprint length, where the
    subtraction wraps around), the call dereferences nil, before
    anything is logged or fetched.  When the record count configured for
    the block is negative, the cut of the fetched list is out of
    range. *)
Theorem CommitStates_panics {W : Type} (E : Collaborators W) (c : Bor)
    (header : Header) (n l : Z) (w : W) :
  Number header = Some n ->
  LastStateId E (to_uint64 (big_Uint64 n - 1)) w = Ok l ->
  (chain_GetHeaderByNumber E (to_uint64 (big_Uint64 n - Sprint (config c))) w
   = None ->
   CommitStates E c header w = (Panics nilDereference, w))
  /\ (forall from events w1 val,
        chain_GetHeaderByNumber E
          (to_uint64 (big_Uint64 n - Sprint (config c))) w = Some from ->
        Heimdall_FetchStateSyncEvents E (to_uint64 (big_Uint64 l + 1))
          (Instant_Unix (windowEnd from)) (log_emit E fetchingLog w)
        = (Ok events, w1) ->
        overrideOf c (big_Uint64 n) = Some val ->
        val < 0 ->
        CommitStates E c header w = (Panics sliceOutOfRange, w1)).
Proof.
  intros HN Hlast. unfold CommitStates, Uint64. rewrite HN.
  cbv beta iota zeta delta [bind ret reads calls log writes].
  rewrite Hlast. split.
  - intros ->. reflexivity.
  - intros from events w1 val -> Hfetch Hval Hneg.
    fold (windowEnd from). fold fetchingLog. rewrite Hfetch.
    unfold overrideOf in Hval.
    destruct (OverrideStateSyncRecords (config c)) as [overrides |];
      [| discriminate].
    rewrite Hval.
    assert (Hlen : 0 <= len events) by (unfold len; lia).
    destruct (Z.ltb_spec val (len events)); [| lia].
    unfold lift, slice.
    destruct (Z.leb_spec 0 val); [lia |]. reflexivity.
Qed.

Lemma makeValidators_zip (ret0 : list Address) (ret1 : list Z) :
  forall i,
    (i + length ret0 <= length ret1)%nat ->
    makeValidators ret0 ret1 i
    = Returns (zip_with validatorOf ret0 (drop i ret1)).
Proof.
  induction ret0 as [| a rest IH]; intros i Hlen; cbn [makeValidators].
  - reflexivity.
  - cbn [length] in Hlen.
    destruct (ret1 !! i) as [power |] eqn:Hi.
    + rewrite IH by lia.
      rewrite (drop_S _ _ _ Hi). reflexivity.
    + apply lookup_ge_None in Hi. lia.
Qed.

Lemma makeValidators_short (ret0 : list Address) (ret1 : list Z) :
  forall i,
    (i <= length ret1)%nat ->
    (length ret1 < i + length ret0)%nat ->
    makeValidators ret0 ret1 i = Panics indexOutOfRange.
Proof.
  induction ret0 as [| a rest IH]; intros i Hi Hlen; cbn [makeValidators].
  - cbn in Hlen. lia.
  - cbn [length] in Hlen.
    destruct (ret1 !! i) as [power |] eqn:Hlookup; [| reflexivity].
    apply lookup_lt_Some in Hlookup.
    rewrite IH by lia. reflexivity.
Qed.

(** X24.  What [GetCurrentValidators] makes of the answer of the
    contract, two arrays of addresses and of powers: when there is a
    power for every address, the validators are the addresses, in the
    order of the answer, each with its power as an [int64] (powers beyond
    the addresses are dropped), and the world is left as it was; when
    there are fewer powers than addresses, the call panics on an index
    out of range. *)
Theorem GetCurrentValidators_answer {W : Type} (E : Collaborators W)
    (c : Bor) (headerHash : Hash) (blockNumber : Z) (w : W)
    (data res : bytes) (ret0 : list Address) (ret1 : list Z) :
  Pack_getBorValidators E blockNumber = Ok data ->
  ethAPI_Call E
    {| argGas := maxGas;
       argTo := HexToAddress E (ValidatorContract (config c));
       argData := data |}
    (BlockNumberOrHashWithHash headerHash) w
  = Ok res ->
  Unpack_getBorValidators E res = Ok (ret0, ret1) ->
  ((length ret0 <= length ret1)%nat ->
   GetCurrentValidators E c headerHash blockNumber w
   = (Returns (Ok (zip_with validatorOf ret0 ret1)), w)
   /\ map ValAddress (zip_with validatorOf ret0 ret1) = ret0)
  /\ ((length ret1 < length ret0)%nat ->
      GetCurrentValidators E c headerHash blockNumber w
      = (Panics indexOutOfRange, w)).
Proof.
  intros Hpack Hcall Hunpack. unfold GetCurrentValidators.
  rewrite Hpack. cbv beta iota delta [bind reads lift ret].
  rewrite Hcall, Hunpack. split.
  - intros Hlen. rewrite makeValidators_zip by (cbn; lia).
    split; [reflexivity |].
    clear -Hlen. revert ret1 Hlen.
    induction ret0 as [| a rest IH]; intros [| power ret1] Hlen; cbn in *;
      try reflexivity; try lia.
    f_equal. apply IH. lia.
  - intros Hlen. rewrite makeValidators_short by (cbn; lia). reflexivity.
Qed.

(** ** The order of the producers *)

(** X25.  The producer delay does not decrease with the succession: for
    a configuration of [uint64] fields with a sprint length that is not
    zero, while the delay of the later succession does not overflow, a
    signer earlier in the succession never has the longer delay, no
    delay is below the base delay of the block, and a succession that is
    not positive has the base delay. *)
Theorem CalcProducerDelay_monotone (number s1 s2 : Z) (c : BorConfig) :
  uint64_config c ->
  Sprint c <> 0 ->
  s1 <= s2 ->
  baseDelay number c + s2 * BackupMultiplier c < uint64_modulus ->
  exists d1 d2,
    CalcProducerDelay number s1 c = Returns d1
    /\ CalcProducerDelay number s2 c = Returns d2
    /\ baseDelay number c <= d1 <= d2
    /\ (s1 <= 0 -> d1 = baseDelay number c).
Proof.
  intros (HP & HD & HS & HB) Hsprint Hle Hfit.
  assert (Hbase : is_uint64 (baseDelay number c)).
  { unfold baseDelay. destruct (number mod Sprint c =? 0); assumption. }
  assert (Hcalc : forall s,
            s <= s2 ->
            CalcProducerDelay number s c
            = Returns (baseDelay number c
                       + (if s >? 0 then s * BackupMultiplier c else 0))).
  { intros s Hs. unfold CalcProducerDelay.
    destruct (Z.eqb_spec (Sprint c) 0); [contradiction |].
    fold (baseDelay number c).
    replace (if number mod Sprint c =? 0 then ProducerDelay c else Period c)
      with (baseDelay number c) by reflexivity.
    destruct (Z.gtb_spec s 0) as [Hpos | Hnonpos].
    - f_equal.
      assert (0 <= s * BackupMultiplier c <= s2 * BackupMultiplier c).
      { split; [apply Z.mul_nonneg_nonneg; solve_uint64 |].
        apply Z.mul_le_mono_nonneg_r; solve_uint64. }
      rewrite to_uint64_mul_l.
      rewrite (to_uint64_small (s * BackupMultiplier c)) by solve_uint64.
      apply to_uint64_small. solve_uint64.
    - f_equal. lia. }
  exists (baseDelay number c
          + (if s1 >? 0 then s1 * BackupMultiplier c else 0)),
         (baseDelay number c
          + (if s2 >? 0 then s2 * BackupMultiplier c else 0)).
  split; [apply Hcalc; exact Hle |]. split; [apply Hcalc; lia |].
  assert (HB0 : 0 <= BackupMultiplier c) by solve_uint64.
  split.
  - destruct (Z.gtb_spec s1 0), (Z.gtb_spec s2 0); nia.
  - intros Hs1. destruct (Z.gtb_spec s1 0); lia.
Qed.



(** ** Making the engine *)

Lemma firstBadAlloc_None {W : Type} (E : Collaborators W)
    (allocs : list (string * string)) :
  firstBadAlloc E allocs = None ->
  forall key genesisAlloc,
    (key, genesisAlloc) ∈ allocs ->
    exists alloc, decodeGenesisAlloc E genesisAlloc = Ok alloc.
Proof.
  induction allocs as [| [k a] allocs IH]; cbn; intros H key genesisAlloc Hin.
  - inversion Hin.
  - destruct (decodeGenesisAlloc E a) as [alloc |] eqn:Hdec; [| discriminate].
    apply elem_of_cons in Hin as [[= -> ->] | Hin].
    + exists alloc. exact Hdec.
    + eapply IH; eauto.
Qed.

Lemma firstBadAlloc_Some {W : Type} (E : Collaborators W)
    (allocs : list (string * string)) (key : string) (err : error) :
  firstBadAlloc E allocs = Some (key, err) ->
  exists genesisAlloc,
    (key, genesisAlloc) ∈ allocs
    /\ decodeGenesisAlloc E genesisAlloc = Err err.
Proof.
  induction allocs as [| [k a] allocs IH]; cbn; [discriminate |].
  destruct (decodeGenesisAlloc E a) as [alloc | e] eqn:Hdec.
  - intros H. destruct (IH H) as (g & Hin & Hg).
    exists g. split; [right; exact Hin | exact Hg].
  - intros [= <- <-]. exists a. split; [left | exact Hdec].
Qed.

Lemma forEach_Returns {W A : Type} (l : list A) (f : A -> Go W unit) :
  (forall x w, exists w', f x w = (Returns tt, w')) ->
  forall w, exists w', forEach l f w = (Returns tt, w').
Proof.
  intros Hf. induction l as [| x l IH]; intros w; cbn [forEach].
  - exists w. reflexivity.
  - destruct (Hf x w) as [w1 H1]. destruct (IH w1) as [w2 H2].
    exists w2. unfold bind. rewrite H1. exact H2.
Qed.

(** X1.  The engine [New] returns for a chain configuration with a Bor
    section has the configuration it was given, except that a sprint
    length of 0 is replaced by the default of 64; so its sprint length is
    never 0 and [CalcProducerDelay] never divides by zero on it.  It has
    the chain id and the Heimdall switch it was given, and no signer and
    no signing function yet. *)
Theorem New_engine {W : Type} (E : Collaborators W) (chain : string)
    (borConfig : BorConfig) (withoutHeimdall : bool) (c : Bor) :
  New E chain (Some borConfig) withoutHeimdall = Engine c ->
  config c = (if Sprint borConfig =? 0
              then withSprint borConfig defaultSprintLength
              else borConfig)
  /\ Sprint (config c) <> 0
  /\ (forall number succession,
        exists delay,
          CalcProducerDelay number succession (config c) = Returns delay)
  /\ chainID c = chain
  /\ signer c = zeroAddress
  /\ signFn c = None
  /\ WithoutHeimdall c = withoutHeimdall.
Proof.
  unfold New.
  destruct (firstBadAlloc E _) as [[key err] |]; [discriminate |].
  intros [= <-]. cbn [config chainID signer signFn WithoutHeimdall].
  assert (Hsprint : Sprint (if Sprint borConfig =? 0
                            then withSprint borConfig defaultSprintLength
                            else borConfig) <> 0).
  { destruct (Z.eqb_spec (Sprint borConfig) 0); [discriminate | assumption]. }
  repeat split; try exact Hsprint.
  intros number succession. unfold CalcProducerDelay.
  destruct (Z.eqb_spec (Sprint (if Sprint borConfig =? 0
                                then withSprint borConfig defaultSprintLength
                                else borConfig)) 0); [contradiction |].
  eexists. reflexivity.
Qed.

(** X2.  [New] checks the block allocations once and for all.  On an
    engine that [New] returned, [changeContractCodeIfNeeded] returns nil
    for every block number: no allocation fails to decode later.  When
    [New] panics on an allocation, the key it names is one of the
    configuration and the error is that of decoding its allocation.  And
    when every allocation of the configuration decodes, [New] returns an
    engine. *)
Theorem New_block_allocs {W : Type} (E : Collaborators W) (chain : string)
    (borConfig : BorConfig) (withoutHeimdall : bool) :
  (forall c,
     New E chain (Some borConfig) withoutHeimdall = Engine c ->
     forall headerNumber w,
       fst (changeContractCodeIfNeeded E c headerNumber w) = Returns None)
  /\ (forall key err,
        New E chain (Some borConfig) withoutHeimdall = BadBlockAlloc key err ->
        exists genesisAlloc,
          BlockAlloc borConfig !! key = Some genesisAlloc
          /\ decodeGenesisAlloc E genesisAlloc = Err err)
  /\ ((forall key genesisAlloc,
         BlockAlloc borConfig !! key = Some genesisAlloc ->
         exists alloc, decodeGenesisAlloc E genesisAlloc = Ok alloc) ->
      exists c, New E chain (Some borConfig) withoutHeimdall = Engine c).
Proof.
  unfold New. cbn [config].
  assert (Hallocs : BlockAlloc (if Sprint borConfig =? 0
                                then withSprint borConfig defaultSprintLength
                                else borConfig) = BlockAlloc borConfig).
  { destruct (Sprint borConfig =? 0); reflexivity. }
  rewrite Hallocs.
  destruct (firstBadAlloc E (map_to_list (BlockAlloc borConfig)))
    as [[key0 err0] |] eqn:Hbad.
  - split; [discriminate |]. split.
    + intros key err [= <- <-].
      destruct (firstBadAlloc_Some E _ _ _ Hbad) as (g & Hin & Hg).
      exists g. split; [apply elem_of_map_to_list; exact Hin | exact Hg].
    + intros Hall. exfalso.
      destruct (firstBadAlloc_Some E _ _ _ Hbad) as (g & Hin & Hg).
      apply elem_of_map_to_list in Hin.
      destruct (Hall _ _ Hin) as [alloc Halloc]. congruence.
  - split; [| split; [discriminate | intros _; eexists; reflexivity]].
    intros c [= <-] headerNumber w.
    unfold changeContractCodeIfNeeded. cbn [config]. rewrite Hallocs.
    destruct (BlockAlloc borConfig !! FormatUint headerNumber)
      as [genesisAlloc |] eqn:Hlookup; [| reflexivity].
    apply elem_of_map_to_list in Hlookup.
    destruct (firstBadAlloc_None E _ Hbad _ _ Hlookup) as [alloc Halloc].
    unfold decodeGenesisAlloc in Halloc. rewrite Halloc.
    destruct (forEach_Returns (map_to_list alloc)
                (fun account =>
                   log E LvlInfo "change contract code" None ;;
                   writes (state_SetCode E (fst account) (snd account)))
                (fun x w => ex_intro _ _ eq_refl) w) as [w' Hrun].
    unfold bind at 1. rewrite Hrun. reflexivity.
Qed.

(** X3.  An engine fresh from [New], on which [Authorize] was not
    called, seals nothing: [Seal] never starts the signing goroutine on
    it.  It returns nil only in the pause on a period of 0 with a block
    without transactions, and then the one log line is all it did.  On
    every other outcome (an error or a panic) it leaves the world it was
    given, or the world the lookup of the parent snapshot left: nothing
    is handed to the scheduler. *)
Theorem Seal_needs_Authorize {W : Type} (E : Collaborators W) (chain : string)
    (borConfig : BorConfig) (withoutHeimdall : bool) (c : Bor) (fuel : nat)
    (block : Block) (w : W) :
  New E chain (Some borConfig) withoutHeimdall = Engine c ->
  let header := blockHeader block in
  let run := Seal E c fuel block w in
  (fst run = Returns None ->
   Period (config c) = 0
   /\ Transactions block = []
   /\ snd run = log_emit E pausedLog w)
  /\ (fst run <> Returns None ->
      snd run = w
      \/ exists n,
           Number header = Some n
           /\ snd run
              = snd (snapshot E c fuel (to_uint64 (big_Uint64 n - 1))
                              (ParentHash header) [] w)).
Proof.
  intros Hnew header run.
  assert (Hsign : signFn c = None).
  { unfold New in Hnew.
    destruct (firstBadAlloc E _) as [[key err] |]; [discriminate |].
    injection Hnew as <-. reflexivity. }
  subst run. unfold Seal. fold header. unfold Uint64.
  destruct (Number header) as [n |] eqn:HN;
    cbv beta iota delta [bind ret panic];
    [| split; [discriminate | intros _; left; reflexivity]].
  destruct (big_Uint64 n =? 0);
    [split; [discriminate | intros _; left; reflexivity] |].
  destruct ((Period (config c) =? 0) && (len (Transactions block) =? 0))
    eqn:Hpaused.
  { apply andb_prop in Hpaused as [HP HT].
    apply Z.eqb_eq in HP. apply Z.eqb_eq in HT.
    split; [| intros Hne; contradiction Hne; reflexivity].
    intros _. split; [exact HP |]. split; [| reflexivity].
    destruct (Transactions block); [reflexivity | discriminate HT]. }
  match goal with
  | |- (fst ?R = _ -> _) /\ _ =>
    enough (Hcore : fst R <> Returns None
                    /\ snd R
                       = snd (snapshot E c fuel
                                (to_uint64 (big_Uint64 n - 1))
                                (ParentHash header) [] w))
  end.
  { destruct Hcore as [Hfst Hsnd]. split; [contradiction |].
    intros _. right. exists n. split; [reflexivity | exact Hsnd]. }
  destruct (snapshot E c fuel (to_uint64 (big_Uint64 n - 1))
                     (ParentHash header) [] w)
    as [[[snap | err] | p |] w1]; cbn [fst snd];
    try (split; [discriminate | reflexivity]).
  destruct (negb _); [split; [discriminate | reflexivity] |].
  destruct (GetSignerSuccessionNumber E snap (signer c));
    [| split; [discriminate | reflexivity]].
  cbv beta iota zeta delta [reads lift]. rewrite Hsign.
  destruct (BorRLP E header); split; try discriminate; reflexivity.
Qed.

(** ** The change set of [getUpdatedValidatorSet] *)

Lemma validatorContains_Some (a : list Validator) (x n : Validator) :
  validatorContains a x = Some n ->
  exists before after,
    a = before ++ n :: after
    /\ ValAddress n = ValAddress x
    /\ ValAddress x ∉ map ValAddress before.
Proof.
  induction a as [| y a IH]; cbn; [discriminate |].
  destruct (Z.eqb_spec (ValAddress y) (ValAddress x)) as [Heq | Hne].
  - intros [= <-]. exists [], a. repeat split; [exact Heq |].
    cbn. apply not_elem_of_nil.
  - intros H. destruct (IH H) as (before & after & -> & Hn & Hnot).
    exists (y :: before), after. repeat split; [exact Hn |].
    cbn. intros Hin. apply elem_of_cons in Hin as [Hin | Hin];
      [symmetry in Hin; contradiction | contradiction].
Qed.

Lemma validatorContains_None (a : list Validator) (x : Validator) :
  validatorContains a x = None <-> ValAddress x ∉ map ValAddress a.
Proof.
  induction a as [| y a IH]; cbn.
  - split; [intros _; apply not_elem_of_nil | reflexivity].
  - destruct (Z.eqb_spec (ValAddress y) (ValAddress x)) as [Heq | Hne].
    + split; [discriminate |]. intros H. exfalso. apply H.
      apply elem_of_cons. left. symmetry. exact Heq.
    + rewrite IH. rewrite not_elem_of_cons. split; [| tauto].
      intros H. split; [congruence | exact H].
Qed.

Lemma updateOldVals_addresses (oldVals newVals : list Validator) :
  map ValAddress (updateOldVals oldVals newVals) = map ValAddress oldVals.
Proof.
  unfold updateOldVals. rewrite map_map. apply map_ext.
  intros ov. destruct (validatorContains newVals ov); reflexivity.
Qed.

Lemma addNewVals_addresses (newVals : list Validator) :
  forall changes,
    NoDup (map ValAddress changes) ->
    NoDup (map ValAddress (addNewVals changes newVals))
    /\ (forall a, a ∈ map ValAddress (addNewVals changes newVals)
                  <-> a ∈ map ValAddress changes
                      \/ a ∈ map ValAddress newVals)
    /\ exists added, addNewVals changes newVals = changes ++ added
                     /\ sublist added newVals.
Proof.
  induction newVals as [| nv newVals IH]; intros changes Hnodup;
    cbn [addNewVals].
  - split; [exact Hnodup |]. split.
    + intros a. cbn. rewrite elem_of_nil. tauto.
    + exists []. rewrite app_nil_r. split; [reflexivity | constructor].
  - destruct (validatorContains changes nv) as [n |] eqn:Hcontains.
    + destruct (IH changes Hnodup) as (Hnd & Hin & added & Hadd & Hsub).
      split; [exact Hnd |]. split.
      * intros a. rewrite Hin. cbn [map]. rewrite elem_of_cons.
        apply validatorContains_Some in Hcontains
          as (before & after & -> & Hn & _).
        split; [tauto |]. intros [H | [-> | H]]; [tauto | | tauto].
        left. rewrite map_app. cbn [map]. rewrite elem_of_app, elem_of_cons.
        right. left. symmetry. exact Hn.
      * exists added. split; [exact Hadd |]. constructor. exact Hsub.
    + apply validatorContains_None in Hcontains.
      assert (Hnodup' : NoDup (map ValAddress (changes ++ [nv]))).
      { rewrite map_app. cbn [map]. apply NoDup_app.
        split; [exact Hnodup |]. split.
        - intros a Ha Hin. apply list_elem_of_singleton in Hin. subst a.
          contradiction.
        - apply NoDup_singleton. }
      destruct (IH _ Hnodup') as (Hnd & Hin & added & Hadd & Hsub).
      split; [exact Hnd |]. split.
      * intros a. rewrite Hin, map_app. cbn [map].
        rewrite elem_of_app, list_elem_of_singleton, elem_of_cons. tauto.
      * exists (nv :: added). rewrite Hadd, <- app_assoc.
        split; [reflexivity |]. constructor. exact Hsub.
Qed.

(** X26.  The change set [getUpdatedValidatorSet] hands to
    [UpdateWithChangeSet], for old validators of distinct addresses: it
    has no address twice (also when the new list has), its addresses are
    those of the old and of the new validators, and it is the old
    validators, in their order and with their powers updated, followed
    by some of the new validators, in their order. *)
Theorem validatorChanges_addresses (oldVals newVals : list Validator) :
  NoDup (map ValAddress oldVals) ->
  NoDup (map ValAddress (validatorChanges oldVals newVals))
  /\ (forall a, a ∈ map ValAddress (validatorChanges oldVals newVals)
                <-> a ∈ map ValAddress oldVals \/ a ∈ map ValAddress newVals)
  /\ exists added,
       validatorChanges oldVals newVals
       = updateOldVals oldVals newVals ++ added
       /\ sublist added newVals.
Proof.
  intros Hnodup. unfold validatorChanges.
  destruct (addNewVals_addresses newVals (updateOldVals oldVals newVals))
    as (Hnd & Hin & Hadded).
  { rewrite updateOldVals_addresses. exact Hnodup. }
  split; [exact Hnd |]. split; [| exact Hadded].
  intros a. rewrite Hin, updateOldVals_addresses. reflexivity.
Qed.

Lemma addNewVals_powers (newVals0 : list Validator) :
  forall newVals changes skipped,
    newVals0 = skipped ++ newVals ->
    (forall nv, nv ∈ skipped -> ValAddress nv ∈ map ValAddress changes) ->
    Forall (fun v => VotingPower v = newPower newVals0 v) changes ->
    Forall (fun v => VotingPower v = newPower newVals0 v)
           (addNewVals changes newVals).
Proof.
  induction newVals as [| nv newVals IH]; intros changes skipped Heq Hskip Hall;
    cbn [addNewVals]; [exact Hall |].
  destruct (validatorContains changes nv) as [n |] eqn:Hcontains.
  - apply (IH changes (skipped ++ [nv])).
    + rewrite <- app_assoc. exact Heq.
    + intros x Hx. apply elem_of_app in Hx as [Hx | Hx]; [auto |].
      apply list_elem_of_singleton in Hx. subst x.
      apply validatorContains_Some in Hcontains
        as (before & after & -> & Hn & _).
      rewrite map_app. cbn [map]. rewrite elem_of_app, elem_of_cons.
      right. left. symmetry. exact Hn.
    + exact Hall.
  - apply validatorContains_None in Hcontains.
    apply (IH (changes ++ [nv]) (skipped ++ [nv])).
    + rewrite <- app_assoc. exact Heq.
    + intros x Hx. rewrite map_app, elem_of_app.
      apply elem_of_app in Hx as [Hx | Hx]; [left; auto |].
      apply list_elem_of_singleton in Hx. subst x.
      right. cbn. apply list_elem_of_singleton. reflexivity.
    + apply Forall_app. split; [exact Hall |].
      constructor; [| constructor].
      unfold newPower. subst newVals0.
      assert (Hfirst : validatorContains (skipped ++ nv :: newVals) nv
                       = Some nv).
      { assert (Hnot : ValAddress nv ∉ map ValAddress skipped).
        { intros Hin. apply list_elem_of_fmap in Hin as (x & Hx & Hin).
          apply Hskip in Hin. rewrite <- Hx in Hin. contradiction. }
        clear -Hnot. induction skipped as [| y skipped IH]; cbn.
        - rewrite Z.eqb_refl. reflexivity.
        - cbn in Hnot. apply not_elem_of_cons in Hnot as [Hne Hnot].
          destruct (Z.eqb_spec (ValAddress y) (ValAddress nv));
            [congruence | apply IH; exact Hnot]. }
      rewrite Hfirst. reflexivity.
Qed.

(** X27.  Every validator of the change set has the voting power the new
    list gives its address: the power of the first new validator at the
    address, and 0 (a removal) for an old validator whose address the new
    list does not have.  The old validators keep everything but their
    voting power. *)
Theorem validatorChanges_powers (oldVals newVals : list Validator) :
  Forall (fun v => VotingPower v = newPower newVals v)
         (validatorChanges oldVals newVals)
  /\ Forall2 (fun ov v =>
                v = withVotingPower ov (newPower newVals ov))
             oldVals (updateOldVals oldVals newVals).
Proof.
  split.
  - unfold validatorChanges.
    apply (addNewVals_powers newVals newVals _ []).
    + reflexivity.
    + intros nv Hnv. inversion Hnv.
    + unfold updateOldVals. apply Forall_fmap, Forall_forall.
      intros ov _. cbn. unfold newPower.
      assert (Hsame : forall f, validatorContains newVals (withVotingPower ov f)
                                = validatorContains newVals ov).
      { intros f. induction newVals as [| y l IH]; cbn; [reflexivity |].
        rewrite IH. reflexivity. }
      destruct (validatorContains newVals ov) as [f |]; cbn;
        rewrite Hsame; reflexivity.
  - unfold updateOldVals. apply Forall2_fmap_r, Forall_Forall2_diag.
    apply Forall_forall. intros ov _. unfold newPower, compose.
    destruct (validatorContains newVals ov); reflexivity.
Qed.

(** ** The core count of the fingerprint *)

Lemma to_int64_add_l (a b : Z) : to_int64 (to_int64 a + b) = to_int64 (a + b).
Proof.
  unfold to_int64.
  replace ((a + 2 ^ 63) mod uint64_modulus - 2 ^ 63 + b + 2 ^ 63)
    with ((a + 2 ^ 63) mod uint64_modulus + b) by lia.
  rewrite Zplus_mod_idemp_l. do 2 f_equal. lia.
Qed.

Lemma to_int64_small (x : Z) : - 2 ^ 63 <= x < 2 ^ 63 -> to_int64 x = x.
Proof.
  intros H. unfold to_int64, uint64_modulus.
  rewrite Z.mod_small by lia. lia.
Qed.

Lemma getCoresCount_fold (cp : list InfoStat) :
  forall acc,
    foldl (fun cores info => to_int64 (cores + Cores info)) (to_int64 acc) cp
    = to_int64 (acc + sumCores cp).
Proof.
  induction cp as [| info cp IH]; intros acc; cbn [foldl sumCores foldr].
  - f_equal. lia.
  - rewrite to_int64_add_l, IH. f_equal.
    fold (sumCores cp). lia.
Qed.

Lemma sumCores_bounds (cp : list InfoStat) :
  Forall (fun info => - 2 ^ 31 <= Cores info < 2 ^ 31) cp ->
  - (len cp * 2 ^ 31) <= sumCores cp <= len cp * 2 ^ 31.
Proof.
  unfold len. induction 1 as [| info cp Hinfo Hall IH].
  - cbn. lia.
  - cbn [sumCores foldr length]. fold (sumCores cp).
    rewrite Nat2Z.inj_succ. lia.
Qed.

(** X28.  [getCoresCount] is the sum of the core counts of the
    processors, as a 64-bit integer: the sum wrapped around in general,
    and the exact sum for fewer than 2^32 processors with [int32] core
    counts.  So it is 0 for no processor and does not depend on the
    order of the processors. *)
Theorem getCoresCount_is_sum (cp : list InfoStat) :
  getCoresCount cp = to_int64 (sumCores cp)
  /\ (Forall (fun info => - 2 ^ 31 <= Cores info < 2 ^ 31) cp ->
      len cp < 2 ^ 32 ->
      getCoresCount cp = sumCores cp)
  /\ (forall cp', cp ≡ₚ cp' -> getCoresCount cp' = getCoresCount cp).
Proof.
  assert (Hsum : forall l, getCoresCount l = to_int64 (sumCores l)).
  { intros l. unfold getCoresCount.
    change 0 with (to_int64 0) at 1. rewrite getCoresCount_fold.
    f_equal. }
  split; [apply Hsum |]. split.
  - intros Hall Hlen. rewrite Hsum. apply to_int64_small.
    pose proof (sumCores_bounds cp Hall). nia.
  - intros cp' Hperm. rewrite !Hsum. f_equal.
    induction Hperm; cbn [sumCores foldr];
      fold sumCores in *; unfold sumCores in *; cbn [foldr]; lia.
Qed.

(** * The further properties on explicit runs *)

(** The chain of the runs has a genesis header, answers [GetHeader] with
    headers of the hash and number asked for, and writes a validator on
    40 bytes. *)
Lemma Runs_has_genesis : has_genesis Runs.E0.
Proof. intros w. vm_compute. discriminate. Defined.

Lemma Runs_lawful_chain : lawful_chain Runs.E0.
Proof.
  intros hash number w header.
  change (chain_GetHeader Runs.E0 hash number w)
    with (if (1000 =? hash) && (0 =? number) then Some Runs.genesis
          else None).
  destruct (Z.eqb_spec 1000 hash) as [<- |]; [| discriminate].
  destruct (Z.eqb_spec 0 number) as [<- |]; [| discriminate].
  intros [= <-]. split; [reflexivity |].
  exists 0. split; reflexivity.
Defined.

Lemma bigEndian_length (width : nat) :
  forall x, length (Toy.bigEndian width x) = width.
Proof.
  induction width as [| width IH]; intros x; cbn [Toy.bigEndian].
  - reflexivity.
  - rewrite length_app, IH. cbn. lia.
Defined.

Lemma Runs_header_bytes_40 : header_bytes_40 Runs.EAt2.
Proof.
  intros v. unfold len.
  change (HeaderBytes Runs.EAt2 v) with (Toy.headerBytes v).
  unfold Toy.headerBytes. rewrite length_app, !bigEndian_length.
  reflexivity.
Defined.

(** ** X1 *)

Lemma New_engine_witness :
  New Runs.E0 "137" (Some (withSprint Runs.cfg 0)) false
  = Engine (Runs.engineOf (withSprint Runs.cfg 64) 0)
  /\ Sprint (config (Runs.engineOf (withSprint Runs.cfg 64) 0)) <> 0
  /\ signFn (Runs.engineOf (withSprint Runs.cfg 64) 0) = None.
Proof.
  assert (H : New Runs.E0 "137" (Some (withSprint Runs.cfg 0)) false
              = Engine (Runs.engineOf (withSprint Runs.cfg 64) 0))
    by (vm_compute; reflexivity).
  split; [exact H |].
  destruct (New_engine Runs.E0 "137" (withSprint Runs.cfg 0) false _ H)
    as (_ & Hsprint & _ & _ & _ & Hsign & _).
  split; [exact Hsprint | exact Hsign].
Defined.

(** ** X3 *)

Lemma Seal_needs_Authorize_witness :
  let paused :=
    Seal Runs.E0 (Runs.engineOf Runs.cfgPeriod0 0) 1
      {| blockHeader := Runs.header 5 1004 50 []; Transactions := [] |}
      Runs.w0 in
  let busy :=
    Seal Runs.E0 (Runs.engineOf Runs.cfg 0) 1
      {| blockHeader := Runs.prepared1; Transactions := [7] |}
      Runs.w0At100 in
  New Runs.E0 "137" (Some Runs.cfgPeriod0) false
  = Engine (Runs.engineOf Runs.cfgPeriod0 0)
  /\ fst paused = Returns None
  /\ snd paused = Toy.addLog pausedLog Runs.w0
  /\ New Runs.E0 "137" (Some Runs.cfg) false
     = Engine (Runs.engineOf Runs.cfg 0)
  /\ fst busy <> Returns None
  /\ (snd busy = Runs.w0At100
      \/ exists n,
           Number Runs.prepared1 = Some n
           /\ snd busy
              = snd (snapshot Runs.E0 (Runs.engineOf Runs.cfg 0) 1
                       (to_uint64 (big_Uint64 n - 1))
                       (ParentHash Runs.prepared1) [] Runs.w0At100))
  /\ Toy.goroutines (snd busy) = [].
Proof.
  intros paused busy.
  assert (H1 : New Runs.E0 "137" (Some Runs.cfgPeriod0) false
               = Engine (Runs.engineOf Runs.cfgPeriod0 0))
    by (vm_compute; reflexivity).
  assert (H2 : fst paused = Returns None) by (vm_compute; reflexivity).
  assert (H4 : New Runs.E0 "137" (Some Runs.cfg) false
               = Engine (Runs.engineOf Runs.cfg 0))
    by (vm_compute; reflexivity).
  assert (H5 : fst busy <> Returns None) by (vm_compute; discriminate).
  split; [exact H1 |]. split; [exact H2 |].
  split.
  { exact (proj2 (proj2 (proj1 (Seal_needs_Authorize Runs.E0 "137"
                                  Runs.cfgPeriod0 false _ 1 _ Runs.w0 H1)
                           H2))). }
  split; [exact H4 |]. split; [exact H5 |].
  split.
  { exact (proj2 (Seal_needs_Authorize Runs.E0 "137" Runs.cfg false _ 1
                    {| blockHeader := Runs.prepared1; Transactions := [7] |}
                    Runs.w0At100 H4) H5). }
  vm_compute. reflexivity.
Defined.

(** ** X4 *)

Lemma snapshot_terminates_witness :
  has_genesis Runs.E0
  /\ is_uint64 1
  /\ (Z.to_nat 1 < 2)%nat
  /\ fst (snapshot Runs.E0 (Runs.engine 10) 2 1 1001 [] Runs.w0)
     <> OutOfFuel.
Proof.
  assert (H2 : is_uint64 1) by (unfold is_uint64, uint64_modulus; lia).
  assert (H3 : (Z.to_nat 1 < 2)%nat) by (simpl; lia).
  split; [exact Runs_has_genesis |]. split; [exact H2 |].
  split; [exact H3 |].
  exact (snapshot_terminates Runs.E0 (Runs.engine 10) 2 1 1001 [] Runs.w0
           Runs_has_genesis H2 H3).
Defined.

(** ** X5 *)

Lemma verifyHeader_terminates_witness :
  has_genesis Runs.E0
  /\ (forall n, Number (Runs.sealed1 10 102 2) = Some n ->
                (Z.to_nat (big_Uint64 n) <= 1)%nat)
  /\ fst (verifyHeader Runs.E0 (Runs.engine 10) 1 (Runs.sealed1 10 102 2) []
                       Runs.w0At100)
     <> OutOfFuel.
Proof.
  assert (H2 : forall n, Number (Runs.sealed1 10 102 2) = Some n ->
                         (Z.to_nat (big_Uint64 n) <= 1)%nat).
  { intros n [= <-]. vm_compute. lia. }
  split; [exact Runs_has_genesis |]. split; [exact H2 |].
  exact (verifyHeader_terminates Runs.E0 (Runs.engine 10) 1
           (Runs.sealed1 10 102 2) [] Runs.w0At100 Runs_has_genesis H2).
Defined.

(** ** X6 *)

Lemma snapshot_applies_contiguous_headers_witness :
  let run := snapshot Runs.E0 (Runs.engine 10) 2 1 1001
               [Runs.sealed1 10 102 2] Runs.w0 in
  lawful_chain Runs.E0
  /\ run = (Returns (Ok (Toy.applyHeaders
                           (Runs.snapshotOf
                              [Runs.validator 10; Runs.validator 11])
                           [Runs.sealed1 10 102 2])),
            snd run)
  /\ exists snap hs w1,
       snapshotLoop Runs.E0 (Runs.engine 10) 2 1 1001
         [Runs.sealed1 10 102 2] [] Runs.w0
       = (Returns (Ok (snap, hs)), w1)
       /\ descending Runs.E0 1 1001 hs
       /\ fst (Snapshot_apply Runs.E0 snap (reverse hs) w1)
          = Ok (Toy.applyHeaders
                  (Runs.snapshotOf [Runs.validator 10; Runs.validator 11])
                  [Runs.sealed1 10 102 2]).
Proof.
  intros run.
  assert (H : run = (Returns (Ok (Toy.applyHeaders
                                    (Runs.snapshotOf
                                       [Runs.validator 10; Runs.validator 11])
                                    [Runs.sealed1 10 102 2])),
                     snd run))
    by (vm_compute; reflexivity).
  split; [exact Runs_lawful_chain |]. split; [exact H |].
  exact (snapshot_applies_contiguous_headers Runs.E0 (Runs.engine 10) 2 1
           1001 [Runs.sealed1 10 102 2] Runs.w0 _ _ Runs_lawful_chain H).
Defined.

(** ** X7 *)

Lemma verifyHeader_accepted_witness :
  let run := verifyHeader Runs.E0 (Runs.engine 10) 1 (Runs.sealed1 10 102 2)
               [] Runs.w0At100 in
  run = (Returns None, snd run)
  /\ MixDigest (Runs.sealed1 10 102 2) = zeroHash
  /\ UncleHash (Runs.sealed1 10 102 2) = uncleHash Runs.E0
  /\ verifyCascadingFields Runs.E0 (Runs.engine 10) 1
       (Runs.sealed1 10 102 2) [] Runs.w0At100
     = (Returns None, snd run).
Proof.
  intros run.
  assert (H : run = (Returns None, snd run)) by (vm_compute; reflexivity).
  split; [exact H |].
  destruct (verifyHeader_accepted Runs.E0 (Runs.engine 10) 1
              (Runs.sealed1 10 102 2) [] Runs.w0At100 _ H)
    as (n & _ & _ & _ & _ & _ & Hmix & Huncle & _ & _ & Hcascading).
  split; [exact Hmix |]. split; [exact Huncle | exact Hcascading].
Defined.

(** ** X8 *)

Lemma verifyCascadingFields_accepted_witness :
  let run := verifyCascadingFields Runs.E0 (Runs.engine 10) 1
               (Runs.sealed1 10 102 2) [] Runs.w0At100 in
  run = (Returns None, snd run)
  /\ exists n,
       Number (Runs.sealed1 10 102 2) = Some n
       /\ (big_Uint64 n = 0 -> snd run = Runs.w0At100)
       /\ (big_Uint64 n <> 0 ->
           exists parent m snap w1,
             parentOf Runs.E0 (Runs.sealed1 10 102 2) (big_Uint64 n) []
                      Runs.w0At100
             = Some parent
             /\ Number parent = Some m
             /\ big_Uint64 m = big_Uint64 n - 1
             /\ Header_Hash Runs.E0 parent
                = ParentHash (Runs.sealed1 10 102 2)
             /\ to_uint64 (Time parent + Period (config (Runs.engine 10)))
                <= Time (Runs.sealed1 10 102 2)
             /\ snapshot Runs.E0 (Runs.engine 10) 1
                  (to_uint64 (big_Uint64 n - 1))
                  (ParentHash (Runs.sealed1 10 102 2)) [] Runs.w0At100
                = (Returns (Ok snap), w1)
             /\ verifySeal Runs.E0 (Runs.engine 10) 1
                  (Runs.sealed1 10 102 2) [] w1
                = (Returns None, snd run)).
Proof.
  intros run.
  assert (H : run = (Returns None, snd run)) by (vm_compute; reflexivity).
  split; [exact H |].
  exact (verifyCascadingFields_accepted Runs.E0 (Runs.engine 10) 1
           (Runs.sealed1 10 102 2) [] Runs.w0At100 _ H).
Defined.

(** ** X9 *)

Lemma verifyCascadingFields_validator_bytes_witness :
  let header :=
    Runs.sealed3 (concat (map Toy.headerBytes
                              [Runs.validator 10; Runs.validator 11])) in
  let run := verifyCascadingFields Runs.EAt2 (Runs.engine 10) 1 header []
               Runs.w2At110 in
  header_bytes_40 Runs.EAt2
  /\ Number header = Some 3
  /\ big_Uint64 3 <> 0
  /\ run = (Returns None, snd run)
  /\ to_uint64 (big_Uint64 3 + 1) mod Sprint (config (Runs.engine 10)) = 0
  /\ exists w1, sprintEndChecked Runs.EAt2 (Runs.engine 10) header
                  (big_Uint64 3) w1.
Proof.
  intros header run.
  assert (H3 : big_Uint64 3 <> 0) by (vm_compute; discriminate).
  assert (H4 : run = (Returns None, snd run)) by (vm_compute; reflexivity).
  assert (H5 : to_uint64 (big_Uint64 3 + 1)
               mod Sprint (config (Runs.engine 10)) = 0)
    by (vm_compute; reflexivity).
  split; [exact Runs_header_bytes_40 |]. split; [reflexivity |].
  split; [exact H3 |]. split; [exact H4 |]. split; [exact H5 |].
  destruct (verifyCascadingFields_validator_bytes Runs.EAt2 (Runs.engine 10)
              1 header [] Runs.w2At110 _ 3 Runs_header_bytes_40 eq_refl H3 H4)
    as (parent & snap & w1 & _ & _ & Hend & _).
  exists w1. exact (Hend H5).
Defined.

(** ** X10 *)

Lemma verifyCascadingFields_rejects_witness :
  Number (Runs.header 3 1002 50 []) = Some 3
  /\ big_Uint64 3 <> 0
  /\ parentOf Runs.E0 (Runs.header 3 1002 50 []) (big_Uint64 3) [] Runs.w0
     = None
  /\ verifyCascadingFields Runs.E0 (Runs.engine 10) 1
       (Runs.header 3 1002 50 []) [] Runs.w0
     = (Returns (Some ErrUnknownAncestor), Runs.w0).
Proof.
  assert (H2 : big_Uint64 3 <> 0) by (vm_compute; discriminate).
  assert (H3 : parentOf Runs.E0 (Runs.header 3 1002 50 []) (big_Uint64 3) []
                        Runs.w0 = None)
    by (vm_compute; reflexivity).
  split; [reflexivity |]. split; [exact H2 |]. split; [exact H3 |].
  exact (proj1 (proj2 (verifyCascadingFields_rejects Runs.E0 (Runs.engine 10)
                         1 (Runs.header 3 1002 50 []) [] Runs.w0 3 eq_refl))
           H2 H3).
Defined.

(** ** X11 *)

Lemma verifySeal_accepted_witness :
  let run := verifySeal Runs.E0 (Runs.engine 10) 1 (Runs.sealed1 10 102 2) []
               Runs.w0At100 in
  run = (Returns None, snd run)
  /\ exists n snap w1 signerAddress succession,
       Number (Runs.sealed1 10 102 2) = Some n
       /\ big_Uint64 n <> 0
       /\ snapshot Runs.E0 (Runs.engine 10) 1 (to_uint64 (big_Uint64 n - 1))
            (ParentHash (Runs.sealed1 10 102 2)) [] Runs.w0At100
          = (Returns (Ok snap), w1)
       /\ ecrecover Runs.E0 (Runs.sealed1 10 102 2) w1
          = (Returns (Ok signerAddress), snd run)
       /\ HasAddress Runs.E0 (snapValidatorSet snap) signerAddress = true
       /\ GetSignerSuccessionNumber Runs.E0 snap signerAddress
          = Ok succession.
Proof.
  intros run.
  assert (H : run = (Returns None, snd run)) by (vm_compute; reflexivity).
  split; [exact H |].
  destruct (verifySeal_accepted Runs.E0 (Runs.engine 10) 1
              (Runs.sealed1 10 102 2) [] Runs.w0At100 _ H)
    as (n & snap & w1 & signerAddress & succession & H1 & H2 & H3 & H4 & H5
        & H6 & _).
  exists n, snap, w1, signerAddress, succession.
  repeat split; assumption.
Defined.

(** ** X12 *)

Lemma verifySeal_rejects_witness :
  let header := Runs.sealed1 11 103 1 in
  let snap := Runs.snapshotOf [Runs.validator 10; Runs.validator 11] in
  let w1 := Toy.addRecent 1000 snap Runs.w0At100 in
  Number header = Some 1
  /\ big_Uint64 1 <> 0
  /\ snapshot Runs.E0 (Runs.engine 10) 1 (to_uint64 (big_Uint64 1 - 1))
       (ParentHash header) [] Runs.w0At100
     = (Returns (Ok snap), w1)
  /\ ecrecover Runs.E0 header w1 = (Returns (Ok 11), w1)
  /\ HasAddress Runs.E0 (snapValidatorSet snap) 11 = true
  /\ GetSignerSuccessionNumber Runs.E0 snap 11 = Ok 1
  /\ parentOf Runs.E0 header (big_Uint64 1) [] w1 = Some Runs.genesis
  /\ CalcProducerDelay (big_Uint64 1) 1 (config (Runs.engine 10)) = Returns 4
  /\ Time header < to_uint64 (Time Runs.genesis + 4)
  /\ verifySeal Runs.E0 (Runs.engine 10) 1 header [] Runs.w0At100
     = (Returns (Some (BlockTooSoonError (big_Uint64 1) 1)), w1).
Proof.
  intros header snap w1.
  assert (H2 : big_Uint64 1 <> 0) by (vm_compute; discriminate).
  assert (H3 : snapshot Runs.E0 (Runs.engine 10) 1
                 (to_uint64 (big_Uint64 1 - 1)) (ParentHash header) []
                 Runs.w0At100
               = (Returns (Ok snap), w1))
    by (vm_compute; reflexivity).
  assert (H4 : ecrecover Runs.E0 header w1 = (Returns (Ok 11), w1))
    by (vm_compute; reflexivity).
  assert (H5 : HasAddress Runs.E0 (snapValidatorSet snap) 11 = true)
    by (vm_compute; reflexivity).
  assert (H6 : GetSignerSuccessionNumber Runs.E0 snap 11 = Ok 1)
    by (vm_compute; reflexivity).
  assert (H7 : parentOf Runs.E0 header (big_Uint64 1) [] w1
               = Some Runs.genesis)
    by (vm_compute; reflexivity).
  assert (H8 : CalcProducerDelay (big_Uint64 1) 1 (config (Runs.engine 10))
               = Returns 4)
    by (vm_compute; reflexivity).
  assert (H9 : Time header < to_uint64 (Time Runs.genesis + 4))
    by (vm_compute; reflexivity).
  split; [reflexivity |]. split; [exact H2 |]. split; [exact H3 |].
  split; [exact H4 |]. split; [exact H5 |]. split; [exact H6 |].
  split; [exact H7 |]. split; [exact H8 |]. split; [exact H9 |].
  exact (proj1 (proj2 (proj2 (verifySeal_rejects Runs.E0 (Runs.engine 10) 1
                                header [] Runs.w0At100 w1 w1 1 snap 11
                                eq_refl)
                         H2 H3 H4)
                  1 Runs.genesis 4 H5 H6 H7 H8)
           H9).
Defined.

(** ** X13 *)

Lemma VerifyHeaders_results_witness :
  let headers := [Runs.sealed1 10 102 2; Runs.sealed1 11 103 1] in
  let run := VerifyHeaders Runs.E0 (Runs.engine 10) 1 (fun _ => false)
               headers Runs.w0At100 in
  run = (Returns [None; Some ErrUnknownAncestor], snd run)
  /\ (exists worlds,
        length worlds = S (length headers)
        /\ worlds !! 0%nat = Some Runs.w0At100
        /\ worlds !! length headers = Some (snd run)
        /\ forall i header,
             headers !! i = Some header ->
             exists wi wi' err,
               worlds !! i = Some wi
               /\ worlds !! S i = Some wi'
               /\ [None; Some ErrUnknownAncestor] !! i = Some err
               /\ verifyHeader Runs.E0 (Runs.engine 10) 1 header
                    (take i headers) wi
                  = (Returns err, wi'))
  /\ exists w'',
       VerifyHeaders Runs.E0 (Runs.engine 10) 1
         (fun i => bool_decide (i = 1%nat)) headers Runs.w0At100
       = (Returns [None], w'').
Proof.
  intros headers run.
  assert (H : run = (Returns [None; Some ErrUnknownAncestor], snd run))
    by (vm_compute; reflexivity).
  split; [exact H |].
  destruct (VerifyHeaders_results Runs.E0 (Runs.engine 10) 1 headers
              Runs.w0At100 _ _ H) as (_ & Horder & _ & Habort).
  split; [exact Horder |].
  exact (Habort (fun i => bool_decide (i = 1%nat))).
Defined.

(** ** X14 *)

Lemma Prepare_header_layout_witness :
  let run := Prepare Runs.E0 (Runs.engine 10) 1 Runs.block1 Runs.w0 in
  run = (Returns (Runs.prepared1, None), snd run)
  /\ Extra Runs.prepared1 = replicate 97 x00
  /\ validateHeaderExtraField (Extra Runs.prepared1) = None
  /\ Difficulty Runs.prepared1 = Some 2.
Proof.
  intros run.
  assert (H : run = (Returns (Runs.prepared1, None), snd run))
    by (vm_compute; reflexivity).
  split; [exact H |].
  destruct (Prepare_header_layout Runs.E0 (Runs.engine 10) 1 Runs.block1
              Runs.prepared1 Runs.w0 _ H)
    as (n & snap & validatorBytes & _ & _ & _ & _ & _ & _ & _ & _ & _ & _
        & _ & _ & _ & Hextra).
  split; [reflexivity |]. split; [exact Hextra | reflexivity].
Defined.

(** ** X15 *)

Lemma Prepare_difficulty_is_CalcDifficulty_witness :
  let run := Prepare Runs.E0 (Runs.engine 10) 1 Runs.block1 Runs.w0 in
  run = (Returns (Runs.prepared1, None), snd run)
  /\ Number Runs.block1 = Some 1
  /\ Number Runs.genesis = Some 0
  /\ big_Uint64 0 = to_uint64 (big_Uint64 1 - 1)
  /\ Header_Hash Runs.E0 Runs.genesis = ParentHash Runs.block1
  /\ CalcDifficulty Runs.E0 (Runs.engine 10) 1 Runs.genesis Runs.w0
     = (Returns (Some 2), snd run).
Proof.
  intros run.
  assert (H : run = (Returns (Runs.prepared1, None), snd run))
    by (vm_compute; reflexivity).
  assert (H4 : big_Uint64 0 = to_uint64 (big_Uint64 1 - 1))
    by (vm_compute; reflexivity).
  assert (H5 : Header_Hash Runs.E0 Runs.genesis = ParentHash Runs.block1)
    by (vm_compute; reflexivity).
  split; [exact H |]. split; [reflexivity |]. split; [reflexivity |].
  split; [exact H4 |]. split; [exact H5 |].
  exact (Prepare_difficulty_is_CalcDifficulty Runs.E0 (Runs.engine 10) 1
           Runs.block1 Runs.prepared1 Runs.genesis Runs.w0 _ 1 0 H eq_refl
           eq_refl H4 H5).
Defined.

(** ** X16 *)


(** ** X17 *)

Lemma Seal_sealed_witness :
  let block := {| blockHeader := Runs.prepared1; Transactions := [7] |} in
  let run := Seal Runs.E0 Runs.signingEngine 1 block Runs.w0At100 in
  run = (Returns None, snd run)
  /\ exists n,
       Number Runs.prepared1 = Some n
       /\ big_Uint64 n <> 0
       /\ exists task,
            Toy.goroutines (snd run) = [task]
            /\ Transactions (sealedBlock task) = [7]
            /\ drop (length (Extra Runs.prepared1) - Z.to_nat extraSeal)
                    (Extra (blockHeader (sealedBlock task)))
               = Toy.sealOf 10.
Proof.
  intros block run.
  assert (H : run = (Returns None, snd run)) by (vm_compute; reflexivity).
  split; [exact H |].
  destruct (Seal_sealed Runs.E0 Runs.signingEngine 1 block Runs.w0At100 _ H)
    as (n & HN & Hnz & _).
  exists n. split; [exact HN |]. split; [exact Hnz |].
  eexists. split; [vm_compute; reflexivity |].
  split; vm_compute; reflexivity.
Defined.

(** ** X18 *)

Lemma Seal_refusals_witness :
  let block := {| blockHeader := Runs.prepared1; Transactions := [7] |} in
  let snap := Runs.snapshotOf [Runs.validator 10; Runs.validator 11] in
  let w1 := Toy.addRecent 1000 snap Runs.w0At100 in
  Number (blockHeader block) = Some 1
  /\ big_Uint64 1 <> 0
  /\ (Period (config (Runs.engine 12)) <> 0 \/ Transactions block <> [])
  /\ snapshot Runs.E0 (Runs.engine 12) 1 (to_uint64 (big_Uint64 1 - 1))
       (ParentHash (blockHeader block)) [] Runs.w0At100
     = (Returns (Ok snap), w1)
  /\ HasAddress Runs.E0 (snapValidatorSet snap) (signer (Runs.engine 12))
     = false
  /\ Seal Runs.E0 (Runs.engine 12) 1 block Runs.w0At100
     = (Returns (Some (UnauthorizedSignerError
                         (to_uint64 (big_Uint64 1 - 1))
                         (signer (Runs.engine 12)))), w1).
Proof.
  intros block snap w1.
  assert (H2 : big_Uint64 1 <> 0) by (vm_compute; discriminate).
  assert (H3 : Period (config (Runs.engine 12)) <> 0
               \/ Transactions block <> [])
    by (right; discriminate).
  assert (H4 : snapshot Runs.E0 (Runs.engine 12) 1
                 (to_uint64 (big_Uint64 1 - 1))
                 (ParentHash (blockHeader block)) [] Runs.w0At100
               = (Returns (Ok snap), w1))
    by (vm_compute; reflexivity).
  assert (H5 : HasAddress Runs.E0 (snapValidatorSet snap)
                 (signer (Runs.engine 12)) = false)
    by (vm_compute; reflexivity).
  split; [reflexivity |]. split; [exact H2 |]. split; [exact H3 |].
  split; [exact H4 |]. split; [exact H5 |].
  exact (proj1 (Seal_refusals Runs.E0 (Runs.engine 12) 1 block Runs.w0At100
                  w1 1 snap eq_refl H2 H3 H4) H5).
Defined.

(** ** X20 *)

Lemma checkAndCommitSpan_when_witness :
  let span := {| ID := 5; StartBlock := 100; EndBlock := 163 |} in
  Number Runs.block160 = Some 160
  /\ GetCurrentSpan Runs.EHeimdall (Runs.engine 10)
       (ParentHash Runs.block160) Runs.w0
     = (Returns (Ok span), Runs.w0)
  /\ is_uint64 (Sprint (config (Runs.engine 10)))
  /\ Sprint (config (Runs.engine 10)) <> 0
  /\ Sprint (config (Runs.engine 10)) < EndBlock span
  /\ big_Uint64 160 = EndBlock span - Sprint (config (Runs.engine 10)) + 1
  /\ checkAndCommitSpan Runs.EHeimdall (Runs.engine 10) 1 Runs.block160
       Runs.w0
     = fetchAndCommitSpan Runs.EHeimdall (Runs.engine 10) 1
         (to_uint64 (ID span + 1)) Runs.block160 Runs.w0
  /\ Number Runs.block4 = Some 4
  /\ GetCurrentSpan Runs.EHeimdall (Runs.engine 10) (ParentHash Runs.block4)
       Runs.w0
     = (Returns (Ok span), Runs.w0)
  /\ EndBlock span <> 0
  /\ big_Uint64 4 <> EndBlock span - Sprint (config (Runs.engine 10)) + 1
  /\ checkAndCommitSpan Runs.EHeimdall (Runs.engine 10) 1 Runs.block4
       Runs.w0
     = (Returns None, Runs.w0).
Proof.
  intros span.
  assert (H2 : GetCurrentSpan Runs.EHeimdall (Runs.engine 10)
                 (ParentHash Runs.block160) Runs.w0
               = (Returns (Ok span), Runs.w0))
    by (vm_compute; reflexivity).
  assert (H3 : is_uint64 (Sprint (config (Runs.engine 10))))
    by (unfold is_uint64, uint64_modulus; simpl; lia).
  assert (H4 : Sprint (config (Runs.engine 10)) <> 0) by (simpl; lia).
  assert (H5 : Sprint (config (Runs.engine 10)) < EndBlock span)
    by (simpl; lia).
  assert (H6 : big_Uint64 160
               = EndBlock span - Sprint (config (Runs.engine 10)) + 1)
    by (vm_compute; reflexivity).
  assert (H9 : GetCurrentSpan Runs.EHeimdall (Runs.engine 10)
                 (ParentHash Runs.block4) Runs.w0
               = (Returns (Ok span), Runs.w0))
    by (vm_compute; reflexivity).
  assert (H10 : EndBlock span <> 0) by (simpl; lia).
  assert (H11 : big_Uint64 4
                <> EndBlock span - Sprint (config (Runs.engine 10)) + 1)
    by (vm_compute; discriminate).
  split; [reflexivity |]. split; [exact H2 |]. split; [exact H3 |].
  split; [exact H4 |]. split; [exact H5 |]. split; [exact H6 |].
  split.
  { exact (proj1 (checkAndCommitSpan_when Runs.EHeimdall (Runs.engine 10) 1
                    Runs.block160 Runs.w0 Runs.w0 160 span eq_refl H2 H3 H4)
             (or_intror (conj H5 H6))). }
  split; [reflexivity |]. split; [exact H9 |]. split; [exact H10 |].
  split; [exact H11 |].
  exact (proj2 (checkAndCommitSpan_when Runs.EHeimdall (Runs.engine 10) 1
                  Runs.block4 Runs.w0 Runs.w0 4 span eq_refl H9 H3 H4)
           H10 (or_intror H11)).
Defined.

(** ** X21 *)

Lemma fetchAndCommitSpan_outcomes_witness :
  WithoutHeimdall (Runs.engine 10) = false
  /\ Heimdall_FetchSpan Runs.EHeimdall 6 Runs.w0 = (Ok Runs.nextSpan, Runs.w0)
  /\ hsChainID Runs.nextSpan = chainID (Runs.engine 10)
  /\ fetchAndCommitSpan Runs.EHeimdall (Runs.engine 10) 1 6 Runs.block160
       Runs.w0
     = (Returns None,
        Toy.addEvmCall
          (getSystemMessage 4096 [])
          (Toy.addLog committingLog Runs.w0)).
Proof.
  split; [reflexivity |]. split; [reflexivity |]. split; [reflexivity |].
  exact (proj2 (fetchAndCommitSpan_outcomes Runs.EHeimdall (Runs.engine 10) 1
                  6 Runs.block160 Runs.w0 Runs.w0 Runs.nextSpan eq_refl
                  eq_refl)
           [] [] [] eq_refl eq_refl eq_refl eq_refl).
Defined.

(** ** X22 *)

Lemma getNextHeimdallSpanForTest_span_witness :
  let run := getNextHeimdallSpanForTest Runs.E0 Runs.testEngine 1 6
               Runs.block1 Runs.w0 in
  let heimdallSpan :=
    {| hsSpan := {| ID := 6; StartBlock := 164; EndBlock := 563 |};
       hsValidatorSet :=
         {| Validators := [Runs.validator 10; Runs.validator 11];
            Proposer := Some (Runs.validator 10) |};
       SelectedProducers := [Runs.validator 10; Runs.validator 11];
       hsChainID := "137" |} in
  run = (Returns (Ok heimdallSpan), snd run)
  /\ SelectedProducers heimdallSpan
     = Validators (hsValidatorSet heimdallSpan)
  /\ hsChainID heimdallSpan = chainID Runs.testEngine.
Proof.
  intros run heimdallSpan.
  assert (H : run = (Returns (Ok heimdallSpan), snd run))
    by (vm_compute; reflexivity).
  split; [exact H |].
  destruct (getNextHeimdallSpanForTest_span Runs.E0 Runs.testEngine 1 6
              Runs.block1 Runs.w0 _ heimdallSpan H)
    as (n & span & snap & _ & _ & _ & _ & _ & _ & Hset & Hproducers & Hchain).
  split; [| exact Hchain].
  rewrite Hproducers, Hset. reflexivity.
Defined.

(** ** X23 *)

Lemma CommitStates_panics_witness :
  Number (Runs.header 3 1002 50 []) = Some 3
  /\ LastStateId Runs.E0 (to_uint64 (big_Uint64 3 - 1)) Runs.w0 = Ok 10
  /\ chain_GetHeaderByNumber Runs.E0
       (to_uint64 (big_Uint64 3 - Sprint (config (Runs.engine 10)))) Runs.w0
     = None
  /\ CommitStates Runs.E0 (Runs.engine 10) (Runs.header 3 1002 50 [])
       Runs.w0
     = (Panics nilDereference, Runs.w0).
Proof.
  assert (H3 : chain_GetHeaderByNumber Runs.E0
                 (to_uint64 (big_Uint64 3 - Sprint (config (Runs.engine 10))))
                 Runs.w0 = None)
    by (vm_compute; reflexivity).
  split; [reflexivity |]. split; [reflexivity |]. split; [exact H3 |].
  exact (proj1 (CommitStates_panics Runs.E0 (Runs.engine 10)
                  (Runs.header 3 1002 50 []) 3 10 Runs.w0 eq_refl eq_refl)
           H3).
Defined.

(** ** X24 *)

Lemma GetCurrentValidators_answer_witness :
  Pack_getBorValidators Runs.E0 1 = Ok []
  /\ ethAPI_Call Runs.E0
       {| argGas := maxGas;
          argTo := HexToAddress Runs.E0
                     (ValidatorContract (config (Runs.engine 10)));
          argData := [] |}
       (BlockNumberOrHashWithHash 1000) Runs.w0
     = Ok []
  /\ Unpack_getBorValidators Runs.E0 [] = Ok ([10; 11], [1; 1])
  /\ (length [10; 11] <= length [1; 1])%nat
  /\ GetCurrentValidators Runs.E0 (Runs.engine 10) 1000 1 Runs.w0
     = (Returns (Ok [Runs.validator 10; Runs.validator 11]), Runs.w0).
Proof.
  assert (H4 : (length [10; 11] <= length [1; 1])%nat) by (simpl; lia).
  split; [reflexivity |]. split; [reflexivity |]. split; [reflexivity |].
  split; [exact H4 |].
  exact (proj1 (proj1 (GetCurrentValidators_answer Runs.E0 (Runs.engine 10)
                         1000 1 Runs.w0 [] [] [10; 11] [1; 1] eq_refl eq_refl
                         eq_refl) H4)).
Defined.

(** ** X25 *)

Lemma CalcProducerDelay_monotone_witness :
  uint64_config Runs.cfg
  /\ Sprint Runs.cfg <> 0
  /\ 1 <= 2
  /\ baseDelay 5 Runs.cfg + 2 * BackupMultiplier Runs.cfg < uint64_modulus
  /\ exists d1 d2,
       CalcProducerDelay 5 1 Runs.cfg = Returns d1
       /\ CalcProducerDelay 5 2 Runs.cfg = Returns d2
       /\ baseDelay 5 Runs.cfg <= d1 <= d2
       /\ (1 <= 0 -> d1 = baseDelay 5 Runs.cfg).
Proof.
  assert (H1 : uint64_config Runs.cfg)
    by (unfold uint64_config, is_uint64, uint64_modulus; simpl; lia).
  assert (H2 : Sprint Runs.cfg <> 0) by (simpl; lia).
  assert (H3 : 1 <= 2) by lia.
  assert (H4 : baseDelay 5 Runs.cfg + 2 * BackupMultiplier Runs.cfg
               < uint64_modulus)
    by (apply Z.ltb_lt; vm_compute; reflexivity).
  split; [exact H1 |]. split; [exact H2 |]. split; [exact H3 |].
  split; [exact H4 |].
  exact (CalcProducerDelay_monotone 5 1 2 Runs.cfg H1 H2 H3 H4).
Defined.

(** ** X26 *)

Lemma validatorChanges_addresses_witness :
  let oldVals := [Runs.validator 10; Runs.validator 11] in
  let newVals :=
    [withVotingPower (Runs.validator 11) 5; Runs.validator 12;
     withVotingPower (Runs.validator 12) 9] in
  NoDup (map ValAddress oldVals)
  /\ validatorChanges oldVals newVals
     = [withVotingPower (Runs.validator 10) 0;
        withVotingPower (Runs.validator 11) 5; Runs.validator 12]
  /\ NoDup (map ValAddress (validatorChanges oldVals newVals)).
Proof.
  intros oldVals newVals.
  assert (H : NoDup (map ValAddress oldVals))
    by (apply (bool_decide_unpack (NoDup (map ValAddress oldVals)));
        vm_compute; exact I).
  split; [exact H |]. split; [reflexivity |].
  exact (proj1 (validatorChanges_addresses oldVals newVals H)).
Defined.
